(** * llm-gateway: request-processing plane

    A shallow embedding of the gateway's router, executor, handlers,
    provider adapters, authenticator and configuration ([internal/proxy],
    [internal/provider/...], [pkg/ratelimit], [internal/billing],
    [internal/auth], [config], [cmd/gateway]) together with the properties
    the specification states about them and further properties of the
    code.

    Conventions.
    - Go [int]/[int64] values are [Z]; the one addition performed on them
      wraps around at 64 bits ([wrap64]).
    - Go [float64] is Rocq's primitive binary64 [float]; every operation
      rounds to nearest, ties to even, and no two operations are fused.
    - Go [error] values are represented by their [Error()] message.
    - [time.Time] values are [Z] nanoseconds on the monotonic clock; the
      zero [time.Time] is [None].
    - Every effect a handler performs on its collaborators (limiter store,
      router, response writer, usage store) is recorded, in program order,
      in a trace of [Event]s; providers are reached through the router
      only.
    - A call on the router reads the clock; the readings are arguments of
      the call, one per call of [Route] and two per breaker-guarded call
      (admission and completion).
    - The tracing span of a request is not modelled. *)

From Stdlib Require Import ZArith List String Ascii Bool Lia Floats DecimalString.
From stdpp Require Import base gmap strings list.

Import ListNotations.
Local Open Scope string_scope.
Local Open Scope Z_scope.

(** ** Basic types *)

Definition error := string.
Definition Time := Z.

Definition Millisecond : Z := 1000000.
Definition Second : Z := 1000 * Millisecond.

(** A Go call either returns a value or a non-nil [error]. *)
Inductive result (A : Type) : Type :=
| Ok (a : A)
| Failed (e : error).
Arguments Ok {A} a.
Arguments Failed {A} e.

(** [err != nil]. *)
Definition notNil (err : option error) : bool :=
  match err with
  | Some _ => true
  | None => false
  end.

(** Two's-complement wrap-around of 64-bit [int] arithmetic. *)
Definition wrap64 (z : Z) : Z := (z + 2 ^ 63) mod 2 ^ 64 - 2 ^ 63.

(** ** float64 *)

(** [float64(n)] for an [int] [n]: the nearest binary64 value, ties to
    even. *)
Definition float64_of_int (n : Z) : float :=
  SF2Prim (binary_normalize prec emax n 0 false).

(** ** Package provider *)

Module provider.

Record Message := mkMessage {
  Message_Role : string;
  Message_Content : string
}.

Record Request := mkRequest {
  Request_Model : string;
  Request_Messages : list Message;
  Request_MaxTokens : Z;
  Request_Temperature : float;
  Request_Stream : bool;
  Request_TenantID : string;
  Request_RequestID : string
}.

Record Response := mkResponse {
  Response_ID : string;
  Response_Content : string;
  Response_InputTokens : Z;
  Response_OutputTokens : Z;
  Response_Model : string;
  Response_Provider : string;
  Response_LatencyMs : Z
}.

Record Chunk := mkChunk {
  Chunk_Delta : string;
  Chunk_Done : bool;
  Chunk_Err : option error
}.

(** What a goroutine observes at a
    [select { case ch <- c: ...; case <-ctx.Done(): ... }]:
    [None] when the request context is never cancelled, [Some k] when the
    first [k] sends go through and the next [select] takes the
    [ctx.Done()] branch. *)
Definition Budget := option nat.

(** The [Provider] interface.  [CompleteStream] yields, on success, the
    chunks received from the returned channel until it is closed. *)
Record Provider := mkProvider {
  Name : string;
  CostPerInputToken : float;
  CostPerOutputToken : float;
  SupportedModels : list string;
  Complete : Request -> result Response;
  CompleteStream : Request -> Budget -> result (list Chunk)
}.

End provider.
Import provider.

(** ** Package gobreaker (github.com/sony/gobreaker) *)

Module gobreaker.

(** Modelled from the spec: the circuit-breaker library is an external
    dependency whose source is not part of the repository; the state
    machine below follows section 4.4 (three states, trip on the
    [ReadyToTrip] predicate, open for [Timeout], half-open probe budget
    [MaxRequests], counters cleared at the start of every [Interval]). *)
Inductive State := StateClosed | StateHalfOpen | StateOpen.

(** Modelled from the spec: equality of breaker states. *)
Definition State_eqb (a b : State) : bool :=
  match a, b with
  | StateClosed, StateClosed => true
  | StateHalfOpen, StateHalfOpen => true
  | StateOpen, StateOpen => true
  | _, _ => false
  end.

(** Modelled from the spec: the counters of the current interval. *)
Record Counts := mkCounts {
  Requests : Z;
  TotalSuccesses : Z;
  TotalFailures : Z;
  ConsecutiveSuccesses : Z;
  ConsecutiveFailures : Z
}.

(** Modelled from the spec: the counters at the start of an interval, and
    their updates on a request, a success and a failure. *)
Definition Counts_clear : Counts := mkCounts 0 0 0 0 0.

Definition Counts_onRequest (c : Counts) : Counts :=
  mkCounts (Requests c + 1) (TotalSuccesses c) (TotalFailures c)
           (ConsecutiveSuccesses c) (ConsecutiveFailures c).

Definition Counts_onSuccess (c : Counts) : Counts :=
  mkCounts (Requests c) (TotalSuccesses c + 1) (TotalFailures c)
           (ConsecutiveSuccesses c + 1) 0.

Definition Counts_onFailure (c : Counts) : Counts :=
  mkCounts (Requests c) (TotalSuccesses c) (TotalFailures c + 1)
           0 (ConsecutiveFailures c + 1).

(** Modelled from the spec: the configuration [NewRouter] passes to the
    library. *)
Record Settings := mkSettings {
  Settings_Name : string;
  MaxRequests : Z;
  Interval : Z;
  Timeout : Z;
  ReadyToTrip : Counts -> bool
}.

(** Modelled from the spec: one breaker; [expiry] is the end of the
    current counting interval (closed) or the earliest next probe time
    (open). *)
Record CircuitBreaker := mkCircuitBreaker {
  settings : Settings;
  state : State;
  generation : Z;
  counts : Counts;
  expiry : option Time
}.

(** Modelled from the spec: the errors the breaker synthesises. *)
Definition ErrOpenState : error := "circuit breaker is open".
Definition ErrTooManyRequests : error := "too many requests".

(** Modelled from the spec: a new generation clears the counters and
    re-arms the expiry for the state the breaker is in. *)
Definition toNewGeneration (now : Time) (cb : CircuitBreaker) : CircuitBreaker :=
  mkCircuitBreaker (settings cb) (state cb) (generation cb + 1) Counts_clear
    (match state cb with
     | StateClosed =>
         if Interval (settings cb) =? 0 then None
         else Some (now + Interval (settings cb))
     | StateOpen => Some (now + Timeout (settings cb))
     | StateHalfOpen => None
     end).

(** Modelled from the spec: a state change starts a new generation. *)
Definition setState (st : State) (now : Time) (cb : CircuitBreaker) : CircuitBreaker :=
  if State_eqb (state cb) st then cb
  else toNewGeneration now
         (mkCircuitBreaker (settings cb) st (generation cb) (counts cb) (expiry cb)).

(** Modelled from the spec: [expiry.Before(now)]; the zero time is before
    every reading of the clock. *)
Definition before (e : option Time) (now : Time) : bool :=
  match e with
  | Some t => t <? now
  | None => true
  end.

(** Modelled from the spec: the state as of [now]; a closed breaker whose
    interval has elapsed starts a new interval, an open breaker whose
    timeout has elapsed becomes half-open. *)
Definition currentState (now : Time) (cb : CircuitBreaker) : CircuitBreaker :=
  match state cb with
  | StateClosed =>
      match expiry cb with
      | Some t => if t <? now then toNewGeneration now cb else cb
      | None => cb
      end
  | StateOpen =>
      if before (expiry cb) now then setState StateHalfOpen now cb else cb
  | StateHalfOpen => cb
  end.

(** Modelled from the spec: [cb.State()], which also performs the
    time-driven transition. *)
Definition State_of (now : Time) (cb : CircuitBreaker) : State * CircuitBreaker :=
  let cb' := currentState now cb in (state cb', cb').

(** Modelled from the spec: constructor with the library's defaults for
    unset fields. *)
Definition NewCircuitBreaker (now : Time) (st : Settings) : CircuitBreaker :=
  let st' :=
    mkSettings (Settings_Name st)
      (if MaxRequests st =? 0 then 1 else MaxRequests st)
      (if Interval st <=? 0 then 0 else Interval st)
      (if Timeout st <=? 0 then 60 * Second else Timeout st)
      (ReadyToTrip st) in
  toNewGeneration now (mkCircuitBreaker st' StateClosed 0 Counts_clear None).

(** Modelled from the spec: admission of a call at time [now]. *)
Definition beforeRequest (now : Time) (cb : CircuitBreaker)
  : CircuitBreaker * result Z :=
  let cb' := currentState now cb in
  match state cb' with
  | StateOpen => (cb', Failed ErrOpenState)
  | StateHalfOpen =>
      if MaxRequests (settings cb') <=? Requests (counts cb')
      then (cb', Failed ErrTooManyRequests)
      else (mkCircuitBreaker (settings cb') (state cb') (generation cb')
              (Counts_onRequest (counts cb')) (expiry cb'),
            Ok (generation cb'))
  | StateClosed =>
      (mkCircuitBreaker (settings cb') (state cb') (generation cb')
         (Counts_onRequest (counts cb')) (expiry cb'),
       Ok (generation cb'))
  end.

Definition with_counts (c : Counts) (cb : CircuitBreaker) : CircuitBreaker :=
  mkCircuitBreaker (settings cb) (state cb) (generation cb) c (expiry cb).

(** Modelled from the spec: a success advances the success counters; in
    the half-open state [MaxRequests] consecutive successes close the
    breaker. *)
Definition onSuccess (now : Time) (cb : CircuitBreaker) : CircuitBreaker :=
  match state cb with
  | StateClosed => with_counts (Counts_onSuccess (counts cb)) cb
  | StateHalfOpen =>
      let cb1 := with_counts (Counts_onSuccess (counts cb)) cb in
      if MaxRequests (settings cb1) <=? ConsecutiveSuccesses (counts cb1)
      then setState StateClosed now cb1
      else cb1
  | StateOpen => cb
  end.

(** Modelled from the spec: a failure in the closed state advances the
    failure counters and opens the breaker when [ReadyToTrip] holds; a
    failure in the half-open state reopens it. *)
Definition onFailure (now : Time) (cb : CircuitBreaker) : CircuitBreaker :=
  match state cb with
  | StateClosed =>
      let cb1 := with_counts (Counts_onFailure (counts cb)) cb in
      if ReadyToTrip (settings cb1) (counts cb1)
      then setState StateOpen now cb1
      else cb1
  | StateHalfOpen => setState StateOpen now cb
  | StateOpen => cb
  end.

(** Modelled from the spec: completion of a call admitted in generation
    [gen]; a result that arrives in a later generation is dropped. *)
Definition afterRequest (gen : Z) (success : bool) (now : Time)
    (cb : CircuitBreaker) : CircuitBreaker :=
  let cb' := currentState now cb in
  if generation cb' =? gen then
    if success then onSuccess now cb' else onFailure now cb'
  else cb'.

(** Modelled from the spec: [cb.Execute(req)]: the wrapped operation is
    attempted only when the breaker admits it ([t0]); its outcome is
    reported at [t1]. *)
Definition Execute {A : Type} (t0 t1 : Time) (req : unit -> result A)
    (cb : CircuitBreaker) : CircuitBreaker * result A :=
  match beforeRequest t0 cb with
  | (cb1, Failed e) => (cb1, Failed e)
  | (cb1, Ok gen) =>
      let r := req tt in
      (afterRequest gen (match r with Ok _ => true | Failed _ => false end) t1 cb1, r)
  end.

End gobreaker.

(** ** Package proxy: the router *)

Module proxy.

Import gobreaker.

(** The router.  [breakers] maps a provider name to its breaker; the
    breakers are shared mutable objects, so a call that changes a breaker
    yields the router with the changed breaker under the same name. *)
Record Router := mkRouter {
  providers : list Provider;
  breakers : gmap string CircuitBreaker
}.

(** The breaker settings of [NewRouter]. *)
Definition breakerSettings (p : Provider) : Settings :=
  mkSettings (Name p) 3 (5 * Second) (30 * Second)
    (fun c => 3 <=? ConsecutiveFailures c).

(** [NewRouter], called at time [now]. *)
Definition NewRouter (now : Time) (ps : list Provider) : Router :=
  mkRouter ps
    (fold_left
       (fun bs p => <[Name p := NewCircuitBreaker now (breakerSettings p)]> bs)
       ps ∅).

(** [m == req.Model] for some [m] in [p.SupportedModels()]. *)
Definition supports (p : Provider) (model : string) : bool :=
  existsb (fun m => String.eqb m model) (SupportedModels p).

(** The first loop of [Route]: the candidates in registration order.
    [r.breakers[p.Name()]] is a nil pointer for a provider that has no
    breaker, and [cb.State()] on it panics: that is [None]. *)
Fixpoint collect (now : Time) (model : string) (ps : list Provider)
    (bs : gmap string CircuitBreaker) (candidates : list Provider)
  : option (gmap string CircuitBreaker * list Provider) :=
  match ps with
  | [] => Some (bs, candidates)
  | p :: ps' =>
      match bs !! Name p with
      | None => None
      | Some cb =>
          let (st, cb') := State_of now cb in
          let bs' := <[Name p := cb']> bs in
          if State_eqb st StateOpen then collect now model ps' bs' candidates
          else if negb (String.eqb model "") then
            if supports p model
            then collect now model ps' bs' (candidates ++ [p])
            else collect now model ps' bs' candidates
          else collect now model ps' bs' (candidates ++ [p])
      end
  end.

(** The second loop of [Route]: keep the current best unless a later
    candidate is strictly cheaper per input token. *)
Definition cheapest (best : Provider) (rest : list Provider) : Provider :=
  fold_left
    (fun best p =>
       if (CostPerInputToken p <? CostPerInputToken best)%float then p else best)
    rest best.

Definition errAllUnavailable : error := "all providers unavailable".

(** [Router.Route], called at time [now]: the error when no candidate is
    left, the first candidate for a request that names a model, the
    cheapest candidate otherwise. *)
Definition Route (now : Time) (req : Request) (r : Router)
  : option (Router * result Provider) :=
  match collect now (Request_Model req) (providers r) (breakers r) [] with
  | None => None
  | Some (bs, candidates) =>
      let r' := mkRouter (providers r) bs in
      match candidates with
      | [] => Some (r', Failed errAllUnavailable)
      | first :: rest =>
          if negb (String.eqb (Request_Model req) "") then Some (r', Ok first)
          else Some (r', Ok (cheapest first rest))
      end
  end.

(** [Router.Execute]; the provider call is made at [t0] and returns at
    [t1]. *)
Definition Execute (t0 t1 : Time) (req : Request) (p : Provider) (r : Router)
  : option (Router * result Response) :=
  match breakers r !! Name p with
  | None => None
  | Some cb =>
      let (cb', res) := gobreaker.Execute t0 t1 (fun _ => Complete p req) cb in
      Some (mkRouter (providers r) (<[Name p := cb']> (breakers r)), res)
  end.

(** The clock readings of one [ExecuteStream] call: the [State()] check,
    the report of a synchronous [CompleteStream] error, and the report of
    an error chunk received as the [i]-th chunk. *)
Record StreamClock := mkStreamClock {
  t_state : Time;
  t_open : Time;
  t_chunk : nat -> Time
}.

(** One send has gone through. *)
Definition Budget_pred (b : Budget) : Budget :=
  match b with
  | Some k => Some (Nat.pred k)
  | None => None
  end.

(** The forwarding goroutine of [ExecuteStream]: [orig] is what remains
    to be received from [origCh], the result is what is sent on
    [wrappedCh] before it is closed.  Error chunks are reported to the
    breaker before they are forwarded. *)
Fixpoint forward (clk : StreamClock) (i : nat) (b : Budget)
    (orig : list Chunk) (cb : CircuitBreaker) : CircuitBreaker * list Chunk :=
  match orig with
  | [] => (cb, [])
  | chunk :: rest =>
      let cb1 :=
        match Chunk_Err chunk with
        | Some e =>
            fst (gobreaker.Execute (t_chunk clk i) (t_chunk clk i)
                   (fun _ => @Failed unit e) cb)
        | None => cb
        end in
      match b with
      | Some O => (cb1, [])
      | _ =>
          let (cb2, out) := forward clk (S i) (Budget_pred b) rest cb1 in
          (cb2, chunk :: out)
      end
  end.

(** [Router.ExecuteStream].  [pb] and [wb] are what the provider's
    goroutine and the forwarding goroutine observe of the cancellation of
    [ctx]. *)
Definition ExecuteStream (clk : StreamClock) (pb wb : Budget) (req : Request)
    (p : Provider) (r : Router) : option (Router * result (list Chunk)) :=
  match breakers r !! Name p with
  | None => None
  | Some cb =>
      let (st, cb0) := State_of (t_state clk) cb in
      let put cb' := mkRouter (providers r) (<[Name p := cb']> (breakers r)) in
      if State_eqb st StateOpen then
        Some (put cb0,
              Failed ("circuit breaker is open for provider: " ++ Name p))
      else
        match CompleteStream p req pb with
        | Failed e =>
            let cb1 :=
              fst (gobreaker.Execute (t_open clk) (t_open clk)
                     (fun _ => @Failed unit e) cb0) in
            Some (put cb1, Failed e)
        | Ok origCh =>
            let (cb1, wrappedCh) := forward clk 0 wb origCh cb0 in
            Some (put cb1, Ok wrappedCh)
        end
  end.

End proxy.
Import gobreaker proxy.

(** ** Package strings and fmt *)

Definition LF : string := String "010"%char EmptyString.
Definition DQ : string := String "034"%char EmptyString.
Definition BS : string := String "092"%char EmptyString.

(** A Go string literal in double quotes. *)
Definition quoted (s : string) : string := DQ ++ s ++ DQ.

(** [strings.ReplaceAll s old new] for a non-empty [old]: the
    non-overlapping occurrences of [old], leftmost first.  [skip] counts
    the bytes of a matched occurrence that are still to be dropped. *)
Fixpoint ReplaceAll_from (skip : nat) (s old new : string) : string :=
  match s with
  | EmptyString => EmptyString
  | String c s' =>
      match skip with
      | S k => ReplaceAll_from k s' old new
      | O =>
          if String.prefix old s
          then new ++ ReplaceAll_from (Nat.pred (String.length old)) s' old new
          else String c (ReplaceAll_from 0 s' old new)
      end
  end.

(** [strings.ReplaceAll]. *)
Definition ReplaceAll (s old new : string) : string :=
  ReplaceAll_from 0 s old new.

(** [strings.TrimPrefix]. *)
Definition TrimPrefix (s pre : string) : string :=
  if String.prefix pre s
  then String.substring (String.length pre) (String.length s - String.length pre) s
  else s.

(** ** Package encoding/json *)

(** The documents handed to [json.Marshal] and
    [json.NewEncoder(w).Encode], as values: an object lists the members
    that are emitted, in the order of the source. *)
#[local] Unset Elimination Schemes.
Inductive JSON :=
| JString (s : string)
| JInt (n : Z)
| JFloat (f : float)
| JBool (b : bool)
| JNull
| JArray (l : list JSON)
| JObject (members : list (string * JSON)).
#[local] Set Elimination Schemes.

(** The member [key] of an object. *)
Definition member (key : string) (v : JSON) : option JSON :=
  match v with
  | JObject members =>
      match List.find (fun kv => String.eqb (fst kv) key) members with
      | Some kv => Some (snd kv)
      | None => None
      end
  | _ => None
  end.

(** ** Package ratelimit *)

Module ratelimit.

Record Result := mkResult { Allowed : bool }.

(** The limiter store: [AllowN(ctx, key, n)] answers with a result and an
    optional error. *)
Definition Store := string -> Z -> Result * option error.

Record Limiter := mkLimiter { store : Store }.

(** A call made on the store. *)
Inductive StoreCall := AllowN (key : string) (n : Z).

(** [Limiter.Allow]: the answer, and the call it makes on the store. *)
Definition Allow (l : Limiter) (tenantID : string) (tokens : Z)
  : bool * option error * list StoreCall :=
  let key := "ratelimit:tenant:" ++ tenantID in
  (match store l key tokens with
   | (_, Some err) => (false, Some err)
   | (res, None) => (Allowed res, None)
   end,
   [AllowN key tokens]).

End ratelimit.

(** ** Package billing *)

Module billing.

Record UsageLog := mkUsageLog {
  ID : string;
  TenantID : string;
  RequestID : string;
  Provider : string;
  Model : string;
  InputTokens : Z;
  OutputTokens : Z;
  CostUSD : float;
  LatencyMs : Z;
  CreatedAt : option Time
}.

End billing.

(** ** Package proxy: the handlers *)

Module handler.

(** The effects of a handler, in program order: a call on the limiter
    store, on [Router.Route], [Router.Execute] or [Router.ExecuteStream]
    (with the name of the provider passed), on the response writer
    ([Header().Set], [WriteHeader], [json.NewEncoder(w).Encode],
    [fmt.Fprintf(w, ...)], [Flush], [http.Error]), and the start of the
    goroutine that calls [billing.LogUsage]. *)
Inductive Event :=
| EvStore (call : ratelimit.StoreCall)
| EvRoute
| EvExecute (providerName : string)
| EvExecuteStream (providerName : string)
| EvSetHeader (k v : string)
| EvWriteHeader (code : Z)
| EvEncode (v : JSON)
| EvFprintf (s : string)
| EvFlush
| EvHttpError (msg : string) (code : Z)
| EvGoLogUsage (log : billing.UsageLog).

(** What one request brings with it: the values attached to its context
    by the authenticator, the outcome of decoding its body, the UUIDs
    drawn for it, whether its response writer is an [http.Flusher], and
    the clock readings and cancellation observed while it is served. *)
Record Env := mkEnv {
  ctx_tenantID : string;
  ctx_requestID : string;
  decoded : result Request;
  uuid1 : string;
  uuid2 : string;
  is_flusher : bool;
  t_route : Time;
  t_call : Time;
  t_return : Time;
  clk : StreamClock;
  provider_budget : Budget;
  wrapper_budget : Budget
}.

(** The handler's collaborators; the router's state is threaded through
    the handler code (see [M]). *)
Record Handler := mkHandler {
  limiter : ratelimit.Limiter
}.

(** Handler code runs over the router's state and produces a trace;
    [None] is a panic. *)
Definition M (A : Type) : Type := Router -> option (A * Router * list Event).

(** The operations of [M]: return, sequencing, one event, several
    events, a call on the router. *)
Definition ret {A} (a : A) : M A := fun r => Some (a, r, []).

Definition bind {A B} (m : M A) (k : A -> M B) : M B :=
  fun r =>
    match m r with
    | Some (a, r1, tr1) =>
        match k a r1 with
        | Some (b, r2, tr2) => Some (b, r2, (tr1 ++ tr2)%list)
        | None => None
        end
    | None => None
    end.

Definition emit (e : Event) : M unit := fun r => Some (tt, r, [e]).

Definition emits (es : list Event) : M unit := fun r => Some (tt, r, es).

Definition onRouter {A} (f : Router -> option (Router * A)) : M A :=
  fun r =>
    match f r with
    | Some (r', a) => Some (a, r', [])
    | None => None
    end.

(** A call on the limiter: its answer, and its store calls in the trace. *)
Definition onLimiter {A} (a : A * list ratelimit.StoreCall) : M A :=
  fun r => Some (fst a, r, map EvStore (snd a)).

Declare Scope handler_scope.
Delimit Scope handler_scope with handler.
Notation "x <- m ;; k" := (bind m (fun x => k))
  (at level 100, m at next level, k at level 200, right associativity,
   only parsing) : handler_scope.
Notation "m ;; k" := (bind m (fun _ => k))
  (at level 100, k at level 200, right associativity, only parsing)
  : handler_scope.
Local Open Scope handler_scope.

(** [w.Header().Set("Content-Type", "application/json"); w.WriteHeader(code);
    json.NewEncoder(w).Encode(v)]. *)
Definition writeJSON (code : Z) (v : JSON) : M unit :=
  emit (EvSetHeader "Content-Type" "application/json") ;;
  emit (EvWriteHeader code) ;;
  emit (EvEncode v).

(** [map[string]string{"error": msg}]. *)
Definition errorBody (msg : string) : JSON := JObject [("error", JString msg)].

(** The status codes of [net/http] that the handlers use. *)
Definition StatusOK : Z := 200.
Definition StatusBadRequest : Z := 400.
Definition StatusUnauthorized : Z := 401.
Definition StatusTooManyRequests : Z := 429.
Definition StatusInternalServerError : Z := 500.
Definition StatusBadGateway : Z := 502.
Definition StatusServiceUnavailable : Z := 503.

(** [estimatedTokens] of [prepare]. *)
Definition estimate (req : Request) : Z :=
  if Request_MaxTokens req <=? 0 then 1000 else Request_MaxTokens req.

(** [Handler.prepare]; the tracing span is not modelled. *)
Definition prepare (h : Handler) (env : Env)
  : M (result (string * string * Request * Provider)) :=
  let tenantID := ctx_tenantID env in
  if String.eqb tenantID "" then
    writeJSON StatusUnauthorized (errorBody "unauthorized") ;;
    ret (Failed "unauthorized")
  else
    let requestID :=
      if String.eqb (ctx_requestID env) "" then uuid1 env else ctx_requestID env in
    match decoded env with
    | Failed err =>
        writeJSON StatusBadRequest (errorBody "invalid request body") ;;
        ret (Failed err)
    | Ok req =>
        let estimatedTokens := estimate req in
        answer <- onLimiter (ratelimit.Allow (limiter h) tenantID estimatedTokens) ;;
        let (allowed, err) := answer : bool * option error in
        if notNil err || negb allowed then
          emit (EvSetHeader "Content-Type" "application/json") ;;
          emit (EvSetHeader "Retry-After" "60s") ;;
          emit (EvWriteHeader StatusTooManyRequests) ;;
          emit (EvEncode (JObject [("error", JString "rate limit exceeded");
                                   ("retry_after", JString "60s")])) ;;
          ret (Failed "rate limit exceeded")
        else
          emit EvRoute ;;
          routed <- onRouter (Route (t_route env) req) ;;
          match routed with
          | Failed err =>
              writeJSON StatusServiceUnavailable (errorBody err) ;;
              ret (Failed err)
          | Ok selectedProvider =>
              ret (Ok (tenantID, requestID, req, selectedProvider))
          end
    end.

(** [Handler.HandleComplete]. *)
Definition HandleComplete (h : Handler) (env : Env) : M unit :=
  prepared <- prepare h env ;;
  match prepared with
  | Failed _ => ret tt
  | Ok (tenantID, requestID, req, selectedProvider) =>
      emit (EvExecute (Name selectedProvider)) ;;
      executed <- onRouter (Execute (t_call env) (t_return env) req selectedProvider) ;;
      match executed with
      | Failed err => writeJSON StatusBadGateway (errorBody err)
      | Ok response =>
          emit (EvGoLogUsage
                  (billing.mkUsageLog "" tenantID requestID
                     (Response_Provider response)
                     (Response_Model response)
                     (Response_InputTokens response)
                     (Response_OutputTokens response)
                     (float64_of_int (Response_InputTokens response)
                        * CostPerInputToken selectedProvider
                      + float64_of_int (Response_OutputTokens response)
                        * CostPerOutputToken selectedProvider)%float
                     (Response_LatencyMs response)
                     None)) ;;
          let respID :=
            if String.eqb (Response_ID response) "" then uuid2 env
            else Response_ID response in
          writeJSON StatusOK
            (JObject
               [("id", JString respID);
                ("object", JString "chat.completion");
                ("model", JString (Response_Model response));
                ("provider", JString (Response_Provider response));
                ("choices",
                 JArray
                   [JObject
                      [("index", JInt 0);
                       ("message",
                        JObject [("role", JString "assistant");
                                 ("content", JString (Response_Content response))]);
                       ("finish_reason", JString "stop")]]);
                ("usage",
                 JObject
                   [("prompt_tokens", JInt (Response_InputTokens response));
                    ("completion_tokens", JInt (Response_OutputTokens response));
                    ("total_tokens",
                     JInt (wrap64 (Response_InputTokens response
                                   + Response_OutputTokens response)))])])
      end
  end.

(** The frames of the event stream. *)
Definition sseError (msg : string) : string :=
  "event: error" ++ LF ++ "data: {" ++ quoted "error" ++ ": " ++ quoted msg
  ++ "}" ++ LF ++ LF.

Definition sseDone : string := "data: [DONE]" ++ LF ++ LF.

Definition sseDelta (escaped : string) : string :=
  "data: {" ++ quoted "choices" ++ ":[{" ++ quoted "delta" ++ ":{"
  ++ quoted "content" ++ ":" ++ quoted escaped ++ "}," ++ quoted "index"
  ++ ":0}]}" ++ LF ++ LF.

Definition escape (delta : string) : string :=
  let escaped := ReplaceAll delta DQ (BS ++ DQ) in
  ReplaceAll escaped LF (BS ++ "n").

(** The loop [for chunk := range ch] of [HandleCompleteStream]: what it
    writes for the chunks received from [ch]. *)
Fixpoint writeChunks (ch : list Chunk) : list Event :=
  match ch with
  | [] => []
  | chunk :: rest =>
      match Chunk_Err chunk with
      | Some err => [EvFprintf (sseError err); EvFlush]
      | None =>
          if Chunk_Done chunk then [EvFprintf sseDone; EvFlush]
          else
            EvFprintf (sseDelta (escape (Chunk_Delta chunk)))
            :: EvFlush
            :: writeChunks rest
      end
  end.

(** [Handler.HandleCompleteStream]. *)
Definition HandleCompleteStream (h : Handler) (env : Env) : M unit :=
  prepared <- prepare h env ;;
  match prepared with
  | Failed _ => ret tt
  | Ok (tenantID, requestID, req, selectedProvider) =>
      emit (EvExecuteStream (Name selectedProvider)) ;;
      opened <- onRouter (ExecuteStream (clk env) (provider_budget env)
                            (wrapper_budget env) req selectedProvider) ;;
      match opened with
      | Failed err => writeJSON StatusBadGateway (errorBody err)
      | Ok ch =>
          emit (EvSetHeader "Content-Type" "text/event-stream") ;;
          emit (EvSetHeader "Cache-Control" "no-cache") ;;
          emit (EvSetHeader "Connection" "keep-alive") ;;
          if negb (is_flusher env) then
            emit (EvHttpError "streaming unsupported" StatusInternalServerError)
          else
            emits (writeChunks ch) ;;
            emit (EvGoLogUsage
                    (billing.mkUsageLog "" tenantID requestID
                       (Name selectedProvider) (Request_Model req)
                       0 0 0%float 0 None))
      end
  end.

(** Serving one request on router state [r]: the router state it leaves
    and its trace. *)
Definition serve (m : M unit) (r : Router) : option (Router * list Event) :=
  match m r with
  | Some (_, r', tr) => Some (r', tr)
  | None => None
  end.

End handler.
Import handler.

(** ** Package net/http, as the adapters use it *)

(** An upstream response: its status, the bytes its body delivers, and
    the read error that ends the body ([None] for [io.EOF]). *)
Record HTTPResponse := mkHTTPResponse {
  StatusCode : Z;
  Body : string;
  BodyErr : option error
}.

(** [bufio.Reader.ReadString(LF)] applied repeatedly: the complete lines,
    each with its line feed, and the bytes after the last line feed. *)
Fixpoint readLines (body : string) (cur : string) : list string * string :=
  match body with
  | EmptyString => ([], cur)
  | String c rest =>
      if Ascii.eqb c "010"%char then
        let (ls, last) := readLines rest "" in
        ((cur ++ String c "") :: ls, last)
      else readLines rest (cur ++ String c "")
  end.

(** [%d] of a status code. *)
Definition itoa (n : Z) : string := DecimalString.NilZero.string_of_int (Z.to_int n).

(** [json.Marshal] rejects a [float64] that is not finite. *)
Definition unsupportedFloat (f : float) : option error :=
  if is_nan f then Some "json: unsupported value: NaN"
  else if (f =? infinity)%float then Some "json: unsupported value: +Inf"
  else if (f =? neg_infinity)%float then Some "json: unsupported value: -Inf"
  else None.

(** ** Package openai *)

Module openai.

Record openAIMessage := mkOpenAIMessage {
  Role : string;
  Content : string
}.

Record openAIRequest := mkOpenAIRequest {
  Model : string;
  Messages : list openAIMessage;
  MaxTokens : Z;
  Temperature : float;
  Stream : bool
}.

Record openAIDelta := mkOpenAIDelta { Delta_Content : string }.

Record openAIChoice := mkOpenAIChoice {
  Message : openAIMessage;
  Delta : openAIDelta
}.

Record openAIUsage := mkOpenAIUsage {
  PromptTokens : Z;
  CompletionTokens : Z
}.

Record openAIResponse := mkOpenAIResponse {
  ID : string;
  Choices : list openAIChoice;
  Usage : openAIUsage;
  Response_Model : string
}.

Definition mapRequest (req : Request) : openAIRequest :=
  mkOpenAIRequest (Request_Model req)
    (map (fun m => mkOpenAIMessage (Message_Role m) (Message_Content m))
         (Request_Messages req))
    (Request_MaxTokens req) (Request_Temperature req) (Request_Stream req).

Definition withStream (r : openAIRequest) : openAIRequest :=
  mkOpenAIRequest (Model r) (Messages r) (MaxTokens r) (Temperature r) true.

(** [select { case ch <- c: ; case <-ctx.Done(): }; return]. *)
Definition sendLast (b : Budget) (c : Chunk) : list Chunk :=
  match b with
  | Some O => []
  | _ => [c]
  end.

Section Adapter.

(** The library functions and the upstream the adapter is run against. *)
Variable TrimSpace : string -> string.
Variable Unmarshal : string -> result openAIResponse.
Variable Do : openAIRequest -> result HTTPResponse.

(** The read loop of [CompleteStream]'s goroutine over the lines that
    [ReadString] returns; [ending] is the error that follows the last
    line ([None] for [io.EOF]).  The result is what the goroutine sends
    on [ch] before closing it. *)
Fixpoint readLoop (lines : list string) (ending : option error) (b : Budget)
  : list Chunk :=
  match lines with
  | [] =>
      match ending with
      | None => sendLast b (mkChunk "" true None)
      | Some err => sendLast b (mkChunk "" false (Some err))
      end
  | raw :: rest =>
      let line := TrimSpace raw in
      if String.eqb line "" || negb (String.prefix "data: " line)
      then readLoop rest ending b
      else
        let data := TrimPrefix line "data: " in
        if String.eqb data "[DONE]" then sendLast b (mkChunk "" true None)
        else
          match Unmarshal data with
          | Failed err => sendLast b (mkChunk "" false (Some err))
          | Ok openAIResp =>
              match Choices openAIResp with
              | choice :: _ =>
                  let content := Delta_Content (Delta choice) in
                  if negb (String.eqb content "") then
                    match b with
                    | Some O => []
                    | _ => mkChunk content false None
                           :: readLoop rest ending (Budget_pred b)
                    end
                  else readLoop rest ending b
              | [] => readLoop rest ending b
              end
          end
  end.

(** The goroutine started by [CompleteStream]. *)
Definition produce (openAIReq : openAIRequest) (b : Budget) : list Chunk :=
  match Do openAIReq with
  | Failed err => sendLast b (mkChunk "" false (Some err))
  | Ok resp =>
      if negb (StatusCode resp =? 200) then
        sendLast b
          (mkChunk "" false
             (Some ("openai api error (status " ++ itoa (StatusCode resp)
                    ++ "): " ++ Body resp)))
      else readLoop (fst (readLines (Body resp) "")) (BodyErr resp) b
  end.

(** [OpenAIProvider.CompleteStream]. *)
Definition CompleteStream (req : Request) (b : Budget) : result (list Chunk) :=
  let openAIReq := withStream (mapRequest req) in
  match unsupportedFloat (Temperature openAIReq) with
  | Some err => Failed err
  | None => Ok (produce openAIReq b)
  end.

(** [json.NewDecoder(resp.Body).Decode(&openAIResp)]. *)
Variable Decode : HTTPResponse -> result openAIResponse.

(** [OpenAIProvider.Complete]. *)
Definition Complete (req : Request) : result Response :=
  let openAIReq := mapRequest req in
  match unsupportedFloat (Temperature openAIReq) with
  | Some err => Failed err
  | None =>
      match Do openAIReq with
      | Failed err => Failed err
      | Ok resp =>
          if negb (StatusCode resp =? 200) then
            Failed ("openai api error (status " ++ itoa (StatusCode resp)
                    ++ "): " ++ Body resp)
          else
            match Decode resp with
            | Failed err => Failed err
            | Ok openAIResp =>
                match Choices openAIResp with
                | [] => Failed "openai api returned no choices"
                | choice :: _ =>
                    Ok (mkResponse (ID openAIResp)
                          (Content (Message choice))
                          (PromptTokens (Usage openAIResp))
                          (CompletionTokens (Usage openAIResp))
                          (Response_Model openAIResp)
                          "openai"
                          0)
                end
            end
      end
  end.

#[local] Set Warnings "-inexact-float".
(** [openai.New]: the adapter behind the [Provider] interface. *)
Definition New : Provider :=
  mkProvider "openai" 0.00000015%float 0.00000060%float
    ["gpt-4o"; "gpt-4o-mini"; "gpt-4"; "gpt-3.5-turbo"]
    Complete CompleteStream.
#[local] Set Warnings "inexact-float".

End Adapter.

End openai.

(** ** Package claude *)

Module claude.

Record claudeMessage := mkClaudeMessage {
  Role : string;
  Content : string
}.

Record claudeRequest := mkClaudeRequest {
  Model : string;
  MaxTokens : Z;
  System : string;
  Messages : list claudeMessage;
  Stream : bool
}.

(** The loop of [mapRequest] over [req.Messages]. *)
Fixpoint mapMessages (ms : list Message) (system : string)
    (messages : list claudeMessage) : string * list claudeMessage :=
  match ms with
  | [] => (system, messages)
  | m :: rest =>
      if String.eqb (Message_Role m) "system" then
        mapMessages rest (Message_Content m) messages
      else
        let role :=
          if String.eqb (Message_Role m) "assistant" then "assistant" else "user" in
        mapMessages rest system
          (messages ++ [mkClaudeMessage role (Message_Content m)])
  end.

(** [ClaudeProvider.mapRequest]. *)
Definition mapRequest (req : Request) : claudeRequest :=
  let (system, messages) := mapMessages (Request_Messages req) "" [] in
  let maxTokens :=
    if Request_MaxTokens req =? 0 then 4096 else Request_MaxTokens req in
  mkClaudeRequest (Request_Model req) maxTokens system messages
    (Request_Stream req).

(** [json.Marshal] of a [claudeRequest]: [system] and [stream] carry
    [omitempty]. *)
Definition Marshal (r : claudeRequest) : JSON :=
  JObject
    ([("model", JString (Model r)); ("max_tokens", JInt (MaxTokens r))]
     ++ (if String.eqb (System r) "" then [] else [("system", JString (System r))])
     ++ [("messages",
          match Messages r with
          | [] => JNull
          | ms => JArray (map (fun m => JObject [("role", JString (Role m));
                                                 ("content", JString (Content m))])
                              ms)
          end)]
     ++ (if Stream r then [("stream", JBool true)] else [])).

(** The request body [Complete] posts. *)
Definition Complete_body (req : Request) : JSON :=
  let claudeReq := mapRequest req in
  Marshal claudeReq.

(** The request body [CompleteStream] posts. *)
Definition CompleteStream_body (req : Request) : JSON :=
  let claudeReq := mapRequest req in
  let claudeReq :=
    mkClaudeRequest (Model claudeReq) (MaxTokens claudeReq) (System claudeReq)
      (Messages claudeReq) true in
  Marshal claudeReq.

Record claudeContent := mkClaudeContent {
  Content_Type : string;
  Text : string
}.

Record claudeUsage := mkClaudeUsage {
  InputTokens : Z;
  OutputTokens : Z
}.

Record claudeResponse := mkClaudeResponse {
  ID : string;
  Response_Content : list claudeContent;
  Response_Model : string;
  Usage : claudeUsage
}.

Record claudeDelta := mkClaudeDelta {
  Delta_Type : string;
  Delta_Text : string
}.

Record claudeError := mkClaudeError {
  Error_Type : string;
  Message : string
}.

Record claudeStreamDelta := mkClaudeStreamDelta {
  Event_Type : string;
  Delta : claudeDelta;
  Error : option claudeError
}.

Section Adapter.

(** The library functions and the upstream the adapter is run against.
    The request is always built: its URL is fixed and its body holds no
    value that [json.Marshal] rejects. *)
Variable TrimSpace : string -> string.
Variable Unmarshal : string -> result claudeStreamDelta.
Variable Do : claudeRequest -> result HTTPResponse.
Variable Decode : HTTPResponse -> result claudeResponse.

(** [ClaudeProvider.Complete]. *)
Definition Complete (req : Request) : result Response :=
  let claudeReq := mapRequest req in
  match Do claudeReq with
  | Failed err => Failed err
  | Ok resp =>
      if negb (StatusCode resp =? 200) then
        Failed ("claude api error (status " ++ itoa (StatusCode resp)
                ++ "): " ++ Body resp)
      else
        match Decode resp with
        | Failed err => Failed err
        | Ok claudeResp =>
            match Response_Content claudeResp with
            | [] => Failed "claude api returned no content"
            | first :: _ =>
                Ok (mkResponse (ID claudeResp) (Text first)
                      (InputTokens (Usage claudeResp))
                      (OutputTokens (Usage claudeResp))
                      (Response_Model claudeResp)
                      "claude"
                      0)
            end
        end
  end.

(** The read loop of [CompleteStream]'s goroutine over the lines that
    [ReadString] returns, with the event named by the last [event:] line;
    [ending] is the error that follows the last line ([None] for
    [io.EOF]). *)
Fixpoint readLoop (lines : list string) (ending : option error)
    (currentEvent : string) (b : Budget) : list Chunk :=
  match lines with
  | [] =>
      match ending with
      | None => openai.sendLast b (mkChunk "" true None)
      | Some err => openai.sendLast b (mkChunk "" false (Some err))
      end
  | raw :: rest =>
      let line := TrimSpace raw in
      if String.eqb line "" then readLoop rest ending currentEvent b
      else if String.prefix "event: " line then
        readLoop rest ending (TrimPrefix line "event: ") b
      else if String.prefix "data: " line then
        let data := TrimPrefix line "data: " in
        if String.eqb currentEvent "content_block_delta" then
          match Unmarshal data with
          | Failed _ => readLoop rest ending currentEvent b
          | Ok delta =>
              if String.eqb (Delta_Type (Delta delta)) "text_delta"
                 && negb (String.eqb (Delta_Text (Delta delta)) "")
              then
                match b with
                | Some O => []
                | _ => mkChunk (Delta_Text (Delta delta)) false None
                       :: readLoop rest ending currentEvent (Budget_pred b)
                end
              else readLoop rest ending currentEvent b
          end
        else if String.eqb currentEvent "message_stop" then
          openai.sendLast b (mkChunk "" true None)
        else if String.eqb currentEvent "error" then
          match Unmarshal data with
          | Ok delta =>
              match Error delta with
              | Some e =>
                  openai.sendLast b
                    (mkChunk "" false (Some ("claude stream error: " ++ Message e)))
              | None => readLoop rest ending currentEvent b
              end
          | Failed _ => readLoop rest ending currentEvent b
          end
        else readLoop rest ending currentEvent b
      else readLoop rest ending currentEvent b
  end.

(** The goroutine started by [CompleteStream]. *)
Definition produce (claudeReq : claudeRequest) (b : Budget) : list Chunk :=
  match Do claudeReq with
  | Failed err => openai.sendLast b (mkChunk "" false (Some err))
  | Ok resp =>
      if negb (StatusCode resp =? 200) then
        openai.sendLast b
          (mkChunk "" false
             (Some ("claude api error (status " ++ itoa (StatusCode resp)
                    ++ "): " ++ Body resp)))
      else readLoop (fst (readLines (Body resp) "")) (BodyErr resp) "" b
  end.

(** [ClaudeProvider.CompleteStream]. *)
Definition CompleteStream (req : Request) (b : Budget) : result (list Chunk) :=
  let claudeReq := mapRequest req in
  let claudeReq :=
    mkClaudeRequest (Model claudeReq) (MaxTokens claudeReq) (System claudeReq)
      (Messages claudeReq) true in
  Ok (produce claudeReq b).

#[local] Set Warnings "-inexact-float".
(** [claude.New]: the adapter behind the [Provider] interface. *)
Definition New : Provider :=
  mkProvider "claude" 0.0000008%float 0.000004%float
    ["claude-3-5-sonnet-20241022"; "claude-3-5-haiku-20241022";
     "claude-3-opus-20240229"; "claude-3-sonnet-20240229";
     "claude-3-haiku-20240307"]
    Complete CompleteStream.
#[local] Set Warnings "inexact-float".

End Adapter.

End claude.

(** ** Package gemini *)

Module gemini.

Record geminiPart := mkGeminiPart { Text : string }.

Record geminiContent := mkGeminiContent {
  Role : string;
  Parts : list geminiPart
}.

Record generationConfig := mkGenerationConfig {
  MaxOutputTokens : Z;
  Temperature : float
}.

Record geminiRequest := mkGeminiRequest {
  Contents : list geminiContent;
  GenerationConfig : generationConfig
}.

Record geminiCandidate := mkGeminiCandidate { Content : geminiContent }.

Record geminiUsageMetadata := mkGeminiUsageMetadata {
  PromptTokenCount : Z;
  CandidatesTokenCount : Z
}.

Record geminiResponse := mkGeminiResponse {
  Candidates : list geminiCandidate;
  UsageMetadata : geminiUsageMetadata
}.

(** [GeminiProvider.mapRequest]. *)
Definition mapRequest (req : Request) : geminiRequest :=
  mkGeminiRequest
    (map (fun m =>
            mkGeminiContent
              (if String.eqb (Message_Role m) "assistant" then "model" else "user")
              [mkGeminiPart (Message_Content m)])
         (Request_Messages req))
    (mkGenerationConfig (Request_MaxTokens req) (Request_Temperature req)).

(** The text of the first part of the first candidate, when there is
    one. *)
Definition firstText (r : geminiResponse) : option string :=
  match Candidates r with
  | c :: _ =>
      match Parts (Content c) with
      | part :: _ => Some (Text part)
      | [] => None
      end
  | [] => None
  end.

Section Adapter.

(** The adapter's key and base URL, the library functions and the
    upstream it is run against; [NewRequest] is the error of
    [http.NewRequestWithContext] for a URL, if any. *)
Variable apiKey : string.
Variable baseURL : string.
Variable TrimSpace : string -> string.
Variable Unmarshal : string -> result geminiResponse.
Variable NewRequest : string -> option error.
Variable Do : string -> geminiRequest -> result HTTPResponse.
Variable Decode : HTTPResponse -> result geminiResponse.

(** [GeminiProvider.Complete]. *)
Definition Complete (req : Request) : result Response :=
  let geminiReq := mapRequest req in
  match unsupportedFloat (Temperature (GenerationConfig geminiReq)) with
  | Some err => Failed err
  | None =>
      let url :=
        "https://generativelanguage.googleapis.com/v1beta/models/"
        ++ Request_Model req ++ ":generateContent?key=" ++ apiKey in
      match NewRequest url with
      | Some err => Failed err
      | None =>
          match Do url geminiReq with
          | Failed err => Failed err
          | Ok resp =>
              if negb (StatusCode resp =? 200) then
                Failed ("gemini api error (status " ++ itoa (StatusCode resp)
                        ++ "): " ++ Body resp)
              else
                match Decode resp with
                | Failed err => Failed err
                | Ok geminiResp =>
                    match firstText geminiResp with
                    | None => Failed "gemini api returned no candidates"
                    | Some text =>
                        Ok (mkResponse "" text
                              (PromptTokenCount (UsageMetadata geminiResp))
                              (CandidatesTokenCount (UsageMetadata geminiResp))
                              (Request_Model req)
                              "gemini"
                              0)
                    end
                end
          end
      end
  end.

(** The read loop of [CompleteStream]'s goroutine. *)
Fixpoint readLoop (lines : list string) (ending : option error) (b : Budget)
  : list Chunk :=
  match lines with
  | [] =>
      match ending with
      | None => openai.sendLast b (mkChunk "" true None)
      | Some err => openai.sendLast b (mkChunk "" false (Some err))
      end
  | raw :: rest =>
      let line := TrimSpace raw in
      if String.eqb line "" || negb (String.prefix "data: " line)
      then readLoop rest ending b
      else
        let data := TrimPrefix line "data: " in
        match Unmarshal data with
        | Failed err => openai.sendLast b (mkChunk "" false (Some err))
        | Ok geminiResp =>
            match firstText geminiResp with
            | Some text =>
                if negb (String.eqb text "") then
                  match b with
                  | Some O => []
                  | _ => mkChunk text false None
                         :: readLoop rest ending (Budget_pred b)
                  end
                else readLoop rest ending b
            | None => readLoop rest ending b
            end
        end
  end.

(** The goroutine started by [CompleteStream]. *)
Definition produce (url : string) (geminiReq : geminiRequest) (b : Budget)
  : list Chunk :=
  match Do url geminiReq with
  | Failed err => openai.sendLast b (mkChunk "" false (Some err))
  | Ok resp =>
      if negb (StatusCode resp =? 200) then
        openai.sendLast b
          (mkChunk "" false
             (Some ("gemini api error (status " ++ itoa (StatusCode resp)
                    ++ "): " ++ Body resp)))
      else readLoop (fst (readLines (Body resp) "")) (BodyErr resp) b
  end.

(** [GeminiProvider.CompleteStream]. *)
Definition CompleteStream (req : Request) (b : Budget) : result (list Chunk) :=
  let geminiReq := mapRequest req in
  match unsupportedFloat (Temperature (GenerationConfig geminiReq)) with
  | Some err => Failed err
  | None =>
      let url :=
        baseURL ++ "/v1beta/models/" ++ Request_Model req
        ++ ":streamGenerateContent?key=" ++ apiKey ++ "&alt=sse" in
      match NewRequest url with
      | Some err => Failed err
      | None => Ok (produce url geminiReq b)
      end
  end.

#[local] Set Warnings "-inexact-float".
(** [gemini.New]: the adapter behind the [Provider] interface. *)
Definition New : Provider :=
  mkProvider "gemini" 0.000000125%float 0.000000375%float
    ["gemini-1.5-pro"; "gemini-1.5-flash"; "gemini-2.0-flash"]
    Complete CompleteStream.
#[local] Set Warnings "inexact-float".

End Adapter.

End gemini.

(** ** [Handler.HandleUsage] *)

Module usage.

(** The billing store behind [HandleUsage]; a [nil] slice of logs is
    [None]. *)
Record Store := mkStore {
  GetUsageByTenant :
    string -> Time -> Time -> result (option (list billing.UsageLog));
  GetTotalCostByTenant : string -> Time -> Time -> result float
}.

(** The effects of [HandleUsage], in program order: the two queries on
    the billing store and the calls on the response writer. *)
Inductive Event :=
| EvGetUsageByTenant (tenantID : string) (from to : Time)
| EvGetTotalCostByTenant (tenantID : string) (from to : Time)
| EvWriter (e : handler.Event).

(** What one request brings with it: the tenant attached to its context,
    the reading of the clock, and the query parameters [from] and [to]
    (empty when absent). *)
Record Env := mkEnv {
  ctx_tenantID : string;
  now : Time;
  query_from : string;
  query_to : string
}.

Definition writeJSON (code : Z) (v : JSON) : list Event :=
  [EvWriter (handler.EvSetHeader "Content-Type" "application/json");
   EvWriter (handler.EvWriteHeader code);
   EvWriter (handler.EvEncode v)].

(** [len(logs)]. *)
Definition len (logs : option (list billing.UsageLog)) : Z :=
  match logs with
  | Some l => Z.of_nat (length l)
  | None => 0
  end.

Section HandleUsage.

(** [time.Parse(time.RFC3339, _)], [Time.AddDate], and [json.Marshal] of
    a [time.Time] and of a [*UsageLog]. *)
Variable Parse : string -> result Time.
Variable AddDate : Time -> Z -> Z -> Z -> Time.
Variable timeJSON : Time -> JSON.
Variable logJSON : billing.UsageLog -> JSON.

Definition logsJSON (logs : option (list billing.UsageLog)) : JSON :=
  match logs with
  | Some l => JArray (map logJSON l)
  | None => JNull
  end.

(** [Handler.HandleUsage]. *)
Definition HandleUsage (billing : Store) (env : Env) : list Event :=
  let tenantID := ctx_tenantID env in
  if String.eqb tenantID "" then
    writeJSON handler.StatusUnauthorized (handler.errorBody "unauthorized")
  else
    let now := now env in
    let fromStr := query_from env in
    let toStr := query_to env in
    let from := AddDate now 0 0 (-30) in
    let to := now in
    match (if negb (String.eqb fromStr "") then Parse fromStr else Ok from) with
    | Failed _ =>
        writeJSON handler.StatusBadRequest
          (handler.errorBody "invalid 'from' date format (use RFC3339)")
    | Ok from =>
        match (if negb (String.eqb toStr "") then Parse toStr else Ok to) with
        | Failed _ =>
            writeJSON handler.StatusBadRequest
              (handler.errorBody "invalid 'to' date format (use RFC3339)")
        | Ok to =>
            EvGetUsageByTenant tenantID from to
            :: match GetUsageByTenant billing tenantID from to with
               | Failed err =>
                   writeJSON handler.StatusInternalServerError
                     (handler.errorBody err)
               | Ok logs =>
                   EvGetTotalCostByTenant tenantID from to
                   :: match GetTotalCostByTenant billing tenantID from to with
                      | Failed err =>
                          writeJSON handler.StatusInternalServerError
                            (handler.errorBody err)
                      | Ok totalCost =>
                          writeJSON handler.StatusOK
                            (JObject
                               [("tenant_id", JString tenantID);
                                ("total_requests", JInt (len logs));
                                ("total_cost_usd", JFloat totalCost);
                                ("logs", logsJSON logs);
                                ("from", timeJSON from);
                                ("to", timeJSON to)])
                      end
               end
        end
    end.

End HandleUsage.

End usage.

(** ** Package auth *)

Module auth.

Record APIKey := mkAPIKey {
  ID : string;
  TenantID : string;
  KeyHash : string;
  RateLimit : Z;
  Active : bool;
  CreatedAt : Time
}.

(** What [GetTenantID], [GetAPIKeyID] and [GetRequestID] read from the
    context handed to the next handler. *)
Record Context := mkContext {
  tenantID : string;
  apiKeyID : string;
  requestID : string
}.

(** The outcome of [cache.Get(ctx, redisKey).Scan(&apiKey)]: the key that
    was cached, [redis.Nil], or another error. *)
Inductive CacheAnswer :=
| Hit (apiKey : APIKey)
| Nil
| CacheFailed (err : error).

(** The effects of the middleware, in program order. *)
Inductive Event :=
| EvSetHeader (k v : string)
| EvHttpError (msg : string) (code : Z)
| EvCacheGet (redisKey : string)
| EvLogPrintf (msg : string)
| EvGetByKey (key : string)
| EvCacheSet (redisKey : string) (apiKey : APIKey) (expiration : Time).

Definition Minute : Z := 60 * Second.

Section Middleware.

(** The hex digest of SHA-256, the cache, the store, and
    [errors.Is(_, ErrKeyNotFound)]. *)
Variable sha256hex : string -> string.
Variable cacheGet : string -> CacheAnswer.
Variable GetByKey : string -> result APIKey.
Variable Is_ErrKeyNotFound : error -> bool.

(** The handler built by [NewMiddleware], on a request with the header
    [Authorization: authHeader], drawing the UUID [uuid]: its effects,
    and the context with which it calls [next.ServeHTTP] as its last
    action, if it does. *)
Definition NewMiddleware (uuid : string) (authHeader : string)
  : list Event * option Context :=
  let requestID := uuid in
  let start := [EvSetHeader "X-Request-ID" requestID] in
  if String.eqb authHeader "" || negb (String.prefix "Bearer " authHeader) then
    ((start
      ++ [EvHttpError "Unauthorized: missing or invalid Authorization header"
            handler.StatusUnauthorized])%list,
     None)
  else
    let key := TrimPrefix authHeader "Bearer " in
    let keyHash := sha256hex key in
    let redisKey := "auth:" ++ keyHash in
    match cacheGet redisKey with
    | Hit apiKey =>
        ((start ++ [EvCacheGet redisKey])%list,
         Some (mkContext (TenantID apiKey) (ID apiKey) requestID))
    | missed =>
        let logged :=
          match missed with
          | CacheFailed err => [EvLogPrintf ("auth: redis error: " ++ err)]
          | _ => []
          end in
        let lookup := (start ++ [EvCacheGet redisKey] ++ logged
                       ++ [EvGetByKey key])%list in
        match GetByKey key with
        | Failed err =>
            if Is_ErrKeyNotFound err then
              ((lookup ++ [EvHttpError "Unauthorized: invalid API key"
                             handler.StatusUnauthorized])%list,
               None)
            else
              ((lookup ++ [EvHttpError "Internal Server Error"
                             handler.StatusInternalServerError])%list,
               None)
        | Ok apiK =>
            ((lookup ++ [EvCacheSet redisKey apiK (5 * Minute)])%list,
             Some (mkContext (TenantID apiK) (ID apiK) requestID))
        end
    end.

End Middleware.

End auth.

(** ** Package config *)

Module config.

Record Config := mkConfig {
  Port : string;
  PostgresDSN : string;
  RedisAddr : string;
  OpenAIAPIKey : string;
  GeminiAPIKey : string;
  AnthropicAPIKey : string;
  OTELExporterType : string;
  OTELExporterEndpoint : string;
  DefaultRateLimitTPM : Z
}.

(** The process environment, after [godotenv.Load]. *)
Definition Environ := gmap string string.

(** [os.Getenv]. *)
Definition Getenv (env : Environ) (key : string) : string :=
  match env !! key with
  | Some value => value
  | None => ""
  end.

(** [getEnv]. *)
Definition getEnv (env : Environ) (key fallback : string) : string :=
  match env !! key with
  | Some value => value
  | None => fallback
  end.

Section Load.

(** [strconv.ParseInt(_, 10, 64)]. *)
Variable ParseInt : string -> result Z.

(** [Load]. *)
Definition Load (env : Environ) : result Config :=
  let cfg tpm :=
    mkConfig (getEnv env "PORT" "8080")
      (Getenv env "POSTGRES_DSN")
      (Getenv env "REDIS_ADDR")
      (Getenv env "OPENAI_API_KEY")
      (Getenv env "GEMINI_API_KEY")
      (Getenv env "ANTHROPIC_API_KEY")
      (getEnv env "OTEL_EXPORTER_TYPE" "stdout")
      (getEnv env "OTEL_EXPORTER_ENDPOINT" "localhost:4317")
      tpm in
  let tpmStr := getEnv env "DEFAULT_RATE_LIMIT_TPM" "100000" in
  match ParseInt tpmStr with
  | Failed err => Failed ("invalid DEFAULT_RATE_LIMIT_TPM: " ++ err)
  | Ok tpm =>
      if String.eqb (PostgresDSN (cfg tpm)) "" then
        Failed "POSTGRES_DSN is required"
      else if String.eqb (RedisAddr (cfg tpm)) "" then
        Failed "REDIS_ADDR is required"
      else Ok (cfg tpm)
  end.

End Load.

End config.

(** ** Command gateway *)

Module main.

(** The library functions and the upstreams the three adapters are run
    against. *)
Record World := mkWorld {
  TrimSpace : string -> string;
  NewRequest : string -> option error;
  gemini_Unmarshal : string -> result gemini.geminiResponse;
  gemini_Do : string -> gemini.geminiRequest -> result HTTPResponse;
  gemini_Decode : HTTPResponse -> result gemini.geminiResponse;
  openai_Unmarshal : string -> result openai.openAIResponse;
  openai_Do : openai.openAIRequest -> result HTTPResponse;
  openai_Decode : HTTPResponse -> result openai.openAIResponse;
  claude_Unmarshal : string -> result claude.claudeStreamDelta;
  claude_Do : claude.claudeRequest -> result HTTPResponse;
  claude_Decode : HTTPResponse -> result claude.claudeResponse
}.

(** The providers [main] registers, in its order. *)
Definition providers (cfg : config.Config) (w : World) : list Provider :=
  [gemini.New (config.GeminiAPIKey cfg)
     "https://generativelanguage.googleapis.com"
     (TrimSpace w) (gemini_Unmarshal w) (NewRequest w) (gemini_Do w)
     (gemini_Decode w);
   openai.New (TrimSpace w) (openai_Unmarshal w) (openai_Do w) (openai_Decode w);
   claude.New (TrimSpace w) (claude_Unmarshal w) (claude_Do w) (claude_Decode w)].

(** A handler of the protected group: the authenticator runs first and,
    when it calls the next handler, that handler sees the tenant and the
    request id of the authenticator's context. *)
Definition withContext (ctx : auth.Context) (env : handler.Env) : handler.Env :=
  handler.mkEnv (auth.tenantID ctx) (auth.requestID ctx)
    (handler.decoded env) (handler.uuid1 env) (handler.uuid2 env)
    (handler.is_flusher env) (handler.t_route env) (handler.t_call env)
    (handler.t_return env) (handler.clk env) (handler.provider_budget env)
    (handler.wrapper_budget env).

Definition protected (authenticated : list auth.Event * option auth.Context)
    (next : handler.Env -> handler.M unit) (env : handler.Env) (r : Router)
  : option (Router * list auth.Event * list handler.Event) :=
  match authenticated with
  | (tr, None) => Some (r, tr, [])
  | (tr, Some ctx) =>
      match handler.serve (next (withContext ctx env)) r with
      | Some (r', tr') => Some (r', tr, tr')
      | None => None
      end
  end.

End main.

(** ** The test doubles of the router and handler tests *)

(** [MockProvider]. *)
Definition MockProvider (name : string) (cost : float)
    (supportedModels : list string) (completeErr : option error) : Provider :=
  mkProvider name cost 0%float supportedModels
    (fun req =>
       match completeErr with
       | Some err => Failed err
       | None => Ok (mkResponse "" "mock" 10 20 (Request_Model req) name 0)
       end)
    (fun _ _ =>
       Ok [match completeErr with
           | Some err => mkChunk "" false (Some err)
           | None => mkChunk "mock" true None
           end]).

(** [MockStreamProvider]: sends [chunks] and closes the channel. *)
Definition MockStreamProvider (name : string) (cost : float)
    (supportedModels : list string) (chunks : list Chunk) : Provider :=
  mkProvider name cost 0%float supportedModels
    (fun req => Ok (mkResponse "" "mock" 10 20 (Request_Model req) name 0))
    (fun _ _ => Ok chunks).

(** [mockLimiterStore]. *)
Definition mockLimiterStore (allowed : bool) (err : option error)
  : ratelimit.Store :=
  fun _ _ => (ratelimit.mkResult allowed, err).

Definition emptyRequest : Request := mkRequest "" [] 0 0%float false "" "".

(** ** Vocabulary of the properties *)

(** Every registered provider has a breaker: what [NewRouter]
    establishes and the router's operations maintain. *)
Definition wellFormed (r : Router) : Prop :=
  forall p, In p (providers r) -> is_Some (breakers r !! Name p).

(** [cb.State() != gobreaker.StateOpen] at time [now], for the breaker
    registered under [name]. *)
Definition notOpen (now : Time) (bs : gmap string CircuitBreaker)
    (name : string) : bool :=
  match bs !! name with
  | Some cb => negb (State_eqb (fst (State_of now cb)) StateOpen)
  | None => false
  end.

(** The providers a [Route] call at [now] may choose from, in
    registration order. *)
Definition eligible (now : Time) (r : Router) (model : string) : list Provider :=
  List.filter
    (fun p => notOpen now (breakers r) (Name p)
              && (String.eqb model "" || supports p model))
    (providers r).

(** [bs] shows the same breaker states at [now] as [bs0]. *)
Definition sameView (now : Time) (bs0 bs : gmap string CircuitBreaker) : Prop :=
  forall n,
    match bs0 !! n, bs !! n with
    | Some cb0, Some cb =>
        state (currentState now cb) = state (currentState now cb0)
    | None, None => True
    | _, _ => False
    end.

(** A call on the router, with the clock readings it makes. *)
Inductive Op :=
| OpRoute (now : Time) (req : Request)
| OpExecute (t0 t1 : Time) (req : Request) (p : Provider)
| OpExecuteStream (clk : StreamClock) (pb wb : Budget) (req : Request) (p : Provider).

(** The router after a call ([None] when the call panics). *)
Definition step (o : Op) (r : Router) : option Router :=
  match o with
  | OpRoute now req => fst <$> Route now req r
  | OpExecute t0 t1 req p => fst <$> Execute t0 t1 req p r
  | OpExecuteStream clk pb wb req p => fst <$> ExecuteStream clk pb wb req p r
  end.

Fixpoint run (ops : list Op) (r : Router) : option Router :=
  match ops with
  | [] => Some r
  | o :: ops' =>
      match step o r with
      | Some r' => run ops' r'
      | None => None
      end
  end.

(** Every clock reading of the call is at most [x]. *)
Definition notAfter (x : Time) (o : Op) : Prop :=
  match o with
  | OpRoute now _ => now <= x
  | OpExecute t0 t1 _ _ => t0 <= x /\ t1 <= x
  | OpExecuteStream clk _ _ _ _ =>
      t_state clk <= x /\ t_open clk <= x /\ forall i, t_chunk clk i <= x
  end.

(** [p]'s breaker is open until [x]. *)
Definition openUntil (x : Time) (name : string) (r : Router) : Prop :=
  exists cb,
    breakers r !! name = Some cb /\ state cb = StateOpen /\ expiry cb = Some x.

(** The failing provider of [TestRoute_AllProvidersDown]. *)
Definition p1 : Provider := MockProvider "p1" 0 [] (Some "fail").

Definition isLogUsage (e : Event) : bool :=
  match e with
  | EvGoLogUsage _ => true
  | _ => false
  end.

Definition isAllowN (e : Event) : bool :=
  match e with
  | EvStore (ratelimit.AllowN _ _) => true
  | _ => false
  end.

(** The request of [TestHandleComplete_Success] and what comes with it. *)
Definition testEnv (req : Request) : Env :=
  mkEnv "test-tenant" "" (Ok req) "uuid-1" "uuid-2" true 0 0 0
    (mkStreamClock 0 0 (fun _ => 0)) None None.

Definition testHandler (limiterAllowed : bool) : Handler :=
  mkHandler (ratelimit.mkLimiter (mockLimiterStore limiterAllowed None)).

Definition gpt4Request : Request :=
  mkRequest "gpt-4" [mkMessage "user" "hello"] 100 0%float false "" "".

(** The events by which a handler answers with an error status. *)
Definition isErrorAnswer (e : Event) : bool :=
  match e with
  | EvWriteHeader _ => true
  | EvHttpError _ _ => true
  | _ => false
  end.

(** The escaping of a delta as section 4.8 words it: every double quote
    becomes backslash, double quote; every line feed becomes backslash,
    [n]; every other byte is kept. *)
Definition escapeByte (c : ascii) : string :=
  if Ascii.eqb c "034"%char then BS ++ DQ
  else if Ascii.eqb c "010"%char then BS ++ "n"
  else String c "".

(** Replace every byte [c] of [s] by [f c]. *)
Fixpoint mapBytes (f : ascii -> string) (s : string) : string :=
  match s with
  | EmptyString => EmptyString
  | String c s' => f c ++ mapBytes f s'
  end.

Definition escapeBytes (s : string) : string := mapBytes escapeByte s.

(** The upstream of [TestComplete_Mock]: one choice, 15 and 25 tokens. *)
Definition mockUpstream : openai.openAIRequest -> result HTTPResponse :=
  fun _ => Ok (mkHTTPResponse 200 "" None).

Definition mockDecode : HTTPResponse -> result openai.openAIResponse :=
  fun _ =>
    Ok (openai.mkOpenAIResponse "test-id"
          [openai.mkOpenAIChoice
             (openai.mkOpenAIMessage "assistant" "Hello from OpenAI mock!")
             (openai.mkOpenAIDelta "")]
          (openai.mkOpenAIUsage 15 25) "gpt-4o-mini").

Definition mockOpenAI : Provider :=
  openai.New (fun s => s) (fun _ => Failed "unexpected end of JSON input")
    mockUpstream mockDecode.

Definition gpt4oMiniRequest : Request :=
  mkRequest "gpt-4o-mini" [mkMessage "user" "hi"] 0 0%float false "" "".

(** A chunk that ends the stream for the handler: an error chunk or a
    done chunk.  Any other chunk is a delta chunk. *)
Definition isTerminal (c : Chunk) : bool :=
  notNil (Chunk_Err c) || Chunk_Done c.

(** A (possibly empty) run of delta chunks followed by exactly one
    terminal chunk. *)
Definition wellTerminated (l : list Chunk) : Prop :=
  exists deltas terminal,
    l = (deltas ++ [terminal])%list
    /\ Forall (fun c => isTerminal c = false) deltas
    /\ isTerminal terminal = true.

(** An OpenAI adapter whose upstream call fails because the request was
    cancelled. *)
Definition cancelledOpenAI : Provider :=
  openai.New (fun s => s) (fun _ => Failed "unexpected end of JSON input")
    (fun _ => Failed "context canceled") mockDecode.

(** The name of the provider a [Route] call returned, or its error. *)
Definition routedName (o : option (Router * result Provider))
  : option (result string) :=
  match o with
  | Some (_, Ok p) => Some (Ok (Name p))
  | Some (_, Failed e) => Some (Failed e)
  | None => None
  end.

(** The trace of a served request. *)
Definition traceOf (o : option (Router * list Event)) : list Event :=
  match o with
  | Some (_, tr) => tr
  | None => []
  end.

(** A call on the router that names a provider names a registered one. *)
Definition usesRegistered (r : Router) (o : Op) : Prop :=
  match o with
  | OpRoute _ _ => True
  | OpExecute _ _ _ p => In p (providers r)
  | OpExecuteStream _ _ _ _ p => In p (providers r)
  end.

Definition isWriteHeader (e : Event) : bool :=
  match e with
  | EvWriteHeader _ => true
  | _ => false
  end.

Definition isEncode (e : Event) : bool :=
  match e with
  | EvEncode _ => true
  | _ => false
  end.

(** A call on a provider through the router. *)
Definition isProviderCall (e : Event) : bool :=
  match e with
  | EvExecute _ => true
  | EvExecuteStream _ => true
  | _ => false
  end.

(** No byte of [s] is a line feed. *)
Fixpoint noLF (s : string) : bool :=
  match s with
  | EmptyString => true
  | String c s' => negb (Ascii.eqb c "010"%char) && noLF s'
  end.

(** No byte of [s] is a double quote or a line feed. *)
Fixpoint plain (s : string) : bool :=
  match s with
  | EmptyString => true
  | String c s' =>
      negb (Ascii.eqb c "034"%char) && negb (Ascii.eqb c "010"%char) && plain s'
  end.

(** The three kinds of chunk an adapter sends: a delta with text, a done
    chunk without text, an error chunk without text. *)
Definition adapterChunk (c : Chunk) : Prop :=
  (Chunk_Err c = None /\ Chunk_Done c = false /\ Chunk_Delta c <> "")
  \/ (Chunk_Err c = None /\ Chunk_Done c = true /\ Chunk_Delta c = "")
  \/ (exists e, Chunk_Err c = Some e /\ Chunk_Done c = false /\ Chunk_Delta c = "").

(** A well-terminated stream of such chunks. *)
Definition cleanStream (l : list Chunk) : Prop :=
  wellTerminated l /\ Forall adapterChunk l.

(** An upstream that answers 201 Created. *)
Definition createdUpstream : openai.openAIRequest -> result HTTPResponse :=
  fun _ => Ok (mkHTTPResponse 201 "created" None).

(** What is delivered of the chunks [l] when the context is cancelled as
    [b] says. *)
Definition cut (b : Budget) (l : list Chunk) : list Chunk :=
  match b with
  | None => l
  | Some k => firstn k l
  end.

(** A Gemini upstream that streams two text parts, with the library
    functions that read them. *)
Definition geminiText (t : string) : gemini.geminiResponse :=
  gemini.mkGeminiResponse
    [gemini.mkGeminiCandidate
       (gemini.mkGeminiContent "model" [gemini.mkGeminiPart t])]
    (gemini.mkGeminiUsageMetadata 0 0).

Definition geminiUnmarshal (data : string) : result gemini.geminiResponse :=
  if String.eqb data "1" then Ok (geminiText "Hello")
  else if String.eqb data "2" then Ok (geminiText " world")
  else Failed "invalid character".

Definition geminiUpstream : string -> gemini.geminiRequest -> result HTTPResponse :=
  fun _ _ =>
    Ok (mkHTTPResponse 200 ("data: 1" ++ LF ++ LF ++ "data: 2" ++ LF) None).

(** [strings.TrimSpace] on the lines of these upstreams, which carry no
    other white space than their line feed. *)
Fixpoint trimLF (s : string) : string :=
  match s with
  | EmptyString => EmptyString
  | String c s' =>
      if Ascii.eqb c "010"%char then trimLF s' else String c (trimLF s')
  end.

Definition flashRequest : Request :=
  mkRequest "gemini-1.5-flash"
    [mkMessage "system" "be brief"; mkMessage "user" "hi";
     mkMessage "assistant" "hello"; mkMessage "tool" "42"]
    0 0%float true "" "".

(** The role the Claude adapter gives a message that is not a system
    message, and the role the Gemini adapter gives any message. *)
Definition claudeRole (m : Message) : string :=
  if String.eqb (Message_Role m) "assistant" then "assistant" else "user".

Definition geminiRole (m : Message) : string :=
  if String.eqb (Message_Role m) "assistant" then "model" else "user".

Definition isSystem (m : Message) : bool :=
  String.eqb (Message_Role m) "system".

(** The test doubles of the usage endpoint: a store that holds [logs] at a
    total cost of 0.5, a parser that knows one date, and encoders. *)
Definition usageStore (logs : option (list billing.UsageLog)) : usage.Store :=
  usage.mkStore (fun _ _ _ => Ok logs) (fun _ _ _ => Ok 0.5%float).

Definition usageParse (s : string) : result Time :=
  if String.eqb s "2024-01-01T00:00:00Z" then Ok (1704067200 * Second)
  else Failed "parsing time: cannot parse".

Definition usageAddDate (t : Time) (years months days : Z) : Time :=
  t + days * 24 * 3600 * Second.

Definition usageTimeJSON (t : Time) : JSON := JInt t.

Definition usageLogJSON (l : billing.UsageLog) : JSON :=
  JObject [("RequestID", JString (billing.RequestID l))].

Definition usageEnv : usage.Env :=
  usage.mkEnv "test-tenant" (1706745600 * Second) "2024-01-01T00:00:00Z" "".


(** The test doubles of the authenticator: a digest, an empty cache, and
    a store that knows the seeded key. *)
Definition testDigest (key : string) : string := "sha256(" ++ key ++ ")".

Definition seededKey : auth.APIKey :=
  auth.mkAPIKey "key-1" "00000000-0000-0000-0000-000000000001"
    (testDigest "test-api-key-12345") 1000000 true 0.

Definition seededStore (key : string) : result auth.APIKey :=
  if String.eqb key "test-api-key-12345" then Ok seededKey
  else Failed "api key not found".

Definition isNotFound (err : error) : bool := String.eqb err "api key not found".

(** The key the authenticator found for a request, in the cache or, when
    the cache did not have it, in the store. *)
Definition foundKey (sha256hex : string -> string)
    (cacheGet : string -> auth.CacheAnswer)
    (GetByKey : string -> result auth.APIKey)
    (authHeader : string) (apiKey : auth.APIKey) : Prop :=
  String.prefix "Bearer " authHeader = true
  /\ let key := TrimPrefix authHeader "Bearer " in
     match cacheGet ("auth:" ++ sha256hex key) with
     | auth.Hit cached => apiKey = cached
     | _ => GetByKey key = Ok apiKey
     end.

Definition isHttpError (e : auth.Event) : bool :=
  match e with
  | auth.EvHttpError _ _ => true
  | _ => false
  end.

(** A configuration and a world for the gateway: the upstreams of the
    adapters' test doubles, and a Claude upstream that is down. *)
Definition testConfig : config.Config :=
  config.mkConfig "8080" "postgres://gateway" "localhost:6379" "sk-openai"
    "key" "sk-ant" "stdout" "localhost:4317" 100000.

Definition testWorld : main.World :=
  main.mkWorld trimLF (fun _ => None)
    geminiUnmarshal geminiUpstream (fun _ => Ok (geminiText "Hello world"))
    (fun _ => Failed "unexpected end of JSON input") mockUpstream mockDecode
    (fun _ => Failed "unexpected end of JSON input")
    (fun _ => Failed "connection refused")
    (fun _ => Failed "unexpected end of JSON input").

(** The router [main] builds. *)
Definition gatewayRouter : Router :=
  NewRouter 0 (main.providers testConfig testWorld).

(** * Properties *)

(** ** Order of float64 values that are not NaN *)

Ltac sf_compare :=
  repeat match goal with
    | |- context [Pos.compare_cont Eq ?a ?b] =>
        change (Pos.compare_cont Eq a b) with (Pos.compare a b)
    end;
  repeat match goal with
    | |- context [Z.compare ?a ?b] => destruct (Z.compare_spec a b)
    | |- context [Pos.compare ?a ?b] => destruct (Pos.compare_spec a b)
    end;
  cbn; try congruence; try (exfalso; lia).

Lemma SFltb_false_leb (a b : spec_float) :
  a <> S754_nan -> b <> S754_nan -> SFltb a b = false -> SFleb b a = true.
Proof.
  unfold SFltb, SFleb.
  destruct a as [[]|[]| |[] ma ea], b as [[]|[]| |[] mb eb];
    cbn; try congruence; intros _ _; sf_compare.
Qed.

Lemma SFltb_trans (a b c : spec_float) :
  SFltb a b = true -> SFltb b c = true -> SFltb a c = true.
Proof.
  unfold SFltb.
  destruct a as [[]|[]| |[] ma ea], b as [[]|[]| |[] mb eb],
           c as [[]|[]| |[] mc ec];
    cbn; try congruence; sf_compare.
Qed.

Lemma SFltb_leb_trans (a b c : spec_float) :
  SFltb a b = true -> SFleb b c = true -> SFltb a c = true.
Proof.
  unfold SFltb, SFleb.
  destruct a as [[]|[]| |[] ma ea], b as [[]|[]| |[] mb eb],
           c as [[]|[]| |[] mc ec];
    cbn; try congruence; sf_compare.
Qed.

Lemma SFltb_leb (a b : spec_float) : SFltb a b = true -> SFleb a b = true.
Proof.
  unfold SFltb, SFleb. destruct (SFcompare a b) as [[]|]; congruence.
Qed.

Lemma SFleb_refl (a : spec_float) : a <> S754_nan -> SFleb a a = true.
Proof.
  unfold SFleb. destruct a as [[]|[]| |[] ma ea]; cbn; try congruence;
    intros _; sf_compare.
Qed.

Lemma not_nan_Prim2SF (x : float) : is_nan x = false -> Prim2SF x <> S754_nan.
Proof.
  unfold is_nan. rewrite FloatAxioms.eqb_spec. unfold SFeqb.
  destruct (Prim2SF x); cbn; congruence.
Qed.

(** [a < b] is false exactly when [b <= a], for numbers. *)
Lemma ltb_false_leb (a b : float) :
  is_nan a = false -> is_nan b = false ->
  (a <? b)%float = false -> (b <=? a)%float = true.
Proof.
  intros Ha Hb. rewrite FloatAxioms.ltb_spec, FloatAxioms.leb_spec.
  apply SFltb_false_leb; now apply not_nan_Prim2SF.
Qed.

Lemma ltb_trans (a b c : float) :
  (a <? b)%float = true -> (b <? c)%float = true -> (a <? c)%float = true.
Proof. rewrite !FloatAxioms.ltb_spec. apply SFltb_trans. Qed.

Lemma ltb_leb_trans (a b c : float) :
  (a <? b)%float = true -> (b <=? c)%float = true -> (a <? c)%float = true.
Proof. rewrite !FloatAxioms.ltb_spec, FloatAxioms.leb_spec. apply SFltb_leb_trans. Qed.

Lemma ltb_leb (a b : float) : (a <? b)%float = true -> (a <=? b)%float = true.
Proof. rewrite FloatAxioms.ltb_spec, FloatAxioms.leb_spec. apply SFltb_leb. Qed.

Lemma leb_refl (a : float) : is_nan a = false -> (a <=? a)%float = true.
Proof. intros Ha. rewrite FloatAxioms.leb_spec. now apply SFleb_refl, not_nan_Prim2SF. Qed.

(** ** The breaker's time-driven transition *)

Lemma currentState_closed now cb :
  state cb = StateClosed -> state (currentState now cb) = StateClosed.
Proof.
  intros H. unfold currentState. rewrite H.
  destruct (expiry cb) as [t|]; [destruct (t <? now)|]; cbn; auto.
Qed.

Lemma currentState_halfOpen now cb :
  state cb = StateHalfOpen -> currentState now cb = cb.
Proof. intros H. unfold currentState. now rewrite H. Qed.

Lemma currentState_state_idem now cb :
  state (currentState now (currentState now cb)) = state (currentState now cb).
Proof.
  destruct (state cb) eqn:Hst.
  - rewrite (currentState_closed now (currentState now cb));
      now rewrite currentState_closed.
  - now rewrite !(currentState_halfOpen now cb Hst).
  - unfold currentState at 2 3. rewrite Hst.
    destruct (before (expiry cb) now) eqn:Hb.
    + unfold setState. rewrite Hst. reflexivity.
    + unfold currentState. now rewrite Hst, Hb.
Qed.

(** ** The candidate loop of [Route] *)

Lemma sameView_refl now bs : sameView now bs bs.
Proof. intros n. now destruct (bs !! n). Qed.

Lemma sameView_update now bs0 bs name cb :
  sameView now bs0 bs -> bs !! name = Some cb ->
  sameView now bs0 (<[name := currentState now cb]> bs).
Proof.
  intros Hv Hcb n. specialize (Hv n).
  destruct (decide (name = n)) as [->|Hne].
  - rewrite lookup_insert_eq. rewrite Hcb in Hv.
    destruct (bs0 !! n); [|easy].
    now rewrite currentState_state_idem.
  - now rewrite lookup_insert_ne.
Qed.

Lemma sameView_notOpen now bs0 bs name :
  sameView now bs0 bs -> notOpen now bs name = notOpen now bs0 name.
Proof.
  intros Hv. specialize (Hv name). unfold notOpen, State_of.
  destruct (bs0 !! name), (bs !! name); cbn; try easy. now rewrite Hv.
Qed.

Lemma collect_spec now model ps :
  forall bs acc bs0,
    sameView now bs0 bs ->
    (forall p, In p ps -> is_Some (bs0 !! Name p)) ->
    exists bs',
      collect now model ps bs acc
      = Some (bs',
              (acc ++ List.filter
                        (fun p => notOpen now bs0 (Name p)
                                  && (String.eqb model "" || supports p model))
                        ps)%list)
      /\ sameView now bs0 bs'.
Proof.
  induction ps as [|p ps IH]; intros bs acc bs0 Hv Hwf; cbn [collect List.filter].
  - exists bs. now rewrite app_nil_r.
  - assert (Hp : is_Some (bs !! Name p)).
    { destruct (Hwf p (or_introl eq_refl)) as [cb0 Hcb0].
      specialize (Hv (Name p)). rewrite Hcb0 in Hv.
      destruct (bs !! Name p); [eauto|easy]. }
    destruct Hp as [cb Hcb]. rewrite Hcb. unfold State_of.
    assert (Hv' := sameView_update now bs0 bs (Name p) cb Hv Hcb).
    assert (Hno : notOpen now bs0 (Name p)
                  = negb (State_eqb (state (currentState now cb)) StateOpen)).
    { rewrite <- (sameView_notOpen now bs0 bs _ Hv). unfold notOpen, State_of.
      now rewrite Hcb. }
    rewrite Hno.
    assert (Hwf' : forall q, In q ps -> is_Some (bs0 !! Name q))
      by (intros q Hq; apply Hwf; now right).
    destruct (State_eqb (state (currentState now cb)) StateOpen); cbn.
    + now apply IH.
    + destruct (String.eqb model ""); cbn.
      * destruct (IH _ (acc ++ [p])%list _ Hv' Hwf') as (bs' & -> & Hv'').
        exists bs'. now rewrite <- app_assoc.
      * destruct (supports p model).
        -- destruct (IH _ (acc ++ [p])%list _ Hv' Hwf') as (bs' & -> & Hv'').
           exists bs'. now rewrite <- app_assoc.
        -- now apply IH.
Qed.

Lemma filter_head {A} (f : A -> bool) (l : list A) x rest :
  List.filter f l = x :: rest ->
  exists pre post,
    l = (pre ++ x :: post)%list /\ f x = true
    /\ (forall q, In q pre -> f q = false)
    /\ List.filter f post = rest.
Proof.
  induction l as [|a l IH]; cbn; [discriminate|].
  destruct (f a) eqn:Hfa.
  - intros [= -> <-]. exists [], l. cbn. intuition.
  - intros H. destruct (IH H) as (pre & post & -> & Hx & Hpre & Hpost).
    exists (a :: pre), post. cbn. intuition. now subst.
Qed.

Lemma filter_nil {A} (f : A -> bool) (l : list A) :
  List.filter f l = [] -> forall q, In q l -> f q = false.
Proof.
  induction l as [|a l IH]; cbn; [easy|].
  destruct (f a) eqn:Hfa; [discriminate|].
  intros H q [<-|Hq]; auto.
Qed.

Lemma supports_In (p : Provider) (model : string) :
  supports p model = true <-> In model (SupportedModels p).
Proof.
  unfold supports. rewrite existsb_exists. split.
  - intros (m & Hm & Heq). apply String.eqb_eq in Heq. now subst.
  - intros H. exists model. split; [assumption|apply String.eqb_refl].
Qed.

(** ** The cost loop of [Route] *)

Lemma cheapest_spec (rest : list Provider) :
  forall best pre post,
    (forall q, In q (pre ++ best :: post ++ rest) ->
               is_nan (CostPerInputToken q) = false) ->
    (forall q, In q pre ->
               (CostPerInputToken best <? CostPerInputToken q)%float = true) ->
    (forall q, In q post ->
               (CostPerInputToken best <=? CostPerInputToken q)%float = true) ->
    exists pre' post',
      (pre ++ best :: post ++ rest = pre' ++ cheapest best rest :: post')%list
      /\ (forall q, In q pre' ->
            (CostPerInputToken (cheapest best rest) <? CostPerInputToken q)%float = true)
      /\ (forall q, In q post' ->
            (CostPerInputToken (cheapest best rest) <=? CostPerInputToken q)%float = true).
Proof.
  induction rest as [|p rest IH]; intros best pre post Hnan Hpre Hpost; cbn.
  - exists pre, post. now rewrite app_nil_r.
  - fold (cheapest
            (if (CostPerInputToken p <? CostPerInputToken best)%float
             then p else best) rest).
    assert (Hin : forall q, In q (pre ++ best :: post ++ [p]) ->
                            In q (pre ++ best :: post ++ p :: rest)).
    { intros q. rewrite !in_app_iff. cbn. rewrite !in_app_iff. cbn. tauto. }
    destruct (CostPerInputToken p <? CostPerInputToken best)%float eqn:Hlt.
    + destruct (IH p (pre ++ best :: post)%list []) as (pre' & post' & Heq & H1 & H2).
      * intros q Hq. apply Hnan. revert Hq.
        rewrite !in_app_iff. cbn. rewrite !in_app_iff. cbn. tauto.
      * intros q. rewrite in_app_iff. cbn.
        intros [Hq|[<-|Hq]]; auto.
        -- eapply ltb_trans; eauto.
        -- eapply ltb_leb_trans; eauto.
      * intros q [].
      * exists pre', post'. split; [|now split].
        rewrite <- Heq. cbn. rewrite <- !app_assoc. reflexivity.
    + destruct (IH best pre (post ++ [p])%list) as (pre' & post' & Heq & H1 & H2).
      * intros q Hq. apply Hnan. revert Hq.
        rewrite !in_app_iff. cbn. rewrite !in_app_iff. cbn. tauto.
      * assumption.
      * intros q. rewrite in_app_iff. cbn. intros [Hq|[<-|[]]]; auto.
        apply ltb_false_leb; auto; apply Hnan;
          rewrite !in_app_iff; cbn; rewrite !in_app_iff; cbn; tauto.
      * exists pre', post'. split; [|now split].
        rewrite <- Heq. rewrite <- !app_assoc. reflexivity.
Qed.

(** ** [NewRouter] and the router invariant *)

Lemma fold_insert_keeps now (ps : list Provider) :
  forall (bs : gmap string CircuitBreaker) n,
    is_Some (bs !! n) ->
    is_Some (fold_left
               (fun bs p => <[Name p := NewCircuitBreaker now (breakerSettings p)]> bs)
               ps bs !! n).
Proof.
  induction ps as [|p ps IH]; intros bs n Hn; cbn; [assumption|].
  apply IH. destruct (decide (Name p = n)) as [->|Hne].
  - rewrite lookup_insert_eq. eauto.
  - now rewrite lookup_insert_ne.
Qed.

Lemma NewRouter_wellFormed now ps : wellFormed (NewRouter now ps).
Proof.
  unfold wellFormed, NewRouter. cbn.
  generalize (∅ : gmap string CircuitBreaker).
  induction ps as [|a ps IH]; intros bs p; cbn; [easy|].
  intros [<-|Hp].
  - apply fold_insert_keeps. rewrite lookup_insert_eq. eauto.
  - now apply IH.
Qed.

(** ** [Route] *)

Lemma Route_eligible now req r :
  wellFormed r ->
  exists bs',
    sameView now (breakers r) bs'
    /\ Route now req r
       = Some (mkRouter (providers r) bs',
               match eligible now r (Request_Model req) with
               | [] => Failed errAllUnavailable
               | first :: rest =>
                   if negb (String.eqb (Request_Model req) "") then Ok first
                   else Ok (cheapest first rest)
               end).
Proof.
  intros Hwf. unfold Route.
  destruct (collect_spec now (Request_Model req) (providers r) (breakers r) []
              (breakers r) (sameView_refl now _) Hwf) as (bs' & Hc & Hv).
  exists bs'. split; [assumption|].
  rewrite Hc. cbn [app]. fold (eligible now r (Request_Model req)).
  destruct (eligible now r (Request_Model req)); [reflexivity|].
  now destruct (negb (String.eqb (Request_Model req) "")).
Qed.

(** C2.  A request with an empty model is routed, among the providers
    whose breaker is not open (taken in registration order), to the one
    with the lowest cost per input token, and among several of lowest
    cost to the one registered first: every candidate before the chosen
    one is strictly dearer, every candidate after it is at least as dear.
    When no breaker admits a provider the call fails with "all providers
    unavailable".  Costs are numbers (not NaN). *)
Theorem Route_unpinned_lowest_cost (now : Time) (req : Request) (r : Router) :
  wellFormed r ->
  Request_Model req = "" ->
  (forall p, In p (providers r) -> is_nan (CostPerInputToken p) = false) ->
  exists r' res,
    Route now req r = Some (r', res)
    /\ match res with
       | Ok best =>
           exists pre post,
             List.filter (fun p => notOpen now (breakers r) (Name p)) (providers r)
             = (pre ++ best :: post)%list
             /\ (forall q, In q pre ->
                   (CostPerInputToken best <? CostPerInputToken q)%float = true)
             /\ (forall q, In q post ->
                   (CostPerInputToken best <=? CostPerInputToken q)%float = true)
       | Failed err =>
           err = "all providers unavailable"
           /\ List.filter (fun p => notOpen now (breakers r) (Name p)) (providers r) = []
       end.
Proof.
  intros Hwf Hmodel Hnan.
  destruct (Route_eligible now req r Hwf) as (bs' & _ & HR).
  rewrite HR, Hmodel. clear HR.
  assert (Hel : eligible now r ""
                = List.filter (fun p => notOpen now (breakers r) (Name p)) (providers r)).
  { unfold eligible. apply filter_ext. intros p. cbn. now rewrite andb_true_r. }
  rewrite Hel.
  assert (Hsub : forall q,
             In q (List.filter (fun p => notOpen now (breakers r) (Name p)) (providers r)) ->
             is_nan (CostPerInputToken q) = false).
  { intros q Hq. apply Hnan. now apply filter_In in Hq. }
  destruct (List.filter _ (providers r)) as [|first rest]; cbn.
  - eexists _, _. split; [reflexivity|]. now split.
  - eexists _, _. split; [reflexivity|]. cbn.
    destruct (cheapest_spec rest first [] []) as (pre & post & Heq & H1 & H2);
      [assumption|intros q []|intros q []|].
    exists pre, post. now split.
Qed.

Lemma Route_unpinned_lowest_cost_witness :
  exists r' res,
    Route 0 emptyRequest
      (NewRouter 0 [MockProvider "expensive" 10 [] None;
                    MockProvider "cheap" 1 [] None])
    = Some (r', res)
    /\ match res with
       | Ok best =>
           exists pre post,
             List.filter
               (fun p => notOpen 0
                           (breakers (NewRouter 0 [MockProvider "expensive" 10 [] None;
                                                   MockProvider "cheap" 1 [] None]))
                           (Name p))
               (providers (NewRouter 0 [MockProvider "expensive" 10 [] None;
                                        MockProvider "cheap" 1 [] None]))
             = (pre ++ best :: post)%list
             /\ (forall q, In q pre ->
                   (CostPerInputToken best <? CostPerInputToken q)%float = true)
             /\ (forall q, In q post ->
                   (CostPerInputToken best <=? CostPerInputToken q)%float = true)
       | Failed err =>
           err = "all providers unavailable"
           /\ List.filter
                (fun p => notOpen 0
                            (breakers (NewRouter 0 [MockProvider "expensive" 10 [] None;
                                                    MockProvider "cheap" 1 [] None]))
                            (Name p))
                (providers (NewRouter 0 [MockProvider "expensive" 10 [] None;
                                         MockProvider "cheap" 1 [] None])) = []
       end.
Proof.
  apply (Route_unpinned_lowest_cost 0 emptyRequest
           (NewRouter 0 [MockProvider "expensive" 10 [] None;
                         MockProvider "cheap" 1 [] None])).
  - intros p [<-|[<-|[]]]; vm_compute; eauto.
  - reflexivity.
  - intros p [<-|[<-|[]]]; reflexivity.
Defined.

(** C3.  A request that names a model is routed to the first provider in
    registration order whose breaker is not open and whose supported
    models contain that model, whatever the costs; when there is no such
    provider the call fails with "all providers unavailable". *)
Theorem Route_pinned_first_match (now : Time) (req : Request) (r : Router) :
  wellFormed r ->
  Request_Model req <> "" ->
  exists r' res,
    Route now req r = Some (r', res)
    /\ match res with
       | Ok first =>
           exists pre post,
             providers r = (pre ++ first :: post)%list
             /\ notOpen now (breakers r) (Name first) = true
             /\ In (Request_Model req) (SupportedModels first)
             /\ (forall q, In q pre ->
                   notOpen now (breakers r) (Name q) = false
                   \/ ~ In (Request_Model req) (SupportedModels q))
       | Failed err =>
           err = "all providers unavailable"
           /\ (forall q, In q (providers r) ->
                 notOpen now (breakers r) (Name q) = false
                 \/ ~ In (Request_Model req) (SupportedModels q))
       end.
Proof.
  intros Hwf Hmodel.
  destruct (Route_eligible now req r Hwf) as (bs' & _ & HR).
  rewrite HR. clear HR.
  assert (Hne : String.eqb (Request_Model req) "" = false)
    by now apply String.eqb_neq.
  assert (Hsplit : forall q,
             notOpen now (breakers r) (Name q)
             && (String.eqb (Request_Model req) "" || supports q (Request_Model req))
             = false ->
             notOpen now (breakers r) (Name q) = false
             \/ ~ In (Request_Model req) (SupportedModels q)).
  { intros q. rewrite Hne. cbn. rewrite andb_false_iff.
    intros [H|H]; [now left|right].
    rewrite <- supports_In. now rewrite H. }
  unfold eligible.
  destruct (List.filter _ (providers r)) as [|first rest] eqn:Hf.
  - eexists _, _. split; [reflexivity|]. split; [reflexivity|].
    intros q Hq. apply Hsplit. exact (filter_nil _ _ Hf q Hq).
  - rewrite Hne. cbn.
    eexists _, _. split; [reflexivity|]. cbn.
    destruct (filter_head _ _ _ _ Hf) as (pre & post & Hps & Hfirst & Hpre & _).
    exists pre, post. rewrite Hne in Hfirst. cbn in Hfirst.
    apply andb_true_iff in Hfirst as [Hopen Hsup].
    repeat split; try assumption.
    + now apply supports_In.
    + intros q Hq. apply Hsplit. now apply Hpre.
Qed.

Lemma Route_pinned_first_match_witness :
  exists r' res,
    Route 0 (mkRequest "claude-3" [] 0 0%float false "" "")
      (NewRouter 0 [MockProvider "gpt4-provider" 0 ["gpt-4"] None;
                    MockProvider "claude-provider" 0 ["claude-3"] None])
    = Some (r', res)
    /\ match res with
       | Ok first =>
           exists pre post,
             [MockProvider "gpt4-provider" 0 ["gpt-4"] None;
              MockProvider "claude-provider" 0 ["claude-3"] None]
             = (pre ++ first :: post)%list
             /\ notOpen 0
                  (breakers (NewRouter 0 [MockProvider "gpt4-provider" 0 ["gpt-4"] None;
                                          MockProvider "claude-provider" 0 ["claude-3"] None]))
                  (Name first) = true
             /\ In "claude-3" (SupportedModels first)
             /\ (forall q, In q pre ->
                   notOpen 0
                     (breakers (NewRouter 0 [MockProvider "gpt4-provider" 0 ["gpt-4"] None;
                                             MockProvider "claude-provider" 0 ["claude-3"] None]))
                     (Name q) = false
                   \/ ~ In "claude-3" (SupportedModels q))
       | Failed err =>
           err = "all providers unavailable"
           /\ (forall q,
                 In q [MockProvider "gpt4-provider" 0 ["gpt-4"] None;
                       MockProvider "claude-provider" 0 ["claude-3"] None] ->
                 notOpen 0
                   (breakers (NewRouter 0 [MockProvider "gpt4-provider" 0 ["gpt-4"] None;
                                           MockProvider "claude-provider" 0 ["claude-3"] None]))
                   (Name q) = false
                 \/ ~ In "claude-3" (SupportedModels q))
       end.
Proof.
  apply (Route_pinned_first_match 0 (mkRequest "claude-3" [] 0 0%float false "" "")
           (NewRouter 0 [MockProvider "gpt4-provider" 0 ["gpt-4"] None;
                         MockProvider "claude-provider" 0 ["claude-3"] None])).
  - intros p [<-|[<-|[]]]; vm_compute; eauto.
  - discriminate.
Defined.

(** ** The breaker *)

Lemma currentState_open_early now x cb :
  state cb = StateOpen -> expiry cb = Some x -> now <= x ->
  currentState now cb = cb.
Proof.
  intros Hs He Hle. unfold currentState. rewrite Hs, He. cbn.
  destruct (x <? now) eqn:Hlt; [apply Z.ltb_lt in Hlt; lia|reflexivity].
Qed.

Lemma breaker_Execute_open_early {A} t0 t1 x (req : unit -> result A) cb :
  state cb = StateOpen -> expiry cb = Some x -> t0 <= x ->
  gobreaker.Execute t0 t1 req cb = (cb, Failed ErrOpenState).
Proof.
  intros Hs He Hle. unfold gobreaker.Execute, beforeRequest.
  rewrite (currentState_open_early t0 x cb Hs He Hle). now rewrite Hs.
Qed.

Lemma forward_open_early clk x cb :
  state cb = StateOpen -> expiry cb = Some x -> (forall i, t_chunk clk i <= x) ->
  forall orig i b, fst (forward clk i b orig cb) = cb.
Proof.
  intros Hs He Hle. induction orig as [|c orig IH]; intros i b; cbn; [reflexivity|].
  assert (Hcb : match Chunk_Err c with
                | Some e => fst (gobreaker.Execute (t_chunk clk i) (t_chunk clk i)
                                   (fun _ => @Failed unit e) cb)
                | None => cb
                end = cb).
  { destruct (Chunk_Err c); [|reflexivity].
    now rewrite (breaker_Execute_open_early _ _ x _ cb Hs He (Hle i)). }
  rewrite Hcb.
  destruct b as [[|k]|]; cbn; try reflexivity.
  - specialize (IH (S i) (Some k)). destruct (forward clk (S i) (Some k) orig cb).
    exact IH.
  - specialize (IH (S i) None). destruct (forward clk (S i) None orig cb).
    exact IH.
Qed.

Lemma breaker_Execute_closed_failure {A} t0 t1 x e (cb : CircuitBreaker) :
  state cb = StateClosed -> expiry cb = Some x -> t0 <= x -> t1 <= x ->
  gobreaker.Execute t0 t1 (fun _ => @Failed A e) cb
  = (onFailure t1 (with_counts (Counts_onRequest (counts cb)) cb), Failed e).
Proof.
  destruct cb as [st s g c ex]. cbn. intros -> -> H0 H1.
  assert (Hx0 : (x <? t0) = false) by (apply Z.ltb_ge; lia).
  assert (Hx1 : (x <? t1) = false) by (apply Z.ltb_ge; lia).
  unfold gobreaker.Execute, beforeRequest, currentState. cbn. rewrite Hx0. cbn.
  unfold afterRequest, currentState. cbn. rewrite Hx1. cbn.
  now rewrite Z.eqb_refl.
Qed.

(** A failure that leaves fewer than three consecutive failures keeps the
    breaker closed in the same interval. *)
Lemma onFailure_below t1 (cb : CircuitBreaker) :
  state cb = StateClosed ->
  (forall c, ReadyToTrip (settings cb) c = (3 <=? ConsecutiveFailures c)) ->
  ConsecutiveFailures (counts cb) + 1 < 3 ->
  let cb' := onFailure t1 (with_counts (Counts_onRequest (counts cb)) cb) in
  state cb' = StateClosed /\ expiry cb' = expiry cb
  /\ settings cb' = settings cb
  /\ ConsecutiveFailures (counts cb') = ConsecutiveFailures (counts cb) + 1.
Proof.
  destruct cb as [st s g c ex]. cbn. intros -> Hr Hlt.
  assert (H3 : (3 <=? ConsecutiveFailures c + 1) = false)
    by (apply Z.leb_gt; lia).
  unfold onFailure, with_counts. cbn. rewrite Hr. cbn. rewrite H3. cbn. auto.
Qed.

(** The failure that makes three consecutive failures opens the breaker
    for [Timeout]. *)
Lemma onFailure_trip t1 (cb : CircuitBreaker) :
  state cb = StateClosed ->
  (forall c, ReadyToTrip (settings cb) c = (3 <=? ConsecutiveFailures c)) ->
  3 <= ConsecutiveFailures (counts cb) + 1 ->
  let cb' := onFailure t1 (with_counts (Counts_onRequest (counts cb)) cb) in
  state cb' = StateOpen /\ expiry cb' = Some (t1 + Timeout (settings cb)).
Proof.
  destruct cb as [st s g c ex]. cbn. intros -> Hr Hge.
  assert (H3 : (3 <=? ConsecutiveFailures c + 1) = true)
    by (apply Z.leb_le; lia).
  unfold onFailure, with_counts. cbn. rewrite Hr. cbn. rewrite H3.
  unfold setState. cbn. auto.
Qed.

(** ** An open breaker stays open until its timeout *)

Lemma collect_open_skips now x name model ps :
  now <= x ->
  forall bs acc bs' c cb,
    bs !! name = Some cb -> state cb = StateOpen -> expiry cb = Some x ->
    collect now model ps bs acc = Some (bs', c) ->
    bs' !! name = Some cb
    /\ (forall q, In q c -> In q acc \/ Name q <> name).
Proof.
  intros Hle. induction ps as [|p ps IH]; intros bs acc bs' c cb Hcb Hs He; cbn.
  - intros [= <- <-]. auto.
  - destruct (bs !! Name p) as [cbp|] eqn:Hp; [|discriminate].
    unfold State_of.
    destruct (decide (Name p = name)) as [Heq|Hne].
    + rewrite Heq in Hp. rewrite Hcb in Hp. injection Hp as <-.
      rewrite (currentState_open_early now x cb Hs He Hle), Hs. cbn.
      intros H. refine (IH _ _ _ _ cb _ Hs He H).
      rewrite Heq. apply lookup_insert_eq.
    + assert (Hcb' : <[Name p := currentState now cbp]> bs !! name = Some cb)
        by now rewrite lookup_insert_ne.
      assert (Hstep : forall acc',
                 (forall q, In q acc' -> In q acc \/ Name q <> name) ->
                 collect now model ps (<[Name p := currentState now cbp]> bs) acc'
                 = Some (bs', c) ->
                 bs' !! name = Some cb
                 /\ (forall q, In q c -> In q acc \/ Name q <> name)).
      { intros acc' Hacc H.
        destruct (IH _ _ _ _ _ Hcb' Hs He H) as [H1 H2].
        split; [assumption|]. intros q Hq.
        destruct (H2 q Hq) as [Hq'|Hq']; auto. }
      assert (Hsame : forall q, In q acc -> In q acc \/ Name q <> name) by auto.
      assert (Hmore : forall q, In q (acc ++ [p]) -> In q acc \/ Name q <> name).
      { intros q. rewrite in_app_iff. cbn. intros [Hq|[<-|[]]]; auto. }
      destruct (State_eqb (state (currentState now cbp)) StateOpen);
        [now apply Hstep|].
      destruct (negb (String.eqb model "")); [|now apply Hstep].
      destruct (supports p model); now apply Hstep.
Qed.

Lemma cheapest_In (rest : list Provider) :
  forall best, In (cheapest best rest) (best :: rest).
Proof.
  induction rest as [|p rest IH]; intros best; cbn; [now left|].
  fold (cheapest
          (if (CostPerInputToken p <? CostPerInputToken best)%float
           then p else best) rest).
  destruct (IH (if (CostPerInputToken p <? CostPerInputToken best)%float
                then p else best)) as [H|H]; [|now right; right].
  rewrite <- H.
  destruct (CostPerInputToken p <? CostPerInputToken best)%float; auto.
Qed.

Lemma Route_open_skips now x name req r r' res :
  now <= x -> openUntil x name r ->
  Route now req r = Some (r', res) ->
  openUntil x name r' /\ (forall q, res = Ok q -> Name q <> name).
Proof.
  intros Hle (cb & Hcb & Hs & He). unfold Route.
  destruct (collect now (Request_Model req) (providers r) (breakers r) [])
    as [[bs c]|] eqn:Hc; [|discriminate].
  destruct (collect_open_skips now x name _ _ Hle _ _ _ _ cb Hcb Hs He Hc)
    as [Hcb' Hskip].
  assert (Hin : forall q, In q c -> Name q <> name).
  { intros q Hq. destruct (Hskip q Hq) as [[]|H]; assumption. }
  destruct c as [|first rest].
  - intros [= <- <-]. split; [exists cb; auto|discriminate].
  - destruct (negb (String.eqb (Request_Model req) "")).
    + intros [= <- <-]. split; [exists cb; auto|].
      intros q [= <-]. apply Hin. now left.
    + intros [= <- <-]. split; [exists cb; auto|].
      intros q [= <-]. apply Hin. apply cheapest_In.
Qed.

Lemma step_openUntil x name o r r' :
  notAfter x o -> openUntil x name r -> step o r = Some r' ->
  openUntil x name r'.
Proof.
  intros Hna Hopen. destruct o as [now req|t0 t1 req p|clk pb wb req p]; cbn in *.
  - destruct (Route now req r) as [[r1 res]|] eqn:HR; [|discriminate].
    intros [= <-]. exact (proj1 (Route_open_skips _ _ _ _ _ _ _ Hna Hopen HR)).
  - destruct Hopen as (cb & Hcb & Hs & He). unfold Execute.
    destruct (breakers r !! Name p) as [cbp|] eqn:Hp; [|discriminate].
    destruct (gobreaker.Execute t0 t1 (fun _ => Complete p req) cbp)
      as [cb' res] eqn:HE.
    intros [= <-]. exists cb. cbn. repeat split; try assumption.
    destruct (decide (Name p = name)) as [Heq|Hne].
    + rewrite Heq in Hp. rewrite Hcb in Hp. injection Hp as <-.
      rewrite (breaker_Execute_open_early t0 t1 x _ cb Hs He (proj1 Hna)) in HE.
      injection HE as <- _. rewrite Heq. now rewrite lookup_insert_eq.
    + now rewrite lookup_insert_ne.
  - destruct Hopen as (cb & Hcb & Hs & He). destruct Hna as (Hst & Hop & Hch).
    unfold ExecuteStream.
    destruct (breakers r !! Name p) as [cbp|] eqn:Hp; [|discriminate].
    unfold State_of.
    destruct (decide (Name p = name)) as [Heq|Hne].
    + rewrite Heq in Hp. rewrite Hcb in Hp. injection Hp as <-.
      rewrite (currentState_open_early _ x cb Hs He Hst), Hs. cbn.
      intros [= <-]. exists cb. cbn. rewrite Heq.
      now rewrite lookup_insert_eq.
    + assert (Hkeep : forall cb', <[Name p := cb']> (breakers r) !! name = Some cb)
        by (intros cb'; now rewrite lookup_insert_ne).
      destruct (State_eqb (state (currentState (t_state clk) cbp)) StateOpen).
      * intros [= <-]. exists cb. cbn. auto.
      * destruct (CompleteStream p req pb) as [origCh|e].
        -- destruct (forward clk 0 wb origCh (currentState (t_state clk) cbp)).
           intros [= <-]. exists cb. cbn. auto.
        -- intros [= <-]. exists cb. cbn. auto.
Qed.

Lemma run_openUntil x name ops :
  forall r r',
    Forall (notAfter x) ops -> openUntil x name r -> run ops r = Some r' ->
    openUntil x name r'.
Proof.
  induction ops as [|o ops IH]; intros r r' Hall Hopen; cbn.
  - now intros [= <-].
  - inversion Hall as [|? ? Ho Hops]; subst.
    destruct (step o r) as [r1|] eqn:Hstep; [|discriminate].
    intros H. apply (IH r1 r' Hops); [|exact H].
    exact (step_openUntil x name o r r1 Ho Hopen Hstep).
Qed.

Lemma Execute_closed_failure t0 t1 x req e (P : Provider) (r : Router) cb :
  breakers r !! Name P = Some cb ->
  state cb = StateClosed -> expiry cb = Some x -> t0 <= x -> t1 <= x ->
  Complete P req = Failed e ->
  Execute t0 t1 req P r
  = Some (mkRouter (providers r)
            (<[Name P := onFailure t1 (with_counts (Counts_onRequest (counts cb)) cb)]>
               (breakers r)),
          Failed e).
Proof.
  intros Hcb Hs He H0 H1 Hfail. unfold Execute. rewrite Hcb.
  assert (HE : gobreaker.Execute t0 t1 (fun _ => Complete P req) cb
               = gobreaker.Execute t0 t1 (fun _ => @Failed Response e) cb)
    by (unfold gobreaker.Execute; now rewrite Hfail).
  rewrite HE, (breaker_Execute_closed_failure t0 t1 x e cb Hs He H0 H1).
  reflexivity.
Qed.

(** C4 (as amended).  Three consecutive failing [Execute] calls against
    [P], all admitted and completed within one counting interval of [P]'s
    closed breaker (the interval ends at [x]), open the breaker at the
    completion [t3'] of the third; from then on, whatever calls are made
    on the router, no [Route] call made up to 30 seconds after [t3']
    returns [P] or a provider registered under [P]'s name. *)
Theorem breaker_trips_after_three_failures_in_one_interval
    (r0 : Router) (P : Provider) (cb : CircuitBreaker)
    (x t1 t1' t2 t2' t3 t3' : Time) (req1 req2 req3 : Request)
    (e1 e2 e3 : error) :
  breakers r0 !! Name P = Some cb ->
  state cb = StateClosed ->
  expiry cb = Some x ->
  ConsecutiveFailures (counts cb) = 0 ->
  (forall c, ReadyToTrip (settings cb) c = (3 <=? ConsecutiveFailures c)) ->
  Timeout (settings cb) = 30 * Second ->
  t1 <= x -> t1' <= x -> t2 <= x -> t2' <= x -> t3 <= x -> t3' <= x ->
  Complete P req1 = Failed e1 ->
  Complete P req2 = Failed e2 ->
  Complete P req3 = Failed e3 ->
  exists r1 r2 r3,
    Execute t1 t1' req1 P r0 = Some (r1, Failed e1)
    /\ Execute t2 t2' req2 P r1 = Some (r2, Failed e2)
    /\ Execute t3 t3' req3 P r2 = Some (r3, Failed e3)
    /\ forall ops r' now req r'' q,
         Forall (notAfter (t3' + 30 * Second)) ops ->
         run ops r3 = Some r' ->
         now <= t3' + 30 * Second ->
         Route now req r' = Some (r'', Ok q) ->
         Name q <> Name P.
Proof.
  intros Hcb Hs He Hcf Hrt Hto H1 H1' H2 H2' H3 H3' Hf1 Hf2 Hf3.
  (* first failure *)
  pose proof (Execute_closed_failure t1 t1' x req1 e1 P r0 cb Hcb Hs He H1 H1' Hf1) as HE1.
  destruct (onFailure_below t1' cb Hs Hrt ltac:(lia)) as (Hs1 & He1 & Hset1 & Hcf1).
  set (cb1 := onFailure t1' (with_counts (Counts_onRequest (counts cb)) cb)) in *.
  set (r1 := mkRouter (providers r0) (<[Name P := cb1]> (breakers r0))) in *.
  assert (Hcb1 : breakers r1 !! Name P = Some cb1) by apply lookup_insert_eq.
  assert (Hrt1 : forall c, ReadyToTrip (settings cb1) c = (3 <=? ConsecutiveFailures c))
    by (now rewrite Hset1).
  rewrite He in He1.
  (* second failure *)
  pose proof (Execute_closed_failure t2 t2' x req2 e2 P r1 cb1 Hcb1 Hs1 He1 H2 H2' Hf2) as HE2.
  destruct (onFailure_below t2' cb1 Hs1 Hrt1 ltac:(lia)) as (Hs2 & He2 & Hset2 & Hcf2).
  set (cb2 := onFailure t2' (with_counts (Counts_onRequest (counts cb1)) cb1)) in *.
  set (r2 := mkRouter (providers r1) (<[Name P := cb2]> (breakers r1))) in *.
  assert (Hcb2 : breakers r2 !! Name P = Some cb2) by apply lookup_insert_eq.
  assert (Hrt2 : forall c, ReadyToTrip (settings cb2) c = (3 <=? ConsecutiveFailures c))
    by (now rewrite Hset2).
  rewrite He1 in He2.
  (* third failure: the breaker opens *)
  pose proof (Execute_closed_failure t3 t3' x req3 e3 P r2 cb2 Hcb2 Hs2 He2 H3 H3' Hf3) as HE3.
  destruct (onFailure_trip t3' cb2 Hs2 Hrt2 ltac:(lia)) as (Hs3 & He3).
  set (cb3 := onFailure t3' (with_counts (Counts_onRequest (counts cb2)) cb2)) in *.
  set (r3 := mkRouter (providers r2) (<[Name P := cb3]> (breakers r2))) in *.
  rewrite Hset2, Hset1, Hto in He3.
  exists r1, r2, r3. repeat split; try assumption.
  intros ops r' now req r'' q Hops Hrun Hnow HR.
  assert (Hopen3 : openUntil (t3' + 30 * Second) (Name P) r3).
  { exists cb3. repeat split; try assumption. apply lookup_insert_eq. }
  pose proof (run_openUntil _ _ ops r3 r' Hops Hopen3 Hrun) as Hopen'.
  exact (proj2 (Route_open_skips _ _ _ _ _ _ _ Hnow Hopen' HR) q eq_refl).
Qed.

Lemma breaker_trips_after_three_failures_in_one_interval_witness :
  exists r1 r2 r3,
    Execute 0 0 emptyRequest p1 (NewRouter 0 [p1]) = Some (r1, Failed "fail")
    /\ Execute Second Second emptyRequest p1 r1 = Some (r2, Failed "fail")
    /\ Execute (2 * Second) (2 * Second) emptyRequest p1 r2 = Some (r3, Failed "fail")
    /\ forall ops r' now req r'' q,
         Forall (notAfter (2 * Second + 30 * Second)) ops ->
         run ops r3 = Some r' ->
         now <= 2 * Second + 30 * Second ->
         Route now req r' = Some (r'', Ok q) ->
         Name q <> Name p1.
Proof.
  apply (breaker_trips_after_three_failures_in_one_interval
           (NewRouter 0 [p1]) p1 (NewCircuitBreaker 0 (breakerSettings p1))
           (5 * Second) 0 0 Second Second (2 * Second) (2 * Second)
           emptyRequest emptyRequest emptyRequest "fail" "fail" "fail");
    try reflexivity; try (vm_compute; congruence).
Defined.

(** C4, as stated, fails: counters are cleared at the start of every
    5-second interval, so three consecutive failures that straddle an
    interval boundary do not open the breaker, and [Route] returns the
    provider one second after the third failure. *)
Lemma breaker_three_failures_across_intervals_counterexample :
  exists r1 r2 r3 r4,
    Execute 0 0 emptyRequest p1 (NewRouter 0 [p1]) = Some (r1, Failed "fail")
    /\ Execute Second Second emptyRequest p1 r1 = Some (r2, Failed "fail")
    /\ Execute (6 * Second) (6 * Second) emptyRequest p1 r2 = Some (r3, Failed "fail")
    /\ Route (7 * Second) emptyRequest r3 = Some (r4, Ok p1).
Proof.
  do 4 eexists. repeat split; vm_compute; reflexivity.
Qed.

(** ** The handlers *)

Ltac handler_step H :=
  match type of H with
  | None = Some _ => discriminate H
  | Some _ = Some _ => injection H as ? ?; subst
  | context [match ?x with _ => _ end] =>
      lazymatch x with
      | context [match _ with _ => _ end] => fail
      | _ => destruct x eqn:?
      end
  end.

Ltac handler_paths H :=
  repeat (cbn -[Route Execute ExecuteStream ratelimit.Allow estimate] in H;
          handler_step H).

(** C1.  When [HandleComplete] answers 200, it has enqueued exactly one
    usage log, whose token counts are those of the provider's response and
    whose [cost_usd] is [input_tokens * cost_in + output_tokens * cost_out]
    in float64 arithmetic, at the rates of the provider that [Route]
    selected for the request. *)
Theorem HandleComplete_cost (h : Handler) (env : Env) (r r' : Router)
    (tr : list Event) :
  serve (HandleComplete h env) r = Some (r', tr) ->
  In (EvWriteHeader StatusOK) tr ->
  exists req r1 p response log,
    decoded env = Ok req
    /\ Route (t_route env) req r = Some (r1, Ok p)
    /\ Execute (t_call env) (t_return env) req p r1 = Some (r', Ok response)
    /\ List.filter isLogUsage tr = [EvGoLogUsage log]
    /\ billing.InputTokens log = Response_InputTokens response
    /\ billing.OutputTokens log = Response_OutputTokens response
    /\ billing.CostUSD log
       = (float64_of_int (billing.InputTokens log) * CostPerInputToken p
          + float64_of_int (billing.OutputTokens log) * CostPerOutputToken p)%float.
Proof.
  intros H H200.
  unfold serve, HandleComplete, prepare, bind, writeJSON, emit, ret, onRouter,
    onLimiter in H.
  handler_paths H; cbn in H200;
    try (exfalso; intuition discriminate).
  eexists _, _, _, _, _. repeat split; try eassumption; reflexivity.
Qed.

#[local] Set Warnings "-inexact-float".
Lemma HandleComplete_cost_witness :
  exists r' tr,
    serve (HandleComplete (testHandler true) (testEnv gpt4Request))
      (NewRouter 0 [MockProvider "test-provider" 0.01 ["gpt-4"] None])
    = Some (r', tr)
    /\ In (EvWriteHeader StatusOK) tr
    /\ exists req r1 p response log,
         decoded (testEnv gpt4Request) = Ok req
         /\ Route (t_route (testEnv gpt4Request)) req
              (NewRouter 0 [MockProvider "test-provider" 0.01 ["gpt-4"] None])
            = Some (r1, Ok p)
         /\ Execute (t_call (testEnv gpt4Request)) (t_return (testEnv gpt4Request))
              req p r1 = Some (r', Ok response)
         /\ List.filter isLogUsage tr = [EvGoLogUsage log]
         /\ billing.InputTokens log = Response_InputTokens response
         /\ billing.OutputTokens log = Response_OutputTokens response
         /\ billing.CostUSD log
            = (float64_of_int (billing.InputTokens log) * CostPerInputToken p
               + float64_of_int (billing.OutputTokens log) * CostPerOutputToken p)%float.
Proof.
  eexists _, _.
  split; [vm_compute; reflexivity|].
  split; [cbn; tauto|].
  apply (HandleComplete_cost (testHandler true) (testEnv gpt4Request)
           (NewRouter 0 [MockProvider "test-provider" 0.01 ["gpt-4"] None])).
  - vm_compute. reflexivity.
  - cbn. tauto.
Defined.
#[local] Set Warnings "inexact-float".

(** *** The handlers do not panic on a well-formed router *)

Lemma Route_total now req r :
  wellFormed r ->
  exists r' res,
    Route now req r = Some (r', res)
    /\ wellFormed r'
    /\ (forall p, res = Ok p -> In p (providers r')).
Proof.
  intros Hwf. destruct (Route_eligible now req r Hwf) as (bs' & Hv & HR).
  eexists _, _. split; [exact HR|]. split.
  - intros p Hp. cbn in *. destruct (Hwf p Hp) as [cb Hcb].
    specialize (Hv (Name p)). rewrite Hcb in Hv.
    destruct (bs' !! Name p); [eauto|easy].
  - intros p. cbn.
    assert (Hsub : forall q, In q (eligible now r (Request_Model req)) ->
                             In q (providers r))
      by (intros q Hq; now apply filter_In in Hq).
    destruct (eligible now r (Request_Model req)) as [|first rest]; [discriminate|].
    destruct (negb (String.eqb (Request_Model req) "")); intros [= <-]; apply Hsub.
    + now left.
    + apply cheapest_In.
Qed.

Lemma Execute_total t0 t1 req p r :
  wellFormed r -> In p (providers r) ->
  exists r' res, Execute t0 t1 req p r = Some (r', res).
Proof.
  intros Hwf Hp. unfold Execute. destruct (Hwf p Hp) as [cb ->].
  destruct (gobreaker.Execute t0 t1 (fun _ => Complete p req) cb). eauto.
Qed.

Lemma ExecuteStream_total clk pb wb req p r :
  wellFormed r -> In p (providers r) ->
  exists r' res, ExecuteStream clk pb wb req p r = Some (r', res).
Proof.
  intros Hwf Hp. unfold ExecuteStream. destruct (Hwf p Hp) as [cb ->].
  unfold State_of.
  destruct (State_eqb (state (currentState (t_state clk) cb)) StateOpen); [eauto|].
  destruct (CompleteStream p req pb); [|eauto].
  destruct (forward clk 0 wb a (currentState (t_state clk) cb)). eauto.
Qed.

Lemma HandleComplete_total h env r :
  wellFormed r -> exists r' tr, serve (HandleComplete h env) r = Some (r', tr).
Proof.
  intros Hwf.
  unfold serve, HandleComplete, prepare, bind, writeJSON, emit, ret, onRouter,
    onLimiter.
  destruct (String.eqb (ctx_tenantID env) "");
    cbn -[Route Execute ExecuteStream ratelimit.Allow estimate]; [eauto|].
  destruct (decoded env) as [req|err];
    cbn -[Route Execute ExecuteStream ratelimit.Allow estimate]; [|eauto].
  destruct (ratelimit.Allow (limiter h) (ctx_tenantID env) (estimate req))
    as [[allowed err] calls]; cbn -[Route Execute ExecuteStream ratelimit.Allow estimate].
  destruct (notNil err || negb allowed);
    cbn -[Route Execute ExecuteStream ratelimit.Allow estimate]; [eauto|].
  destruct (Route_total (t_route env) req r Hwf) as (r1 & res & -> & Hwf1 & Hin).
  destruct res as [p|err'];
    cbn -[Route Execute ExecuteStream ratelimit.Allow estimate]; [|eauto].
  destruct (Execute_total (t_call env) (t_return env) req p r1 Hwf1 (Hin p eq_refl))
    as (r2 & res2 & ->).
  destruct res2;
    cbn -[Route Execute ExecuteStream ratelimit.Allow estimate]; eauto.
Qed.

Lemma HandleCompleteStream_total h env r :
  wellFormed r -> exists r' tr, serve (HandleCompleteStream h env) r = Some (r', tr).
Proof.
  intros Hwf.
  unfold serve, HandleCompleteStream, prepare, bind, writeJSON, emit, emits, ret,
    onRouter, onLimiter.
  destruct (String.eqb (ctx_tenantID env) "");
    cbn -[Route Execute ExecuteStream ratelimit.Allow estimate]; [eauto|].
  destruct (decoded env) as [req|err];
    cbn -[Route Execute ExecuteStream ratelimit.Allow estimate]; [|eauto].
  destruct (ratelimit.Allow (limiter h) (ctx_tenantID env) (estimate req))
    as [[allowed err] calls]; cbn -[Route Execute ExecuteStream ratelimit.Allow estimate].
  destruct (notNil err || negb allowed);
    cbn -[Route Execute ExecuteStream ratelimit.Allow estimate]; [eauto|].
  destruct (Route_total (t_route env) req r Hwf) as (r1 & res & -> & Hwf1 & Hin).
  destruct res as [p|err'];
    cbn -[Route Execute ExecuteStream ratelimit.Allow estimate]; [|eauto].
  destruct (ExecuteStream_total (clk env) (provider_budget env) (wrapper_budget env)
              req p r1 Hwf1 (Hin p eq_refl)) as (r2 & res2 & ->).
  destruct res2;
    cbn -[Route Execute ExecuteStream ratelimit.Allow estimate]; [|eauto].
  destruct (is_flusher env);
    cbn -[Route Execute ExecuteStream ratelimit.Allow estimate]; eauto.
Qed.

Lemma writeChunks_no_AllowN ch : List.filter isAllowN (writeChunks ch) = [].
Proof.
  induction ch as [|c ch IH]; cbn; [reflexivity|].
  destruct (Chunk_Err c); [reflexivity|].
  destruct (Chunk_Done c); [reflexivity|]. cbn. exact IH.
Qed.

Lemma writeChunks_no_LogUsage ch : List.filter isLogUsage (writeChunks ch) = [].
Proof.
  induction ch as [|c ch IH]; cbn; [reflexivity|].
  destruct (Chunk_Err c); [reflexivity|].
  destruct (Chunk_Done c); [reflexivity|]. cbn. exact IH.
Qed.

Lemma Allow_denies l tenant n res err :
  ratelimit.store l ("ratelimit:tenant:" ++ tenant) n = (res, err) ->
  err <> None \/ ratelimit.Allowed res = false ->
  notNil (snd (fst (ratelimit.Allow l tenant n)))
  || negb (fst (fst (ratelimit.Allow l tenant n))) = true.
Proof.
  intros Hs Hd. unfold ratelimit.Allow. cbn. rewrite Hs.
  destruct err; cbn; [reflexivity|].
  destruct Hd as [Hd|Hd]; [congruence|]. now rewrite Hd.
Qed.

Lemma Allow_calls l tenant n :
  snd (ratelimit.Allow l tenant n)
  = [ratelimit.AllowN ("ratelimit:tenant:" ++ tenant) n].
Proof. reflexivity. Qed.

(** C5.  A request that carries a tenant and a decodable body makes
    either handler consult the limiter store exactly once, before anything
    else, under the tenant's key and for [max_tokens] tokens, or 1000 when
    [max_tokens] is zero or negative.  When the store answers with an
    error or with [allowed = false], all the handler does further is to
    answer 429 with [Retry-After: 60s] and the body
    [{"error":"rate limit exceeded","retry_after":"60s"}]: [Route] is
    not called, no provider is called, the router is untouched. *)
Theorem limiter_debit_and_denial (h : Handler) (env : Env) (r : Router)
    (req : Request) (m : M unit) :
  m = HandleComplete h env \/ m = HandleCompleteStream h env ->
  wellFormed r ->
  ctx_tenantID env <> "" ->
  decoded env = Ok req ->
  exists r' tr rest,
    serve m r = Some (r', tr)
    /\ tr = EvStore (ratelimit.AllowN ("ratelimit:tenant:" ++ ctx_tenantID env)
                       (if Request_MaxTokens req <=? 0 then 1000
                        else Request_MaxTokens req))
            :: rest
    /\ List.filter isAllowN rest = []
    /\ (forall res err,
          ratelimit.store (limiter h) ("ratelimit:tenant:" ++ ctx_tenantID env)
            (if Request_MaxTokens req <=? 0 then 1000 else Request_MaxTokens req)
          = (res, err) ->
          err <> None \/ ratelimit.Allowed res = false ->
          r' = r
          /\ rest = [EvSetHeader "Content-Type" "application/json";
                     EvSetHeader "Retry-After" "60s";
                     EvWriteHeader 429;
                     EvEncode (JObject [("error", JString "rate limit exceeded");
                                        ("retry_after", JString "60s")])]).
Proof.
  intros Hm Hwf Ht Hd. apply String.eqb_neq in Ht.
  assert (Htot : exists r' tr, serve m r = Some (r', tr)).
  { destruct Hm as [-> | ->];
      [now apply HandleComplete_total|now apply HandleCompleteStream_total]. }
  destruct Htot as (r' & tr & H). exists r', tr. pose proof H as H'.
  destruct Hm as [-> | ->].
  - unfold serve, HandleComplete, prepare, bind, writeJSON, emit, ret, onRouter,
    onLimiter in H.
    rewrite Ht, Hd in H.
    handler_paths H.
    all: eexists; split; [exact H'|]; split; [reflexivity|]; split; [reflexivity|].
    all: intros res err Hs Hden; pose proof (Allow_denies _ _ _ _ _ Hs Hden) as HA.
    all: unfold estimate in *; rewrite Heqp in HA; cbn in HA.
    all: first [split; reflexivity | congruence].
  - unfold serve, HandleCompleteStream, prepare, bind, writeJSON, emit, emits, ret,
      onRouter, onLimiter in H.
    rewrite Ht, Hd in H.
    handler_paths H.
    all: eexists; split; [exact H'|]; split; [reflexivity|].
    all: split;
      [cbn; rewrite ?List.filter_app, ?writeChunks_no_AllowN; reflexivity|].
    all: intros res err Hs Hden; pose proof (Allow_denies _ _ _ _ _ Hs Hden) as HA.
    all: unfold estimate in *; rewrite Heqp in HA; cbn in HA.
    all: first [split; reflexivity | congruence].
Qed.

Lemma limiter_debit_and_denial_witness :
  exists r' tr rest,
    serve (HandleComplete (testHandler false) (testEnv emptyRequest)) (NewRouter 0 [])
    = Some (r', tr)
    /\ tr = EvStore (ratelimit.AllowN
                       ("ratelimit:tenant:" ++ ctx_tenantID (testEnv emptyRequest))
                       (if Request_MaxTokens emptyRequest <=? 0 then 1000
                        else Request_MaxTokens emptyRequest))
            :: rest
    /\ List.filter isAllowN rest = []
    /\ (forall res err,
          ratelimit.store (limiter (testHandler false))
            ("ratelimit:tenant:" ++ ctx_tenantID (testEnv emptyRequest))
            (if Request_MaxTokens emptyRequest <=? 0 then 1000
             else Request_MaxTokens emptyRequest)
          = (res, err) ->
          err <> None \/ ratelimit.Allowed res = false ->
          r' = NewRouter 0 []
          /\ rest = [EvSetHeader "Content-Type" "application/json";
                     EvSetHeader "Retry-After" "60s";
                     EvWriteHeader 429;
                     EvEncode (JObject [("error", JString "rate limit exceeded");
                                        ("retry_after", JString "60s")])]).
Proof.
  apply (limiter_debit_and_denial (testHandler false) (testEnv emptyRequest)
           (NewRouter 0 []) emptyRequest
           (HandleComplete (testHandler false) (testEnv emptyRequest))).
  - left. reflexivity.
  - intros p [].
  - discriminate.
  - reflexivity.
Defined.

Lemma writeChunks_no_ErrorAnswer ch : List.filter isErrorAnswer (writeChunks ch) = [].
Proof.
  induction ch as [|c ch IH]; cbn; [reflexivity|].
  destruct (Chunk_Err c); [reflexivity|].
  destruct (Chunk_Done c); [reflexivity|]. cbn. exact IH.
Qed.

(** C9 (as amended).  On a well-formed router both handlers terminate.
    [HandleComplete] initiates exactly one usage-log append when it answers
    200, after the provider's response has come back from [Execute] and
    before the HTTP response is written; with any other answer (401, 400,
    429, 503, and 502 for a provider error) it initiates none.
    [HandleCompleteStream] initiates exactly one usage-log append, as its
    last action after the frames of the stream are written, when it
    answers with the event stream; when it answers with an error status
    it initiates none. *)
Theorem usage_log_once_per_served_completion (h : Handler) (env : Env)
    (r : Router) :
  wellFormed r ->
  exists r1 tr1 r2 tr2,
    serve (HandleComplete h env) r = Some (r1, tr1)
    /\ serve (HandleCompleteStream h env) r = Some (r2, tr2)
    /\ (In (EvWriteHeader StatusOK) tr1 ->
          exists pre p log body,
            tr1 = (pre ++ [EvExecute (Name p); EvGoLogUsage log;
                           EvSetHeader "Content-Type" "application/json";
                           EvWriteHeader StatusOK; EvEncode body])%list
            /\ List.filter isLogUsage tr1 = [EvGoLogUsage log])
    /\ (~ In (EvWriteHeader StatusOK) tr1 -> List.filter isLogUsage tr1 = [])
    /\ (List.filter isErrorAnswer tr2 = [] ->
          exists pre p ch log,
            tr2 = (pre ++ [EvExecuteStream (Name p);
                           EvSetHeader "Content-Type" "text/event-stream";
                           EvSetHeader "Cache-Control" "no-cache";
                           EvSetHeader "Connection" "keep-alive"]
                       ++ writeChunks ch ++ [EvGoLogUsage log])%list
            /\ List.filter isLogUsage tr2 = [EvGoLogUsage log])
    /\ (List.filter isErrorAnswer tr2 <> [] -> List.filter isLogUsage tr2 = []).
Proof.
  intros Hwf.
  destruct (HandleComplete_total h env r Hwf) as (r1 & tr1 & H1).
  destruct (HandleCompleteStream_total h env r Hwf) as (r2 & tr2 & H2).
  exists r1, tr1, r2, tr2.
  split; [assumption|]. split; [assumption|].
  assert (HA : (In (EvWriteHeader StatusOK) tr1 ->
                exists pre p log body,
                  tr1 = (pre ++ [EvExecute (Name p); EvGoLogUsage log;
                                 EvSetHeader "Content-Type" "application/json";
                                 EvWriteHeader StatusOK; EvEncode body])%list
                  /\ List.filter isLogUsage tr1 = [EvGoLogUsage log])
               /\ (~ In (EvWriteHeader StatusOK) tr1 ->
                   List.filter isLogUsage tr1 = [])).
  { clear H2.
    unfold serve, HandleComplete, prepare, bind, writeJSON, emit, ret, onRouter,
    onLimiter in H1.
    handler_paths H1; (split; [intros H200|intros Hno]); cbn in *;
      try reflexivity; try (exfalso; intuition discriminate); try tauto.
    eexists [_; _], _, _, _. split; reflexivity. }
  assert (HB : (List.filter isErrorAnswer tr2 = [] ->
                exists pre p ch log,
                  tr2 = (pre ++ [EvExecuteStream (Name p);
                                 EvSetHeader "Content-Type" "text/event-stream";
                                 EvSetHeader "Cache-Control" "no-cache";
                                 EvSetHeader "Connection" "keep-alive"]
                             ++ writeChunks ch ++ [EvGoLogUsage log])%list
                  /\ List.filter isLogUsage tr2 = [EvGoLogUsage log])
               /\ (List.filter isErrorAnswer tr2 <> [] ->
                   List.filter isLogUsage tr2 = [])).
  { clear H1 HA.
    unfold serve, HandleCompleteStream, prepare, bind, writeJSON, emit, emits, ret,
      onRouter, onLimiter in H2.
    handler_paths H2; (split; [intros Hok|intros Herr]); cbn in *;
      rewrite ?List.filter_app, ?writeChunks_no_LogUsage,
        ?writeChunks_no_ErrorAnswer in *; cbn in *;
      try reflexivity; try discriminate; try congruence.
    eexists [_; _], _, _, _. split; reflexivity. }
  tauto.
Qed.

Lemma usage_log_once_per_served_completion_witness :
  exists r1 tr1 r2 tr2,
    serve (HandleComplete (testHandler true) (testEnv gpt4Request))
      (NewRouter 0 [MockProvider "test-provider" 0 ["gpt-4"] None])
    = Some (r1, tr1)
    /\ serve (HandleCompleteStream (testHandler true) (testEnv gpt4Request))
         (NewRouter 0 [MockProvider "test-provider" 0 ["gpt-4"] None])
       = Some (r2, tr2)
    /\ (In (EvWriteHeader StatusOK) tr1 ->
          exists pre p log body,
            tr1 = (pre ++ [EvExecute (Name p); EvGoLogUsage log;
                           EvSetHeader "Content-Type" "application/json";
                           EvWriteHeader StatusOK; EvEncode body])%list
            /\ List.filter isLogUsage tr1 = [EvGoLogUsage log])
    /\ (~ In (EvWriteHeader StatusOK) tr1 -> List.filter isLogUsage tr1 = [])
    /\ (List.filter isErrorAnswer tr2 = [] ->
          exists pre p ch log,
            tr2 = (pre ++ [EvExecuteStream (Name p);
                           EvSetHeader "Content-Type" "text/event-stream";
                           EvSetHeader "Cache-Control" "no-cache";
                           EvSetHeader "Connection" "keep-alive"]
                       ++ writeChunks ch ++ [EvGoLogUsage log])%list
            /\ List.filter isLogUsage tr2 = [EvGoLogUsage log])
    /\ (List.filter isErrorAnswer tr2 <> [] -> List.filter isLogUsage tr2 = []).
Proof.
  apply (usage_log_once_per_served_completion (testHandler true)
           (testEnv gpt4Request)
           (NewRouter 0 [MockProvider "test-provider" 0 ["gpt-4"] None])).
  intros p [<-|[]]; vm_compute; eauto.
Defined.

(** C9, as stated, fails for a provider error: the unary handler answers
    502 and returns without initiating a usage-log append. *)
Lemma provider_error_logs_no_usage_counterexample :
  exists r' tr,
    serve (HandleComplete (testHandler true) (testEnv emptyRequest))
      (NewRouter 0 [p1])
    = Some (r', tr)
    /\ In (EvExecute "p1") tr
    /\ In (EvWriteHeader StatusBadGateway) tr
    /\ List.filter isLogUsage tr = [].
Proof.
  eexists _, _. split; [vm_compute; reflexivity|].
  cbn. intuition.
Qed.

(** ** The frames of the event stream *)

Lemma ReplaceAll_byte (c : ascii) (new s : string) :
  ReplaceAll s (String c "") new
  = mapBytes (fun a => if Ascii.eqb c a then new else String a "") s.
Proof.
  unfold ReplaceAll. induction s as [|a s IH]; cbn; [reflexivity|].
  destruct (ascii_dec c a) as [->|Hne].
  - rewrite Ascii.eqb_refl.
    assert (Hp : String.prefix "" s = true) by (destruct s; reflexivity).
    rewrite Hp. now rewrite IH.
  - apply Ascii.eqb_neq in Hne. rewrite Hne. cbn. now rewrite IH.
Qed.

Lemma append_cons (x : ascii) (a b : string) :
  String x a ++ b = String x (a ++ b).
Proof. reflexivity. Qed.

Lemma append_assoc (a b c : string) : (a ++ b) ++ c = a ++ (b ++ c).
Proof.
  induction a as [|x a IH]; [reflexivity|].
  rewrite !append_cons. now rewrite IH.
Qed.

Lemma mapBytes_app (f : ascii -> string) (s1 s2 : string) :
  mapBytes f (s1 ++ s2) = mapBytes f s1 ++ mapBytes f s2.
Proof.
  induction s1 as [|a s1 IH]; [reflexivity|].
  rewrite append_cons. cbn [mapBytes]. now rewrite IH, append_assoc.
Qed.

(** The two [strings.ReplaceAll] passes of the handler escape exactly the
    double quotes and the line feeds. *)
Lemma escape_escapeBytes (s : string) : escape s = escapeBytes s.
Proof.
  unfold escape, escapeBytes, DQ, LF. rewrite !ReplaceAll_byte.
  induction s as [|a s IH]; [reflexivity|].
  cbn [mapBytes]. rewrite mapBytes_app, IH. f_equal.
  unfold escapeByte.
  rewrite (Ascii.eqb_sym a "034"%char), (Ascii.eqb_sym a "010"%char).
  destruct (Ascii.eqb "034"%char a) eqn:Hq; [reflexivity|].
  cbn [mapBytes]. destruct (Ascii.eqb "010"%char a); reflexivity.
Qed.

(** C7 (as amended).  What the streaming handler writes for the next
    chunk: for an error chunk with message [m], the frame
    [event: error / data: {"error": "m"}] (with a space after the
    colon) and nothing more; for a done chunk, [data: [DONE]] and nothing
    more; for a delta chunk, the [choices] frame with the delta's double
    quotes and line feeds escaped, followed by what it writes for the
    remaining chunks.  Every frame ends with two line feeds and is
    flushed. *)
Theorem stream_frames (chunk : Chunk) (rest : list Chunk) :
  (forall m, Chunk_Err chunk = Some m ->
     writeChunks (chunk :: rest)
     = [EvFprintf ("event: error" ++ LF ++ "data: {" ++ DQ ++ "error" ++ DQ
                   ++ ": " ++ DQ ++ m ++ DQ ++ "}" ++ LF ++ LF);
        EvFlush])
  /\ (Chunk_Err chunk = None -> Chunk_Done chunk = true ->
      writeChunks (chunk :: rest) = [EvFprintf ("data: [DONE]" ++ LF ++ LF); EvFlush])
  /\ (Chunk_Err chunk = None -> Chunk_Done chunk = false ->
      writeChunks (chunk :: rest)
      = EvFprintf ("data: {" ++ DQ ++ "choices" ++ DQ ++ ":[{" ++ DQ ++ "delta"
                   ++ DQ ++ ":{" ++ DQ ++ "content" ++ DQ ++ ":" ++ DQ
                   ++ escapeBytes (Chunk_Delta chunk) ++ DQ ++ "}," ++ DQ
                   ++ "index" ++ DQ ++ ":0}]}" ++ LF ++ LF)
        :: EvFlush :: writeChunks rest).
Proof.
  repeat split.
  - intros m Hm. cbn. rewrite Hm.
    unfold sseError, quoted. rewrite !append_assoc. reflexivity.
  - intros He Hd. cbn. rewrite He, Hd. reflexivity.
  - intros He Hd. cbn -[escape]. rewrite He, Hd, escape_escapeBytes.
    unfold sseDelta, quoted. rewrite !append_assoc. reflexivity.
Qed.

(** C7, as stated, fails for the error frame: the handler writes a space
    between the colon and the message. *)
Lemma error_frame_counterexample :
  writeChunks [mkChunk "" false (Some "boom")]
  <> [EvFprintf ("event: error" ++ LF ++ "data: {" ++ DQ ++ "error" ++ DQ
                 ++ ":" ++ DQ ++ "boom" ++ DQ ++ "}" ++ LF ++ LF);
      EvFlush].
Proof. vm_compute. discriminate. Qed.

(** ** The Claude adapter *)

(** C10.  The request body the Claude adapter posts, from [Complete] and
    from [CompleteStream], carries [max_tokens = 4096] when the request's
    [MaxTokens] is 0 and the request's [MaxTokens] unchanged otherwise,
    negative values included. *)
Theorem claude_max_tokens (req : Request) :
  (Request_MaxTokens req = 0 ->
     member "max_tokens" (claude.Complete_body req) = Some (JInt 4096)
     /\ member "max_tokens" (claude.CompleteStream_body req) = Some (JInt 4096))
  /\ (Request_MaxTokens req <> 0 ->
      member "max_tokens" (claude.Complete_body req)
      = Some (JInt (Request_MaxTokens req))
      /\ member "max_tokens" (claude.CompleteStream_body req)
         = Some (JInt (Request_MaxTokens req))).
Proof.
  unfold claude.Complete_body, claude.CompleteStream_body, claude.mapRequest.
  destruct (claude.mapMessages (Request_Messages req) "" []) as [system messages].
  split.
  - intros ->. split; reflexivity.
  - intros Hne. apply Z.eqb_neq in Hne. rewrite Hne. split; reflexivity.
Qed.

(** ** [Execute] and latency *)

(** C8 (as amended).  A successful [Execute] returns the response of the
    provider's [Complete] as it is: [Execute] reads no clock and stamps no
    latency, and the OpenAI adapter leaves [LatencyMs] at 0, whatever time
    the call took. *)
Theorem Execute_returns_provider_response (t0 t1 : Time) (req : Request)
    (p : Provider) (r r' : Router) (response : Response) :
  Execute t0 t1 req p r = Some (r', Ok response) ->
  Complete p req = Ok response
  /\ (forall TrimSpace Unmarshal Do Decode,
        p = openai.New TrimSpace Unmarshal Do Decode ->
        Response_LatencyMs response = 0).
Proof.
  unfold Execute. destruct (breakers r !! Name p) as [cb|]; [|discriminate].
  unfold gobreaker.Execute.
  destruct (beforeRequest t0 cb) as [cb1 [gen|e]]; [|discriminate].
  intros [= _ Hc]. split; [assumption|].
  intros TrimSpace Unmarshal Do Decode ->. cbn in Hc. unfold openai.Complete in Hc.
  destruct (unsupportedFloat _); [discriminate|].
  destruct (Do _) as [resp|]; [|discriminate].
  destruct (negb (StatusCode resp =? 200)); [discriminate|].
  destruct (Decode resp) as [o|]; [|discriminate].
  destruct (openai.Choices o); [discriminate|].
  now injection Hc as <-.
Qed.

Lemma Execute_returns_provider_response_witness :
  exists r' response,
    Execute 0 (250 * Millisecond) gpt4oMiniRequest mockOpenAI
      (NewRouter 0 [mockOpenAI]) = Some (r', Ok response)
    /\ Complete mockOpenAI gpt4oMiniRequest = Ok response
    /\ (forall TrimSpace Unmarshal Do Decode,
          mockOpenAI = openai.New TrimSpace Unmarshal Do Decode ->
          Response_LatencyMs response = 0).
Proof.
  eexists _, _. split; [vm_compute; reflexivity|].
  eapply (Execute_returns_provider_response 0 (250 * Millisecond)
            gpt4oMiniRequest mockOpenAI (NewRouter 0 [mockOpenAI])).
  vm_compute. reflexivity.
Defined.

(** C8, as stated, fails: a call that takes 250 ms comes back from
    [Execute] with [latency_ms = 0]. *)
Lemma latency_not_stamped_counterexample :
  exists r' response,
    Execute 0 (250 * Millisecond) gpt4oMiniRequest mockOpenAI
      (NewRouter 0 [mockOpenAI]) = Some (r', Ok response)
    /\ Response_LatencyMs response = 0
    /\ (250 * Millisecond - 0) / Millisecond = 250.
Proof.
  eexists _, _. split; [vm_compute; reflexivity|]. split; reflexivity.
Qed.

(** ** Streams *)

Section OpenAIStream.

Variable TrimSpace : string -> string.
Variable Unmarshal : string -> result openai.openAIResponse.
Variable Do : openai.openAIRequest -> result HTTPResponse.

Lemma sendLast_terminated c : isTerminal c = true -> wellTerminated (openai.sendLast None c).
Proof. intros Hc. exists [], c. repeat split; [constructor|assumption]. Qed.

Lemma wellTerminated_cons c l :
  isTerminal c = false -> wellTerminated l -> wellTerminated (c :: l).
Proof.
  intros Hc (deltas & t & -> & Hd & Ht).
  exists (c :: deltas), t. repeat split; [now constructor|assumption].
Qed.

(** Without cancellation the read loop sends delta chunks and then one
    terminal chunk. *)
Lemma readLoop_terminated lines ending :
  wellTerminated (openai.readLoop TrimSpace Unmarshal lines ending None).
Proof.
  induction lines as [|raw lines IH]; cbn.
  - destruct ending; now apply sendLast_terminated.
  - destruct (String.eqb (TrimSpace raw) ""
              || negb (String.prefix "data: " (TrimSpace raw))); [exact IH|].
    destruct (String.eqb (TrimPrefix (TrimSpace raw) "data: ") "[DONE]");
      [now apply sendLast_terminated|].
    destruct (Unmarshal (TrimPrefix (TrimSpace raw) "data: ")) as [resp|err];
      [|now apply sendLast_terminated].
    destruct (openai.Choices resp) as [|choice ?]; [exact IH|].
    destruct (negb (String.eqb (openai.Delta_Content (openai.Delta choice)) ""));
      [|exact IH].
    now apply wellTerminated_cons.
Qed.

Lemma produce_terminated openAIReq :
  wellTerminated (openai.produce TrimSpace Unmarshal Do openAIReq None).
Proof.
  unfold openai.produce. destruct (Do openAIReq) as [resp|err].
  - destruct (negb (StatusCode resp =? 200)).
    + now apply sendLast_terminated.
    + apply readLoop_terminated.
  - now apply sendLast_terminated.
Qed.

Lemma sendLast_prefix b c :
  exists suffix, (openai.sendLast b c ++ suffix = openai.sendLast None c)%list.
Proof. destruct b as [[|k]|]; cbn; eauto. Qed.

(** Under cancellation the read loop sends a prefix of what it sends
    otherwise. *)
Lemma readLoop_prefix lines ending :
  forall b,
    exists suffix,
      (openai.readLoop TrimSpace Unmarshal lines ending b ++ suffix
       = openai.readLoop TrimSpace Unmarshal lines ending None)%list.
Proof.
  induction lines as [|raw lines IH]; intros b; cbn.
  - destruct ending; apply sendLast_prefix.
  - destruct (String.eqb (TrimSpace raw) ""
              || negb (String.prefix "data: " (TrimSpace raw))); [apply IH|].
    destruct (String.eqb (TrimPrefix (TrimSpace raw) "data: ") "[DONE]");
      [apply sendLast_prefix|].
    destruct (Unmarshal (TrimPrefix (TrimSpace raw) "data: ")) as [resp|err];
      [|apply sendLast_prefix].
    destruct (openai.Choices resp) as [|choice ?]; [apply IH|].
    destruct (negb (String.eqb (openai.Delta_Content (openai.Delta choice)) ""));
      [|apply IH].
    destruct b as [[|k]|]; cbn.
    + eauto.
    + destruct (IH (Some k)) as [suffix Hs]. exists suffix. now rewrite Hs.
    + exists []. now rewrite app_nil_r.
Qed.

Lemma produce_prefix openAIReq b :
  exists suffix,
    (openai.produce TrimSpace Unmarshal Do openAIReq b ++ suffix
     = openai.produce TrimSpace Unmarshal Do openAIReq None)%list.
Proof.
  unfold openai.produce. destruct (Do openAIReq) as [resp|err].
  - destruct (negb (StatusCode resp =? 200)).
    + apply sendLast_prefix.
    + apply readLoop_prefix.
  - apply sendLast_prefix.
Qed.

End OpenAIStream.

(** The forwarding goroutine forwards a prefix of what it receives, and
    all of it when the context is not cancelled. *)
Lemma forward_prefix clk orig :
  forall i b cb,
    exists suffix,
      (snd (forward clk i b orig cb) ++ suffix = orig)%list
      /\ (b = None -> suffix = []).
Proof.
  induction orig as [|c orig IH]; intros i b cb; cbn.
  - exists []. auto.
  - set (cb1 := match Chunk_Err c with
                | Some e => _
                | None => cb
                end).
    destruct b as [[|k]|]; cbn.
    + exists (c :: orig). split; [reflexivity|discriminate].
    + destruct (IH (S i) (Some k) cb1) as (suffix & Hs & _).
      destruct (forward clk (S i) (Some k) orig cb1) as [cb2 out]. cbn in *.
      exists suffix. split; [now rewrite Hs|discriminate].
    + destruct (IH (S i) None cb1) as (suffix & Hs & Hnil).
      destruct (forward clk (S i) None orig cb1) as [cb2 out]. cbn in *.
      exists suffix. split; [now rewrite Hs|assumption].
Qed.

(** C6 (as amended).  A stream that [ExecuteStream] opens on the OpenAI
    adapter: when the request context is not cancelled, the adapter's
    goroutine sends a (possibly empty) run of delta chunks followed by
    exactly one terminal chunk (done or error) and closes its channel, and
    the wrapped channel delivers exactly these chunks, in order, before it
    is closed.  When the context is cancelled, the wrapped channel
    delivers a prefix of that sequence before it is closed. *)
Theorem stream_terminates_once
    (TrimSpace : string -> string)
    (Unmarshal : string -> result openai.openAIResponse)
    (Do : openai.openAIRequest -> result HTTPResponse)
    (Decode : HTTPResponse -> result openai.openAIResponse)
    (clk : StreamClock) (pb wb : Budget) (req : Request) (r r' : Router)
    (wrappedCh : list Chunk) :
  ExecuteStream clk pb wb req (openai.New TrimSpace Unmarshal Do Decode) r
  = Some (r', Ok wrappedCh) ->
  exists deltas terminal suffix,
    openai.produce TrimSpace Unmarshal Do
      (openai.withStream (openai.mapRequest req)) None
    = (deltas ++ [terminal])%list
    /\ Forall (fun c => isTerminal c = false) deltas
    /\ isTerminal terminal = true
    /\ (wrappedCh ++ suffix = deltas ++ [terminal])%list
    /\ (pb = None -> wb = None -> suffix = []).
Proof.
  unfold ExecuteStream.
  destruct (breakers r !! Name (openai.New TrimSpace Unmarshal Do Decode))
    as [cb|]; [|discriminate].
  unfold State_of.
  destruct (State_eqb (state (currentState (t_state clk) cb)) StateOpen);
    [discriminate|].
  cbn [CompleteStream openai.New]. unfold openai.CompleteStream.
  destruct (unsupportedFloat _); [discriminate|].
  set (openAIReq := openai.withStream (openai.mapRequest req)).
  destruct (forward_prefix clk (openai.produce TrimSpace Unmarshal Do openAIReq pb)
              0 wb (currentState (t_state clk) cb)) as (s1 & Hs1 & Hnil1).
  destruct (forward clk 0 wb _ _) as [cb1 out]. cbn in Hs1.
  intros [= _ <-].
  destruct (produce_terminated TrimSpace Unmarshal Do openAIReq)
    as (deltas & terminal & Hfull & Hd & Ht).
  destruct (produce_prefix TrimSpace Unmarshal Do openAIReq pb) as (s2 & Hs2).
  exists deltas, terminal, (s1 ++ s2)%list.
  repeat split; try assumption.
  - now rewrite app_assoc, Hs1, Hs2.
  - intros -> Hwb. rewrite (Hnil1 Hwb). cbn.
    apply (app_inv_head (openai.produce TrimSpace Unmarshal Do openAIReq None)).
    now rewrite app_nil_r.
Qed.

Lemma stream_terminates_once_witness :
  exists r' wrappedCh,
    ExecuteStream (mkStreamClock 0 0 (fun _ => 0)) None None gpt4oMiniRequest
      mockOpenAI (NewRouter 0 [mockOpenAI])
    = Some (r', Ok wrappedCh)
    /\ exists deltas terminal suffix,
         openai.produce (fun s => s) (fun _ => Failed "unexpected end of JSON input")
           mockUpstream (openai.withStream (openai.mapRequest gpt4oMiniRequest)) None
         = (deltas ++ [terminal])%list
         /\ Forall (fun c => isTerminal c = false) deltas
         /\ isTerminal terminal = true
         /\ (wrappedCh ++ suffix = deltas ++ [terminal])%list
         /\ (@None nat = None -> @None nat = None -> suffix = []).
Proof.
  eexists _, _. split; [vm_compute; reflexivity|].
  eapply (stream_terminates_once (fun s => s)
            (fun _ => Failed "unexpected end of JSON input") mockUpstream mockDecode
            (mkStreamClock 0 0 (fun _ => 0)) None None gpt4oMiniRequest
            (NewRouter 0 [mockOpenAI])).
  vm_compute. reflexivity.
Defined.

(** C6, as stated, fails when the request is cancelled: the adapter's
    goroutine returns at [ctx.Done()] without sending its terminal chunk,
    and the wrapped channel is closed having delivered no terminal chunk. *)
Lemma cancelled_stream_counterexample :
  exists r',
    ExecuteStream (mkStreamClock 0 0 (fun _ => 0)) (Some 0%nat) None
      gpt4oMiniRequest cancelledOpenAI (NewRouter 0 [cancelledOpenAI])
    = Some (r', Ok [])
    /\ ~ wellTerminated [].
Proof.
  eexists. split; [vm_compute; reflexivity|].
  intros (deltas & terminal & H & _). now destruct deltas.
Qed.

(** ** The scenarios of the test suite *)

(** [TestRoute_CostBased]. *)
Example scenario_cost_based :
  routedName (Route 0 emptyRequest
                (NewRouter 0 [MockProvider "expensive" 10 [] None;
                              MockProvider "cheap" 1 [] None]))
  = Some (Ok "cheap").
Proof. vm_compute. reflexivity. Qed.

(** [TestRoute_ModelSpecific]. *)
Example scenario_model_specific :
  routedName (Route 0 (mkRequest "claude-3" [] 0 0%float false "" "")
                (NewRouter 0 [MockProvider "gpt4-provider" 0 ["gpt-4"] None;
                              MockProvider "claude-provider" 0 ["claude-3"] None]))
  = Some (Ok "claude-provider").
Proof. vm_compute. reflexivity. Qed.

#[local] Set Warnings "-inexact-float".
(** [TestRoute_CircuitBreakerOpen]: the cheaper provider is skipped once
    its breaker has tripped. *)
Example scenario_breaker_open :
  match run [OpExecute 0 0 emptyRequest (MockProvider "bad-provider" 0.1 [] (Some "fail"));
             OpExecute 0 0 emptyRequest (MockProvider "bad-provider" 0.1 [] (Some "fail"));
             OpExecute 0 0 emptyRequest (MockProvider "bad-provider" 0.1 [] (Some "fail"))]
            (NewRouter 0 [MockProvider "bad-provider" 0.1 [] (Some "fail");
                          MockProvider "good-provider" 1 [] None])
  with
  | Some r => routedName (Route 0 emptyRequest r)
  | None => None
  end = Some (Ok "good-provider").
Proof. vm_compute. reflexivity. Qed.
#[local] Set Warnings "inexact-float".

(** [TestRoute_AllProvidersDown]. *)
Example scenario_all_providers_down :
  match run [OpExecute 0 0 emptyRequest p1; OpExecute 0 0 emptyRequest p1;
             OpExecute 0 0 emptyRequest p1]
            (NewRouter 0 [p1])
  with
  | Some r => routedName (Route 0 emptyRequest r)
  | None => None
  end = Some (Failed "all providers unavailable").
Proof. vm_compute. reflexivity. Qed.

(** [TestHandleCompleteStream_Success]: the frames of two deltas and the
    done marker, then the usage log. *)
Example scenario_stream_success :
  List.filter
    (fun e => match e with EvFprintf _ => true | _ => false end)
    (traceOf
       (serve (HandleCompleteStream (testHandler true)
                 (testEnv (mkRequest "gpt-4" [] 0 0%float true "" "")))
          (NewRouter 0 [MockStreamProvider "test-provider" 0 ["gpt-4"]
                          [mkChunk "hello" false None;
                           mkChunk " world" false None;
                           mkChunk "" true None]])))
  = [EvFprintf ("data: {" ++ DQ ++ "choices" ++ DQ ++ ":[{" ++ DQ ++ "delta"
                ++ DQ ++ ":{" ++ DQ ++ "content" ++ DQ ++ ":" ++ DQ ++ "hello"
                ++ DQ ++ "}," ++ DQ ++ "index" ++ DQ ++ ":0}]}" ++ LF ++ LF);
     EvFprintf ("data: {" ++ DQ ++ "choices" ++ DQ ++ ":[{" ++ DQ ++ "delta"
                ++ DQ ++ ":{" ++ DQ ++ "content" ++ DQ ++ ":" ++ DQ ++ " world"
                ++ DQ ++ "}," ++ DQ ++ "index" ++ DQ ++ ":0}]}" ++ LF ++ LF);
     EvFprintf ("data: [DONE]" ++ LF ++ LF)].
Proof. vm_compute. reflexivity. Qed.

(** The handler's escaping on a delta with a quote and a line feed, and
    the prefix cut of the adapters. *)
Example scenario_escape :
  escape ("a" ++ DQ ++ "b" ++ LF ++ "c") = "a" ++ BS ++ DQ ++ "b" ++ BS ++ "nc".
Proof. vm_compute. reflexivity. Qed.

Example scenario_trim_prefix : TrimPrefix "data: [DONE]" "data: " = "[DONE]".
Proof. vm_compute. reflexivity. Qed.

(** * Further properties of the router *)

(** X1.  Whatever the costs, [Route] on a well-formed router returns
    either a registered provider whose breaker is not open (and that lists
    the model, when the request names one), or the error "all providers
    unavailable", and then every registered provider is open or lacks the
    model.  The list of providers is left as it is. *)
Theorem Route_returns_registered_available (now : Time) (req : Request)
    (r r' : Router) (res : result Provider) :
  wellFormed r ->
  Route now req r = Some (r', res) ->
  providers r' = providers r
  /\ wellFormed r'
  /\ match res with
     | Ok p =>
         In p (providers r)
         /\ notOpen now (breakers r) (Name p) = true
         /\ (Request_Model req <> "" ->
             In (Request_Model req) (SupportedModels p))
     | Failed err =>
         err = "all providers unavailable"
         /\ (forall q, In q (providers r) ->
               notOpen now (breakers r) (Name q) = false
               \/ (Request_Model req <> ""
                   /\ ~ In (Request_Model req) (SupportedModels q)))
     end.
Proof.
  intros Hwf HR.
  destruct (Route_total now req r Hwf) as (r1 & res1 & HR1 & Hwf1 & _).
  rewrite HR in HR1. injection HR1 as <- <-.
  destruct (Route_eligible now req r Hwf) as (bs' & _ & HE).
  rewrite HR in HE. injection HE as Hr' Hres.
  split; [now rewrite Hr'|]. split; [assumption|].
  assert (Hel : forall q, In q (eligible now r (Request_Model req)) ->
                  In q (providers r)
                  /\ notOpen now (breakers r) (Name q) = true
                  /\ (Request_Model req <> "" ->
                      In (Request_Model req) (SupportedModels q))).
  { intros q Hq. apply filter_In in Hq as [Hin Hq].
    apply andb_true_iff in Hq as [Hopen Hsup].
    repeat split; try assumption.
    intros Hne. apply String.eqb_neq in Hne. rewrite Hne in Hsup.
    now apply supports_In. }
  destruct (eligible now r (Request_Model req)) as [|first rest] eqn:Hf.
  - subst res. split; [reflexivity|].
    intros q Hq. pose proof (filter_nil _ _ Hf q Hq) as Hq'. cbn in Hq'.
    apply andb_false_iff in Hq' as [Hq'|Hq']; [now left|right].
    apply orb_false_iff in Hq' as [Hm Hs]. apply String.eqb_neq in Hm.
    split; [assumption|]. rewrite <- supports_In. now rewrite Hs.
  - destruct (negb (String.eqb (Request_Model req) "")); subst res; apply Hel.
    + now left.
    + apply cheapest_In.
Qed.

Lemma Route_returns_registered_available_witness :
  exists r' res,
    Route 0 emptyRequest (NewRouter 0 [p1]) = Some (r', res)
    /\ providers r' = providers (NewRouter 0 [p1])
    /\ wellFormed r'
    /\ match res with
       | Ok p =>
           In p (providers (NewRouter 0 [p1]))
           /\ notOpen 0 (breakers (NewRouter 0 [p1])) (Name p) = true
           /\ (Request_Model emptyRequest <> "" ->
               In (Request_Model emptyRequest) (SupportedModels p))
       | Failed err =>
           err = "all providers unavailable"
           /\ (forall q, In q (providers (NewRouter 0 [p1])) ->
                 notOpen 0 (breakers (NewRouter 0 [p1])) (Name q) = false
                 \/ (Request_Model emptyRequest <> ""
                     /\ ~ In (Request_Model emptyRequest) (SupportedModels q)))
       end.
Proof.
  eexists _, _. split; [vm_compute; reflexivity|].
  eapply (Route_returns_registered_available 0 emptyRequest (NewRouter 0 [p1])).
  - intros p [<-|[]]; vm_compute; eauto.
  - vm_compute. reflexivity.
Defined.

Lemma currentState_state_later now t cb :
  now <= t ->
  state (currentState t (currentState now cb)) = state (currentState t cb).
Proof.
  intros Hle. destruct (state cb) eqn:Hst.
  - rewrite (currentState_closed t (currentState now cb));
      [now rewrite currentState_closed|now apply currentState_closed].
  - now rewrite (currentState_halfOpen now cb Hst).
  - unfold currentState at 2. rewrite Hst.
    destruct (before (expiry cb) now) eqn:Hb; [|reflexivity].
    unfold setState. rewrite Hst. cbn.
    unfold currentState. rewrite Hst.
    assert (Hb' : before (expiry cb) t = true).
    { unfold before in *. destruct (expiry cb) as [e|]; [|reflexivity].
      apply Z.ltb_lt in Hb. apply Z.ltb_lt. lia. }
    rewrite Hb'. unfold setState. now rewrite Hst.
Qed.

Lemma collect_view_later now t model ps :
  now <= t ->
  forall bs acc bs' c,
    collect now model ps bs acc = Some (bs', c) ->
    forall n, notOpen t bs' n = notOpen t bs n.
Proof.
  intros Hle. induction ps as [|p ps IH]; intros bs acc bs' c; cbn.
  - now intros [= <- <-].
  - destruct (bs !! Name p) as [cb|] eqn:Hcb; [|discriminate].
    unfold State_of.
    assert (Hstep : forall acc',
               collect now model ps (<[Name p := currentState now cb]> bs) acc'
               = Some (bs', c) ->
               forall n, notOpen t bs' n = notOpen t bs n).
    { intros acc' H n. rewrite (IH _ _ _ _ H n). unfold notOpen, State_of.
      destruct (decide (Name p = n)) as [<-|Hne].
      - rewrite lookup_insert_eq, Hcb. cbn.
        now rewrite currentState_state_later.
      - now rewrite lookup_insert_ne. }
    destruct (State_eqb (state (currentState now cb)) StateOpen); [apply Hstep|].
    destruct (negb (String.eqb model "")); [|apply Hstep].
    destruct (supports p model); apply Hstep.
Qed.

(** X2.  Routing is read-only as far as later routing is concerned: the
    breaker updates a [Route] call makes at time [now] do not change the
    outcome of any [Route] call made at [now] or later. *)
Theorem Route_keeps_later_routing (now t : Time) (req req2 : Request)
    (r r' : Router) (res : result Provider) :
  wellFormed r ->
  now <= t ->
  Route now req r = Some (r', res) ->
  snd <$> Route t req2 r' = snd <$> Route t req2 r.
Proof.
  intros Hwf Hle HR.
  destruct (Route_total now req r Hwf) as (r1 & res1 & HR1 & Hwf' & _).
  rewrite HR in HR1. injection HR1 as <- <-.
  assert (Hps : providers r' = providers r).
  { destruct (Route_eligible now req r Hwf) as (bs' & _ & HE).
    rewrite HR in HE. now injection HE as -> _. }
  assert (Hview : forall n, notOpen t (breakers r') n = notOpen t (breakers r) n).
  { unfold Route in HR.
    destruct (collect now (Request_Model req) (providers r) (breakers r) [])
      as [[bs c]|] eqn:Hc; [|discriminate].
    pose proof (collect_view_later now t _ _ Hle _ _ _ _ Hc) as Hv.
    destruct c as [|first rest];
      [|destruct (negb (String.eqb (Request_Model req) ""))];
      injection HR as <- _; exact Hv. }
  destruct (Route_eligible t req2 r Hwf) as (bs1 & _ & ->).
  destruct (Route_eligible t req2 r' Hwf') as (bs2 & _ & ->).
  cbn. f_equal. unfold eligible. rewrite Hps.
  erewrite filter_ext; [reflexivity|].
  intros p. cbn. now rewrite Hview.
Qed.

Lemma Route_keeps_later_routing_witness :
  exists r' res,
    Route 0 emptyRequest (NewRouter 0 [p1]) = Some (r', res)
    /\ snd <$> Route Second gpt4Request r'
       = snd <$> Route Second gpt4Request (NewRouter 0 [p1]).
Proof.
  eexists _, _. split; [vm_compute; reflexivity|].
  eapply (Route_keeps_later_routing 0 Second emptyRequest gpt4Request
            (NewRouter 0 [p1])).
  - intros p [<-|[]]; vm_compute; eauto.
  - vm_compute. congruence.
  - vm_compute. reflexivity.
Defined.

Lemma NewRouter_breakers now (ps : list Provider) :
  forall (bs : gmap string CircuitBreaker),
    (forall n cb, bs !! n = Some cb -> state cb = StateClosed) ->
    forall n,
      (forall cb,
         fold_left
           (fun bs p => <[Name p := NewCircuitBreaker now (breakerSettings p)]> bs)
           ps bs !! n = Some cb ->
         state cb = StateClosed)
      /\ (is_Some
            (fold_left
               (fun bs p => <[Name p := NewCircuitBreaker now (breakerSettings p)]> bs)
               ps bs !! n)
          <-> is_Some (bs !! n) \/ exists p, In p ps /\ Name p = n).
Proof.
  induction ps as [|p ps IH]; intros bs Hbs n; cbn.
  - split; [apply Hbs|]. split; [auto|intros [H|(p & [] & _)]; exact H].
  - destruct (IH (<[Name p := NewCircuitBreaker now (breakerSettings p)]> bs)) with (n := n)
      as [Hc Hd].
    { intros m cb. destruct (decide (Name p = m)) as [<-|Hne].
      - rewrite lookup_insert_eq. now intros [= <-].
      - rewrite lookup_insert_ne by assumption. apply Hbs. }
    split; [exact Hc|]. rewrite Hd. split.
    + intros [H|(q & Hq & Hn)]; [|right; exists q; auto].
      destruct (decide (Name p = n)) as [Heq|Hne].
      * right. exists p. auto.
      * rewrite lookup_insert_ne in H by assumption. now left.
    + intros [H|(q & [<-|Hq] & Hn)].
      * left. destruct (decide (Name p = n)) as [<-|Hne].
        -- rewrite lookup_insert_eq. eauto.
        -- now rewrite lookup_insert_ne.
      * left. rewrite Hn. rewrite lookup_insert_eq. eauto.
      * right. exists q. auto.
Qed.

(** X3.  A router fresh from [NewRouter] holds exactly one breaker per
    provider name, all closed, so that at any time it refuses a request
    only when no provider is registered or, for a request that names a
    model, when no registered provider lists that model. *)
Theorem NewRouter_routes_every_supported_request (t0 now : Time)
    (ps : list Provider) (req : Request) :
  (forall n, is_Some (breakers (NewRouter t0 ps) !! n)
             <-> exists p, In p ps /\ Name p = n)
  /\ exists r' res,
       Route now req (NewRouter t0 ps) = Some (r', res)
       /\ ((exists err, res = Failed err)
           <-> forall p, In p ps ->
                 Request_Model req <> ""
                 /\ ~ In (Request_Model req) (SupportedModels p)).
Proof.
  assert (Hempty : forall n cb,
             (∅ : gmap string CircuitBreaker) !! n = Some cb ->
             state cb = StateClosed).
  { intros n cb. rewrite lookup_empty. discriminate. }
  split.
  - intros n. unfold NewRouter. cbn.
    rewrite (proj2 (NewRouter_breakers t0 ps ∅ Hempty n)).
    rewrite lookup_empty. split.
    + intros [[x Hx]|H]; [discriminate|exact H].
    + auto.
  - pose proof (NewRouter_wellFormed t0 ps) as Hwf.
    destruct (Route_eligible now req (NewRouter t0 ps) Hwf) as (bs' & _ & HR).
    eexists _, _. split; [exact HR|].
    assert (Havail : forall p, In p ps ->
                       notOpen now (breakers (NewRouter t0 ps)) (Name p) = true).
    { intros p Hp. unfold notOpen, State_of.
      destruct (Hwf p Hp) as [cb Hcb]. rewrite Hcb. cbn.
      rewrite currentState_closed; [reflexivity|].
      exact (proj1 (NewRouter_breakers t0 ps ∅ Hempty (Name p)) cb Hcb). }
    destruct (eligible now (NewRouter t0 ps) (Request_Model req))
      as [|first rest] eqn:Hel.
    + split; [|eauto]. intros _ p Hp.
      pose proof (filter_nil _ _ Hel p Hp) as Hf. cbv beta in Hf.
      rewrite (Havail p Hp) in Hf. cbn [andb] in Hf.
      apply orb_false_iff in Hf as [Hm Hs]. apply String.eqb_neq in Hm.
      split; [assumption|]. rewrite <- supports_In. now rewrite Hs.
    + assert (Hin : In first (eligible now (NewRouter t0 ps) (Request_Model req)))
        by (rewrite Hel; now left).
      apply filter_In in Hin as [Hps Hf]. cbn [providers NewRouter] in Hps.
      cbv beta in Hf. apply andb_true_iff in Hf as [_ Hf].
      split.
      * intros [err Herr].
        destruct (negb (String.eqb (Request_Model req) "")); discriminate.
      * intros Hnone. destruct (Hnone first Hps) as [Hm Hs].
        apply String.eqb_neq in Hm. rewrite Hm in Hf. cbn in Hf.
        apply supports_In in Hf. contradiction.
Qed.

(** * Further properties of the breaker-guarded calls *)

Lemma breaker_Execute_result {A} t0 t1 (req : unit -> result A) cb cb' res :
  gobreaker.Execute t0 t1 req cb = (cb', res) ->
  res = req tt \/ res = Failed ErrOpenState \/ res = Failed ErrTooManyRequests.
Proof.
  unfold gobreaker.Execute, beforeRequest.
  destruct (state (currentState t0 cb)).
  - intros [= _ <-]. now left.
  - destruct (MaxRequests _ <=? Requests _).
    + intros [= _ <-]. auto.
    + intros [= _ <-]. now left.
  - intros [= _ <-]. auto.
Qed.

(** X4.  [Execute] and [ExecuteStream] leave the list of providers and
    every breaker other than the one registered under their provider's
    name as they are; [Execute] returns either what the provider's
    [Complete] returned or one of the breaker's two refusals. *)
Theorem Execute_touches_only_its_breaker (req : Request) (p : Provider)
    (r : Router) :
  (forall t0 t1 r' res,
     Execute t0 t1 req p r = Some (r', res) ->
     providers r' = providers r
     /\ (forall n, n <> Name p -> breakers r' !! n = breakers r !! n)
     /\ (res = Complete p req
         \/ res = Failed "circuit breaker is open"
         \/ res = Failed "too many requests"))
  /\ (forall clk pb wb r' res,
        ExecuteStream clk pb wb req p r = Some (r', res) ->
        providers r' = providers r
        /\ (forall n, n <> Name p -> breakers r' !! n = breakers r !! n)).
Proof.
  split.
  - intros t0 t1 r' res. unfold Execute.
    destruct (breakers r !! Name p) as [cb|]; [|discriminate].
    destruct (gobreaker.Execute t0 t1 (fun _ => Complete p req) cb)
      as [cb' res'] eqn:HE.
    intros [= <- <-]. cbn. split; [reflexivity|]. split.
    + intros n Hn. now rewrite lookup_insert_ne.
    + exact (breaker_Execute_result _ _ _ _ _ _ HE).
  - intros clk pb wb r' res. unfold ExecuteStream.
    destruct (breakers r !! Name p) as [cb|]; [|discriminate].
    unfold State_of.
    assert (Hput : forall cb' n,
               n <> Name p ->
               <[Name p := cb']> (breakers r) !! n = breakers r !! n)
      by (intros cb' n Hn; now rewrite lookup_insert_ne).
    destruct (State_eqb (state (currentState (t_state clk) cb)) StateOpen).
    + intros [= <- _]. cbn. auto.
    + destruct (CompleteStream p req pb) as [origCh|e].
      * destruct (forward clk 0 wb origCh (currentState (t_state clk) cb)).
        intros [= <- _]. cbn. auto.
      * intros [= <- _]. cbn. auto.
Qed.

Lemma step_wellFormed o r r' :
  wellFormed r -> step o r = Some r' ->
  wellFormed r' /\ providers r' = providers r.
Proof.
  intros Hwf. destruct o as [now req|t0 t1 req p|clk pb wb req p]; cbn.
  - destruct (Route now req r) as [[r1 res]|] eqn:HR; [|discriminate].
    intros [= <-].
    destruct (Route_total now req r Hwf) as (r2 & res2 & HR2 & Hwf2 & _).
    rewrite HR in HR2. injection HR2 as <- <-. split; [assumption|].
    destruct (Route_eligible now req r Hwf) as (bs' & _ & HE).
    rewrite HR in HE. now injection HE as -> _.
  - unfold Execute. destruct (breakers r !! Name p) as [cb|]; [|discriminate].
    destruct (gobreaker.Execute t0 t1 (fun _ => Complete p req) cb) as [cb' res].
    intros [= <-]. split; [|reflexivity].
    intros q Hq. cbn in *. destruct (decide (Name p = Name q)) as [->|Hne].
    + rewrite lookup_insert_eq. eauto.
    + rewrite lookup_insert_ne by assumption. now apply Hwf.
  - unfold ExecuteStream. destruct (breakers r !! Name p) as [cb|]; [|discriminate].
    unfold State_of.
    assert (Hput : forall cb',
               wellFormed (mkRouter (providers r) (<[Name p := cb']> (breakers r)))).
    { intros cb' q Hq. cbn in *. destruct (decide (Name p = Name q)) as [->|Hne].
      - rewrite lookup_insert_eq. eauto.
      - rewrite lookup_insert_ne by assumption. now apply Hwf. }
    destruct (State_eqb (state (currentState (t_state clk) cb)) StateOpen).
    + intros [= <-]. auto.
    + destruct (CompleteStream p req pb) as [origCh|e].
      * destruct (forward clk 0 wb origCh (currentState (t_state clk) cb)).
        intros [= <-]. auto.
      * intros [= <-]. auto.
Qed.

Lemma step_total o r :
  wellFormed r -> usesRegistered r o -> exists r', step o r = Some r'.
Proof.
  intros Hwf Hreg. destruct o as [now req|t0 t1 req p|clk pb wb req p]; cbn in *.
  - destruct (Route_total now req r Hwf) as (r' & res & -> & _). cbn. eauto.
  - destruct (Execute_total t0 t1 req p r Hwf Hreg) as (r' & res & ->). cbn. eauto.
  - destruct (ExecuteStream_total clk pb wb req p r Hwf Hreg) as (r' & res & ->).
    cbn. eauto.
Qed.

(** X5.  The router never dereferences a missing breaker: on a router
    built by [NewRouter], any sequence of [Route], [Execute] and
    [ExecuteStream] calls that name registered providers runs to its end
    without a panic, and leaves the registered providers as they were. *)
Theorem router_never_panics (t0 : Time) (ps : list Provider) (ops : list Op) :
  Forall (usesRegistered (NewRouter t0 ps)) ops ->
  exists r',
    run ops (NewRouter t0 ps) = Some r'
    /\ providers r' = ps
    /\ wellFormed r'.
Proof.
  intros Hops.
  assert (Hgen : forall r,
             wellFormed r -> Forall (usesRegistered r) ops ->
             exists r', run ops r = Some r' /\ providers r' = providers r
                        /\ wellFormed r').
  { clear Hops. induction ops as [|o ops IH]; intros r Hwf Hall; cbn.
    - eauto.
    - inversion Hall as [|? ? Ho Hrest]; subst.
      destruct (step_total o r Hwf Ho) as [r1 Hstep]. rewrite Hstep.
      destruct (step_wellFormed o r r1 Hwf Hstep) as [Hwf1 Hps1].
      destruct (IH r1 Hwf1) as (r' & Hrun & Hps & Hwf').
      + eapply List.Forall_impl; [|exact Hrest].
        intros o' Ho'. destruct o'; cbn in *; try rewrite Hps1; assumption.
      + exists r'. rewrite Hps, Hps1. auto. }
  destruct (Hgen (NewRouter t0 ps) (NewRouter_wellFormed t0 ps) Hops)
    as (r' & Hrun & Hps & Hwf').
  exists r'. auto.
Qed.

Lemma router_never_panics_witness :
  exists r',
    run [OpExecute 0 0 emptyRequest p1; OpRoute Second emptyRequest;
         OpExecuteStream (mkStreamClock Second Second (fun _ => Second)) None None
           emptyRequest p1]
        (NewRouter 0 [p1]) = Some r'
    /\ providers r' = [p1]
    /\ wellFormed r'.
Proof.
  apply (router_never_panics 0 [p1]
           [OpExecute 0 0 emptyRequest p1; OpRoute Second emptyRequest;
            OpExecuteStream (mkStreamClock Second Second (fun _ => Second)) None None
              emptyRequest p1]).
  repeat constructor; cbn; auto.
Defined.

(** * Further properties of the handlers *)

(** X6.  A request without a tenant is answered 401 and a request whose
    body does not decode is answered 400 with the fixed message "invalid
    request body" (the decoder's error is not disclosed); in both cases
    neither handler does anything else: the limiter is not debited, the
    router is not called and its state is untouched. *)
Theorem handlers_reject_before_limiter (h : Handler) (env : Env) (r : Router) :
  (ctx_tenantID env = "" ->
     serve (HandleComplete h env) r
     = Some (r, [EvSetHeader "Content-Type" "application/json";
                 EvWriteHeader 401;
                 EvEncode (JObject [("error", JString "unauthorized")])])
     /\ serve (HandleCompleteStream h env) r
        = Some (r, [EvSetHeader "Content-Type" "application/json";
                    EvWriteHeader 401;
                    EvEncode (JObject [("error", JString "unauthorized")])]))
  /\ (ctx_tenantID env <> "" ->
      forall err, decoded env = Failed err ->
        serve (HandleComplete h env) r
        = Some (r, [EvSetHeader "Content-Type" "application/json";
                    EvWriteHeader 400;
                    EvEncode (JObject [("error", JString "invalid request body")])])
        /\ serve (HandleCompleteStream h env) r
           = Some (r, [EvSetHeader "Content-Type" "application/json";
                       EvWriteHeader 400;
                       EvEncode (JObject [("error", JString "invalid request body")])])).
Proof.
  split.
  - intros Ht.
    unfold serve, HandleComplete, HandleCompleteStream, prepare, bind, writeJSON,
      emit, ret.
    rewrite Ht. split; reflexivity.
  - intros Ht err Hd. apply String.eqb_neq in Ht.
    unfold serve, HandleComplete, HandleCompleteStream, prepare, bind, writeJSON,
      emit, ret.
    rewrite Ht, Hd. split; reflexivity.
Qed.

(** X7.  Whatever path [HandleComplete] takes, it writes exactly one
    status line, one of 200, 400, 401, 429, 502 and 503, and right after
    it exactly one JSON body, which is the last thing it does. *)
Theorem HandleComplete_one_status_one_body (h : Handler) (env : Env)
    (r r' : Router) (tr : list Event) :
  serve (HandleComplete h env) r = Some (r', tr) ->
  exists pre code body,
    tr = (pre ++ [EvWriteHeader code; EvEncode body])%list
    /\ In code [200; 400; 401; 429; 502; 503]
    /\ List.filter isWriteHeader pre = []
    /\ List.filter isEncode pre = [].
Proof.
  intros H.
  unfold serve, HandleComplete, prepare, bind, writeJSON, emit, ret, onRouter,
    onLimiter in H.
  handler_paths H.
  - eexists [_], _, _. split; [reflexivity|]. cbn. tauto.
  - eexists [_; _; _], _, _. split; [reflexivity|]. cbn. tauto.
  - eexists [_; _; _; _; _], _, _. split; [reflexivity|]. cbn. tauto.
  - eexists [_; _; _; _], _, _. split; [reflexivity|]. cbn. tauto.
  - eexists [_; _; _], _, _. split; [reflexivity|]. cbn. tauto.
  - eexists [_], _, _. split; [reflexivity|]. cbn. tauto.
Qed.

Lemma HandleComplete_one_status_one_body_witness :
  exists r' tr,
    serve (HandleComplete (testHandler true) (testEnv emptyRequest)) (NewRouter 0 [p1])
    = Some (r', tr)
    /\ exists pre code body,
         tr = (pre ++ [EvWriteHeader code; EvEncode body])%list
         /\ In code [200; 400; 401; 429; 502; 503]
         /\ List.filter isWriteHeader pre = []
         /\ List.filter isEncode pre = [].
Proof.
  eexists _, _. split; [vm_compute; reflexivity|].
  eapply (HandleComplete_one_status_one_body (testHandler true)
            (testEnv emptyRequest) (NewRouter 0 [p1])).
  vm_compute. reflexivity.
Defined.

(** X8.  [HandleComplete] answers 503 only when [Route] failed, and then
    it has not called [Execute] and the body carries the router's error;
    it answers 502 only when [Execute] failed on the provider [Route]
    selected, and then the body carries that error verbatim. *)
Theorem HandleComplete_error_answers (h : Handler) (env : Env)
    (r r' : Router) (tr : list Event) :
  serve (HandleComplete h env) r = Some (r', tr) ->
  (In (EvWriteHeader 503) tr ->
     exists req err,
       decoded env = Ok req
       /\ Route (t_route env) req r = Some (r', Failed err)
       /\ In (EvEncode (JObject [("error", JString err)])) tr
       /\ List.filter isProviderCall tr = [])
  /\ (In (EvWriteHeader 502) tr ->
       exists req r1 p err,
         decoded env = Ok req
         /\ Route (t_route env) req r = Some (r1, Ok p)
         /\ Execute (t_call env) (t_return env) req p r1 = Some (r', Failed err)
         /\ In (EvEncode (JObject [("error", JString err)])) tr
         /\ List.filter isProviderCall tr = [EvExecute (Name p)]).
Proof.
  intros H.
  unfold serve, HandleComplete, prepare, bind, writeJSON, emit, ret, onRouter,
    onLimiter in H.
  handler_paths H; (split; intros Hc); cbn in Hc;
    try (exfalso; intuition discriminate).
  - eexists _, _, _, _. repeat split; try eassumption; cbn; auto 10.
  - eexists _, _. repeat split; try eassumption; cbn; auto 10.
Qed.

Lemma HandleComplete_error_answers_witness :
  exists r' tr,
    serve (HandleComplete (testHandler true) (testEnv emptyRequest)) (NewRouter 0 [p1])
    = Some (r', tr)
    /\ (In (EvWriteHeader 503) tr ->
          exists req err,
            decoded (testEnv emptyRequest) = Ok req
            /\ Route (t_route (testEnv emptyRequest)) req (NewRouter 0 [p1])
               = Some (r', Failed err)
            /\ In (EvEncode (JObject [("error", JString err)])) tr
            /\ List.filter isProviderCall tr = [])
    /\ (In (EvWriteHeader 502) tr ->
          exists req r1 p err,
            decoded (testEnv emptyRequest) = Ok req
            /\ Route (t_route (testEnv emptyRequest)) req (NewRouter 0 [p1])
               = Some (r1, Ok p)
            /\ Execute (t_call (testEnv emptyRequest)) (t_return (testEnv emptyRequest))
                 req p r1 = Some (r', Failed err)
            /\ In (EvEncode (JObject [("error", JString err)])) tr
            /\ List.filter isProviderCall tr = [EvExecute (Name p)]).
Proof.
  eexists _, _. split; [vm_compute; reflexivity|].
  eapply (HandleComplete_error_answers (testHandler true) (testEnv emptyRequest)
            (NewRouter 0 [p1])).
  vm_compute. reflexivity.
Defined.

(** X9.  The usage [HandleComplete] reports to the client is the usage it
    logs: in a 200 answer the body's [provider], [model], [prompt_tokens]
    and [completion_tokens] are those of the usage log, and
    [total_tokens] is their sum in 64-bit arithmetic. *)
Theorem HandleComplete_body_matches_log (h : Handler) (env : Env)
    (r r' : Router) (tr : list Event) (log : billing.UsageLog) (body : JSON) :
  serve (HandleComplete h env) r = Some (r', tr) ->
  In (EvGoLogUsage log) tr ->
  In (EvEncode body) tr ->
  member "provider" body = Some (JString (billing.Provider log))
  /\ member "model" body = Some (JString (billing.Model log))
  /\ member "usage" body
     = Some (JObject
               [("prompt_tokens", JInt (billing.InputTokens log));
                ("completion_tokens", JInt (billing.OutputTokens log));
                ("total_tokens",
                 JInt (wrap64 (billing.InputTokens log + billing.OutputTokens log)))]).
Proof.
  intros H Hlog Hbody.
  unfold serve, HandleComplete, prepare, bind, writeJSON, emit, ret, onRouter,
    onLimiter in H.
  handler_paths H; cbn in Hlog, Hbody;
    try (exfalso; intuition discriminate).
  destruct Hlog as [Hl|[Hl|[Hl|[Hl|[Hl|[Hl|[Hl|[]]]]]]]]; try discriminate.
  destruct Hbody as [Hb|[Hb|[Hb|[Hb|[Hb|[Hb|[Hb|[]]]]]]]]; try discriminate.
  injection Hl as <-. injection Hb as <-. cbn. auto.
Qed.

Lemma HandleComplete_body_matches_log_witness :
  exists r' tr log body,
    serve (HandleComplete (testHandler true) (testEnv gpt4Request))
      (NewRouter 0 [MockProvider "test-provider" 0 ["gpt-4"] None])
    = Some (r', tr)
    /\ In (EvGoLogUsage log) tr
    /\ In (EvEncode body) tr
    /\ member "provider" body = Some (JString (billing.Provider log))
    /\ member "model" body = Some (JString (billing.Model log))
    /\ member "usage" body
       = Some (JObject
                 [("prompt_tokens", JInt (billing.InputTokens log));
                  ("completion_tokens", JInt (billing.OutputTokens log));
                  ("total_tokens",
                   JInt (wrap64 (billing.InputTokens log + billing.OutputTokens log)))]).
Proof.
  eexists _, _, _, _. split; [vm_compute; reflexivity|].
  split; [do 3 right; left; reflexivity|].
  split; [do 6 right; left; reflexivity|].
  eapply (HandleComplete_body_matches_log (testHandler true) (testEnv gpt4Request)
            (NewRouter 0 [MockProvider "test-provider" 0 ["gpt-4"] None])).
  - vm_compute. reflexivity.
  - do 3 right. left. reflexivity.
  - do 6 right. left. reflexivity.
Defined.

Lemma writeChunks_not_LogUsage ch log : ~ In (EvGoLogUsage log) (writeChunks ch).
Proof.
  intros Hin.
  assert (H : In (EvGoLogUsage log) (List.filter isLogUsage (writeChunks ch)))
    by (apply filter_In; split; [assumption|reflexivity]).
  now rewrite writeChunks_no_LogUsage in H.
Qed.

Lemma usage_log_fields (h : Handler) (env : Env) (r r' : Router)
    (tr : list Event) (log : billing.UsageLog) :
  serve (HandleComplete h env) r = Some (r', tr)
  \/ serve (HandleCompleteStream h env) r = Some (r', tr) ->
  In (EvGoLogUsage log) tr ->
  ctx_tenantID env <> ""
  /\ billing.TenantID log = ctx_tenantID env
  /\ billing.RequestID log
     = (if String.eqb (ctx_requestID env) "" then uuid1 env else ctx_requestID env)
  /\ billing.ID log = ""
  /\ billing.CreatedAt log = None.
Proof.
  intros [H|H] Hlog.
  - unfold serve, HandleComplete, prepare, bind, writeJSON, emit, ret, onRouter,
      onLimiter in H.
    handler_paths H; cbn in Hlog; try (exfalso; intuition discriminate).
    destruct Hlog as [Hl|[Hl|[Hl|[Hl|[Hl|[Hl|[Hl|[]]]]]]]]; try discriminate.
    injection Hl as <-. cbn. apply String.eqb_neq in Heqb. auto.
  - unfold serve, HandleCompleteStream, prepare, bind, writeJSON, emit, emits, ret,
      onRouter, onLimiter in H.
    handler_paths H; cbn in Hlog; try (exfalso; intuition discriminate).
    destruct Hlog as [Hl|[Hl|[Hl|[Hl|[Hl|[Hl|Hl]]]]]]; try discriminate.
    apply in_app_or in Hl as [Hl|[Hl|[]]];
      [now apply writeChunks_not_LogUsage in Hl|].
    injection Hl as <-. cbn. apply String.eqb_neq in Heqb. auto.
Qed.

(** X10.  Every usage log either handler starts carries the tenant of the
    request's context, which is not empty, and the request id of the
    context, or the UUID drawn for the request when the context has none;
    its [ID] and [CreatedAt] are left for the store to fill. *)
Theorem usage_log_identity (h : Handler) (env : Env) (r r' : Router)
    (tr : list Event) (log : billing.UsageLog) :
  serve (HandleComplete h env) r = Some (r', tr)
  \/ serve (HandleCompleteStream h env) r = Some (r', tr) ->
  In (EvGoLogUsage log) tr ->
  ctx_tenantID env <> ""
  /\ billing.TenantID log = ctx_tenantID env
  /\ billing.RequestID log
     = (if String.eqb (ctx_requestID env) "" then uuid1 env else ctx_requestID env)
  /\ billing.ID log = ""
  /\ billing.CreatedAt log = None.
Proof. apply usage_log_fields. Qed.

Lemma usage_log_identity_witness :
  exists r' tr log,
    (serve (HandleComplete (testHandler true) (testEnv gpt4Request))
       (NewRouter 0 [MockProvider "test-provider" 0 ["gpt-4"] None])
     = Some (r', tr)
     \/ serve (HandleCompleteStream (testHandler true) (testEnv gpt4Request))
          (NewRouter 0 [MockProvider "test-provider" 0 ["gpt-4"] None])
        = Some (r', tr))
    /\ In (EvGoLogUsage log) tr
    /\ ctx_tenantID (testEnv gpt4Request) <> ""
    /\ billing.TenantID log = ctx_tenantID (testEnv gpt4Request)
    /\ billing.RequestID log
       = (if String.eqb (ctx_requestID (testEnv gpt4Request)) ""
          then uuid1 (testEnv gpt4Request)
          else ctx_requestID (testEnv gpt4Request))
    /\ billing.ID log = ""
    /\ billing.CreatedAt log = None.
Proof.
  eexists _, _, _. split; [left; vm_compute; reflexivity|].
  split; [do 3 right; left; reflexivity|].
  eapply (usage_log_identity (testHandler true) (testEnv gpt4Request)
            (NewRouter 0 [MockProvider "test-provider" 0 ["gpt-4"] None])).
  - left. vm_compute. reflexivity.
  - do 3 right. left. reflexivity.
Defined.

(** X11.  The usage log of a streamed completion records no usage: its
    token counts, cost and latency are 0; its provider is the name of the
    provider [Route] selected and its model is the model the request
    named (empty when the request named none). *)
Theorem stream_usage_log_records_no_tokens (h : Handler) (env : Env)
    (r r' : Router) (tr : list Event) (log : billing.UsageLog) :
  serve (HandleCompleteStream h env) r = Some (r', tr) ->
  In (EvGoLogUsage log) tr ->
  billing.InputTokens log = 0
  /\ billing.OutputTokens log = 0
  /\ billing.CostUSD log = 0%float
  /\ billing.LatencyMs log = 0
  /\ exists req r1 p,
       decoded env = Ok req
       /\ Route (t_route env) req r = Some (r1, Ok p)
       /\ billing.Provider log = Name p
       /\ billing.Model log = Request_Model req.
Proof.
  intros H Hlog.
  unfold serve, HandleCompleteStream, prepare, bind, writeJSON, emit, emits, ret,
    onRouter, onLimiter in H.
  handler_paths H; cbn in Hlog; try (exfalso; intuition discriminate).
  destruct Hlog as [Hl|[Hl|[Hl|[Hl|[Hl|[Hl|Hl]]]]]]; try discriminate.
  apply in_app_or in Hl as [Hl|[Hl|[]]];
    [now apply writeChunks_not_LogUsage in Hl|].
  injection Hl as <-. cbn. repeat split. eexists _, _, _. eauto.
Qed.

Lemma stream_usage_log_records_no_tokens_witness :
  exists r' tr log,
    serve (HandleCompleteStream (testHandler true) (testEnv gpt4Request))
      (NewRouter 0 [MockProvider "test-provider" 0 ["gpt-4"] None])
    = Some (r', tr)
    /\ In (EvGoLogUsage log) tr
    /\ billing.InputTokens log = 0
    /\ billing.OutputTokens log = 0
    /\ billing.CostUSD log = 0%float
    /\ billing.LatencyMs log = 0
    /\ exists req r1 p,
         decoded (testEnv gpt4Request) = Ok req
         /\ Route (t_route (testEnv gpt4Request)) req
              (NewRouter 0 [MockProvider "test-provider" 0 ["gpt-4"] None])
            = Some (r1, Ok p)
         /\ billing.Provider log = Name p
         /\ billing.Model log = Request_Model req.
Proof.
  eexists _, _, _. split; [vm_compute; reflexivity|].
  split; [do 8 right; left; reflexivity|].
  eapply (stream_usage_log_records_no_tokens (testHandler true)
            (testEnv gpt4Request)
            (NewRouter 0 [MockProvider "test-provider" 0 ["gpt-4"] None])).
  - vm_compute. reflexivity.
  - do 8 right. left. reflexivity.
Defined.

(** * Further properties of the event stream *)

(** X12.  The streaming loop flushes after every write: what it does is a
    sequence of frames, each written and immediately flushed, at most one
    frame per chunk received. *)
Theorem writeChunks_flushes_every_frame (ch : list Chunk) :
  exists frames,
    writeChunks ch = flat_map (fun f => [EvFprintf f; EvFlush]) frames
    /\ (length frames <= length ch)%nat.
Proof.
  induction ch as [|c ch (frames & IH & Hlen)]; cbn.
  - exists []. auto.
  - destruct (Chunk_Err c) as [e|].
    + exists [sseError e]. split; [reflexivity|cbn; lia].
    + destruct (Chunk_Done c).
      * exists [sseDone]. split; [reflexivity|cbn; lia].
      * exists (sseDelta (escape (Chunk_Delta c)) :: frames).
        cbn. rewrite IH. split; [reflexivity|lia].
Qed.

(** X13.  The streaming loop stops at the first terminal chunk: chunks
    that follow an error or done chunk on the channel are never written,
    and the chunks up to and including it get one frame each. *)
Theorem writeChunks_stops_at_terminal (pre post : list Chunk) (t : Chunk) :
  Forall (fun c => isTerminal c = false) pre ->
  isTerminal t = true ->
  writeChunks (pre ++ t :: post) = writeChunks (pre ++ [t])
  /\ length (writeChunks (pre ++ t :: post)) = (2 * S (length pre))%nat.
Proof.
  intros Hpre Ht. induction Hpre as [|c pre Hc Hpre IH]; cbn.
  - unfold isTerminal in Ht. destruct (Chunk_Err t); [auto|].
    cbn in Ht. rewrite Ht. auto.
  - unfold isTerminal in Hc. destruct (Chunk_Err c); [discriminate|].
    cbn in Hc. rewrite Hc. destruct IH as [IH1 IH2].
    rewrite IH1. split; [reflexivity|]. cbn. rewrite <- IH1, IH2. lia.
Qed.

Lemma writeChunks_stops_at_terminal_witness :
  writeChunks ([mkChunk "hello" false None] ++ mkChunk "" true None
                 :: [mkChunk "late" false None])
  = writeChunks ([mkChunk "hello" false None] ++ [mkChunk "" true None])
  /\ length (writeChunks ([mkChunk "hello" false None] ++ mkChunk "" true None
                            :: [mkChunk "late" false None]))
     = (2 * S (length [mkChunk "hello" false None]))%nat.
Proof.
  apply (writeChunks_stops_at_terminal [mkChunk "hello" false None]
           [mkChunk "late" false None] (mkChunk "" true None)).
  - repeat constructor.
  - reflexivity.
Defined.

Lemma noLF_app (a b : string) : noLF (a ++ b) = noLF a && noLF b.
Proof.
  induction a as [|x a IH]; [reflexivity|].
  rewrite append_cons. cbn [noLF]. rewrite IH. now rewrite andb_assoc.
Qed.

Lemma noLF_escapeBytes (s : string) : noLF (escapeBytes s) = true.
Proof.
  unfold escapeBytes. induction s as [|c s IH]; [reflexivity|].
  cbn [mapBytes]. rewrite noLF_app, IH, andb_true_r.
  unfold escapeByte.
  destruct (Ascii.eqb c "034"%char); [reflexivity|].
  destruct (Ascii.eqb c "010"%char) eqn:Hc; [reflexivity|].
  cbn [noLF]. now rewrite Hc.
Qed.

(** X14.  Whatever a delta contains, its frame is one line ended by two
    line feeds: the text before them holds no line feed, so a delta cannot
    end its own event or start another. *)
Theorem delta_frame_is_one_line (chunk : Chunk) (rest : list Chunk) :
  Chunk_Err chunk = None ->
  Chunk_Done chunk = false ->
  exists line,
    writeChunks (chunk :: rest)
    = EvFprintf (line ++ LF ++ LF) :: EvFlush :: writeChunks rest
    /\ noLF line = true.
Proof.
  intros He Hd. cbn -[escape]. rewrite He, Hd, escape_escapeBytes.
  exists ("data: {" ++ DQ ++ "choices" ++ DQ ++ ":[{" ++ DQ ++ "delta" ++ DQ
          ++ ":{" ++ DQ ++ "content" ++ DQ ++ ":" ++ DQ
          ++ escapeBytes (Chunk_Delta chunk) ++ DQ ++ "}," ++ DQ ++ "index"
          ++ DQ ++ ":0}]}").
  split.
  - unfold sseDelta, quoted. rewrite !append_assoc. reflexivity.
  - rewrite !noLF_app, noLF_escapeBytes. reflexivity.
Qed.

Lemma delta_frame_is_one_line_witness :
  exists line,
    writeChunks (mkChunk ("a" ++ LF ++ LF ++ "b") false None :: [])
    = EvFprintf (line ++ LF ++ LF) :: EvFlush :: writeChunks []
    /\ noLF line = true.
Proof.
  apply (delta_frame_is_one_line (mkChunk ("a" ++ LF ++ LF ++ "b") false None) []);
    reflexivity.
Defined.

Lemma length_append (a b : string) :
  String.length (a ++ b) = (String.length a + String.length b)%nat.
Proof.
  induction a as [|x a IH]; [reflexivity|].
  rewrite append_cons. cbn [String.length]. now rewrite IH.
Qed.

(** X15.  The handler's escaping keeps a delta that holds no double
    quote and no line feed as it is, and never shortens a delta nor more
    than doubles its length. *)
Theorem escape_plain_and_length (s : string) :
  (plain s = true -> escape s = s)
  /\ (String.length s <= String.length (escape s) <= 2 * String.length s)%nat.
Proof.
  rewrite escape_escapeBytes. unfold escapeBytes. split.
  - induction s as [|c s IH]; [reflexivity|].
    cbn [plain mapBytes]. intros H.
    apply andb_true_iff in H as [H Hs]. apply andb_true_iff in H as [Hq Hn].
    rewrite (IH Hs). unfold escapeByte.
    apply negb_true_iff in Hq, Hn. now rewrite Hq, Hn.
  - induction s as [|c s IH]; [cbn; lia|].
    cbn [mapBytes String.length]. rewrite length_append.
    assert (Hc : (1 <= String.length (escapeByte c) <= 2)%nat).
    { unfold escapeByte. destruct (Ascii.eqb c "034"%char); [vm_compute; lia|].
      destruct (Ascii.eqb c "010"%char); vm_compute; lia. }
    lia.
Qed.

(** * Further properties of the adapters *)

Ltac goal_case :=
  match goal with
  | |- context [match ?x with _ => _ end] =>
      lazymatch x with
      | context [match _ with _ => _ end] => fail
      | _ => destruct x eqn:?
      end
  end.

Lemma cleanStream_sendLast c :
  isTerminal c = true -> adapterChunk c -> cleanStream (openai.sendLast None c).
Proof.
  intros Ht Hc. split; [now apply sendLast_terminated|].
  cbn. now constructor.
Qed.

Lemma cleanStream_cons c l :
  isTerminal c = false -> adapterChunk c -> cleanStream l -> cleanStream (c :: l).
Proof.
  intros Ht Hc [Hw Hl]. split; [now apply wellTerminated_cons|now constructor].
Qed.

Lemma adapterChunk_delta text :
  negb (String.eqb text "") = true -> adapterChunk (mkChunk text false None).
Proof.
  intros H. left. cbn. repeat split.
  apply negb_true_iff, String.eqb_neq in H. exact H.
Qed.

Lemma adapterChunk_done : adapterChunk (mkChunk "" true None).
Proof. right. left. cbn. auto. Qed.

Lemma adapterChunk_error e : adapterChunk (mkChunk "" false (Some e)).
Proof. right. right. exists e. cbn. auto. Qed.

Ltac stream_leaf IH :=
  first
    [ apply IH
    | apply cleanStream_sendLast;
        [reflexivity|first [apply adapterChunk_done|apply adapterChunk_error]]
    | apply cleanStream_cons;
        [reflexivity|now apply adapterChunk_delta|apply IH] ].

Lemma openai_readLoop_clean TrimSpace Unmarshal lines ending :
  cleanStream (openai.readLoop TrimSpace Unmarshal lines ending None).
Proof.
  induction lines as [|raw lines IH]; cbn; repeat goal_case; stream_leaf IH.
Qed.

(** X16.  The chunks the OpenAI adapter's goroutine sends are of three
    kinds only, whether or not the request is cancelled: a delta with
    non-empty text, a done chunk without text, an error chunk without
    text.  A terminal chunk never carries text that the handler would
    drop. *)
Theorem openai_stream_chunks_are_clean
    (TrimSpace : string -> string)
    (Unmarshal : string -> result openai.openAIResponse)
    (Do : openai.openAIRequest -> result HTTPResponse)
    (openAIReq : openai.openAIRequest) (b : Budget) :
  Forall adapterChunk (openai.produce TrimSpace Unmarshal Do openAIReq b).
Proof.
  assert (Hfull : Forall adapterChunk
                    (openai.produce TrimSpace Unmarshal Do openAIReq None)).
  { apply proj2 with (A := wellTerminated
                              (openai.produce TrimSpace Unmarshal Do openAIReq None)).
    change (cleanStream (openai.produce TrimSpace Unmarshal Do openAIReq None)).
    unfold openai.produce. repeat goal_case;
      first [apply openai_readLoop_clean
            |apply cleanStream_sendLast; [reflexivity|apply adapterChunk_error]]. }
  destruct (produce_prefix TrimSpace Unmarshal Do openAIReq b) as [suffix Hs].
  rewrite <- Hs in Hfull. now apply Forall_app in Hfull as [H _].
Qed.

Lemma sendLast_cut b c : openai.sendLast b c = cut b (openai.sendLast None c).
Proof. destruct b as [[|k]|]; cbn; rewrite ?firstn_nil; reflexivity. Qed.

Lemma claude_readLoop_clean TrimSpace Unmarshal lines ending :
  forall ev, cleanStream (claude.readLoop TrimSpace Unmarshal lines ending ev None).
Proof.
  induction lines as [|raw lines IH]; intros ev; cbn; repeat goal_case;
    try stream_leaf IH.
  apply cleanStream_cons; [reflexivity| |apply IH].
  match goal with
  | H : (_ && _)%bool = true |- _ => apply andb_true_iff in H as [_ H]
  end.
  now apply adapterChunk_delta.
Qed.

Lemma claude_readLoop_cut TrimSpace Unmarshal lines ending :
  forall ev b,
    claude.readLoop TrimSpace Unmarshal lines ending ev b
    = cut b (claude.readLoop TrimSpace Unmarshal lines ending ev None).
Proof.
  induction lines as [|raw lines IH]; intros ev b; cbn [claude.readLoop].
  - destruct ending; apply sendLast_cut.
  - repeat goal_case;
      first [apply IH | apply sendLast_cut | reflexivity
            | cbn; f_equal; apply (IH _ (Some _))].
Qed.

(** X17. The Claude adapter's stream: [CompleteStream] always hands back
    a channel; when the context is never cancelled the chunks on it are
    non-empty deltas followed by exactly one last chunk, either the final
    one or a failure; and a cancellation only cuts that stream short,
    delivering its first chunks unchanged. *)
Theorem claude_stream_is_clean_and_cut
    (TrimSpace : string -> string)
    (Unmarshal : string -> result claude.claudeStreamDelta)
    (Do : claude.claudeRequest -> result HTTPResponse)
    (req : Request) (b : Budget) :
  exists full,
    claude.CompleteStream TrimSpace Unmarshal Do req None = Ok full
    /\ cleanStream full
    /\ claude.CompleteStream TrimSpace Unmarshal Do req b = Ok (cut b full).
Proof.
  unfold claude.CompleteStream. eexists. split; [reflexivity|]. split.
  - unfold claude.produce. repeat goal_case;
      first [apply claude_readLoop_clean
            |apply cleanStream_sendLast; [reflexivity|apply adapterChunk_error]].
  - f_equal. unfold claude.produce. repeat goal_case;
      first [apply claude_readLoop_cut | apply sendLast_cut].
Qed.

Lemma gemini_readLoop_clean TrimSpace Unmarshal lines ending :
  cleanStream (gemini.readLoop TrimSpace Unmarshal lines ending None).
Proof.
  induction lines as [|raw lines IH]; cbn; repeat goal_case;
    stream_leaf IH.
Qed.

Lemma gemini_readLoop_cut TrimSpace Unmarshal lines ending :
  forall b,
    gemini.readLoop TrimSpace Unmarshal lines ending b
    = cut b (gemini.readLoop TrimSpace Unmarshal lines ending None).
Proof.
  induction lines as [|raw lines IH]; intros b; cbn [gemini.readLoop].
  - destruct ending; apply sendLast_cut.
  - repeat goal_case;
      first [apply IH | apply sendLast_cut | reflexivity
            | cbn; f_equal; apply (IH (Some _))].
Qed.

(** X18. The Gemini adapter's stream: whether [CompleteStream] hands back
    a channel does not depend on the cancellation; when it does, the
    chunks of the uncancelled stream are non-empty deltas followed by
    exactly one last chunk, and a cancellation only cuts that stream
    short. *)
Theorem gemini_stream_is_clean_and_cut
    (apiKey baseURL : string)
    (TrimSpace : string -> string)
    (Unmarshal : string -> result gemini.geminiResponse)
    (NewRequest : string -> option error)
    (Do : string -> gemini.geminiRequest -> result HTTPResponse)
    (req : Request) (b : Budget) (ch : list Chunk) :
  gemini.CompleteStream apiKey baseURL TrimSpace Unmarshal NewRequest Do req b
    = Ok ch ->
  exists full,
    gemini.CompleteStream apiKey baseURL TrimSpace Unmarshal NewRequest Do req None
      = Ok full
    /\ cleanStream full
    /\ ch = cut b full.
Proof.
  unfold gemini.CompleteStream.
  destruct (unsupportedFloat _); [discriminate|].
  destruct (NewRequest _); [discriminate|].
  intros [= <-]. eexists. split; [reflexivity|]. split.
  - unfold gemini.produce. repeat goal_case;
      first [apply gemini_readLoop_clean
            |apply cleanStream_sendLast; [reflexivity|apply adapterChunk_error]].
  - unfold gemini.produce. repeat goal_case;
      first [apply gemini_readLoop_cut | apply sendLast_cut].
Qed.

Lemma gemini_stream_is_clean_and_cut_witness :
  exists full,
    gemini.CompleteStream "key" "https://generativelanguage.googleapis.com"
      trimLF geminiUnmarshal (fun _ => None) geminiUpstream flashRequest None
      = Ok full
    /\ cleanStream full
    /\ [mkChunk "Hello" false None] = cut (Some 1%nat) full.
Proof.
  apply (gemini_stream_is_clean_and_cut "key"
           "https://generativelanguage.googleapis.com" trimLF geminiUnmarshal
           (fun _ => None) geminiUpstream flashRequest (Some 1%nat)).
  vm_compute. reflexivity.
Defined.

Lemma last_cons_default {A} (l : list A) :
  forall a d, List.last (a :: l) d = List.last l a.
Proof.
  induction l as [|b l IH]; intros a d; [reflexivity|].
  change (List.last (a :: b :: l) d) with (List.last (b :: l) d).
  now rewrite !IH.
Qed.

Lemma mapMessages_spec ms :
  forall system messages,
    claude.mapMessages ms system messages
    = (List.last (map Message_Content (List.filter isSystem ms)) system,
       (messages
        ++ map (fun m => claude.mkClaudeMessage (claudeRole m) (Message_Content m))
             (List.filter (fun m => negb (isSystem m)) ms))%list).
Proof.
  induction ms as [|m ms IH]; intros system messages; cbn [claude.mapMessages].
  - cbn. now rewrite app_nil_r.
  - cbn [List.filter].
    change (String.eqb (Message_Role m) "system") with (isSystem m).
    destruct (isSystem m) eqn:Hs; rewrite IH; cbn [negb map].
    + now rewrite last_cons_default.
    + fold (claudeRole m). now rewrite <- app_assoc.
Qed.

(** X19. The Claude adapter's request: the messages it posts are the
    request's messages without the system messages, in order, with the
    role [assistant] kept and every other role turned into [user]; the
    system prompt is the content of the last system message, and is empty
    when there is none. *)
Theorem claude_mapRequest_extracts_system (req : Request) :
  claude.Messages (claude.mapRequest req)
  = map (fun m => claude.mkClaudeMessage (claudeRole m) (Message_Content m))
      (List.filter (fun m => negb (isSystem m)) (Request_Messages req))
  /\ claude.System (claude.mapRequest req)
     = List.last
         (map Message_Content (List.filter isSystem (Request_Messages req))) ""
  /\ Forall (fun m => claude.Role m = "assistant" \/ claude.Role m = "user")
       (claude.Messages (claude.mapRequest req)).
Proof.
  unfold claude.mapRequest. rewrite mapMessages_spec. cbn.
  split; [reflexivity|]. split; [reflexivity|].
  apply Forall_map, Forall_forall. intros m _. cbn. unfold claudeRole.
  destruct (String.eqb _ _); auto.
Qed.

(** X20. The Gemini adapter's request keeps every message, system
    messages included, in order and with one part each: the role
    [assistant] becomes [model] and every other role, [system] too,
    becomes [user]; the token limit is passed on as it is, zero
    included. *)
Theorem gemini_mapRequest_keeps_every_message (req : Request) :
  map (fun c => map gemini.Text (gemini.Parts c))
      (gemini.Contents (gemini.mapRequest req))
  = map (fun m => [Message_Content m]) (Request_Messages req)
  /\ map gemini.Role (gemini.Contents (gemini.mapRequest req))
     = map geminiRole (Request_Messages req)
  /\ (forall m, In m (Request_Messages req) -> isSystem m = true ->
        In (gemini.mkGeminiContent "user" [gemini.mkGeminiPart (Message_Content m)])
           (gemini.Contents (gemini.mapRequest req)))
  /\ gemini.MaxOutputTokens (gemini.GenerationConfig (gemini.mapRequest req))
     = Request_MaxTokens req.
Proof.
  unfold gemini.mapRequest. cbn. rewrite !map_map. cbn.
  split; [reflexivity|]. split; [reflexivity|]. split; [|reflexivity].
  intros m Hin Hs. apply in_map_iff. exists m. split; [|exact Hin].
  unfold isSystem in Hs. apply String.eqb_eq in Hs. now rewrite Hs.
Qed.

(** X21. An adapter's [Complete] succeeds only when the upstream answered
    200: the response then names the adapter and carries no latency.  The
    OpenAI and Claude adapters report the upstream's id, model, token
    counts and first content; the Gemini adapter leaves the id empty and
    reports the model of the request. *)
Theorem adapters_succeed_only_on_200
    (Do_o : openai.openAIRequest -> result HTTPResponse)
    (Decode_o : HTTPResponse -> result openai.openAIResponse)
    (Do_c : claude.claudeRequest -> result HTTPResponse)
    (Decode_c : HTTPResponse -> result claude.claudeResponse)
    (apiKey : string) (NewRequest : string -> option error)
    (Do_g : string -> gemini.geminiRequest -> result HTTPResponse)
    (Decode_g : HTTPResponse -> result gemini.geminiResponse)
    (req : Request) (resp : Response) :
  (openai.Complete Do_o Decode_o req = Ok resp ->
     exists http decoded choice rest,
       Do_o (openai.mapRequest req) = Ok http
       /\ StatusCode http = 200
       /\ Decode_o http = Ok decoded
       /\ openai.Choices decoded = choice :: rest
       /\ resp = mkResponse (openai.ID decoded)
                   (openai.Content (openai.Message choice))
                   (openai.PromptTokens (openai.Usage decoded))
                   (openai.CompletionTokens (openai.Usage decoded))
                   (openai.Response_Model decoded) "openai" 0)
  /\ (claude.Complete Do_c Decode_c req = Ok resp ->
        exists http decoded first rest,
          Do_c (claude.mapRequest req) = Ok http
          /\ StatusCode http = 200
          /\ Decode_c http = Ok decoded
          /\ claude.Response_Content decoded = first :: rest
          /\ resp = mkResponse (claude.ID decoded) (claude.Text first)
                      (claude.InputTokens (claude.Usage decoded))
                      (claude.OutputTokens (claude.Usage decoded))
                      (claude.Response_Model decoded) "claude" 0)
  /\ (gemini.Complete apiKey NewRequest Do_g Decode_g req = Ok resp ->
        exists url http decoded text,
          Do_g url (gemini.mapRequest req) = Ok http
          /\ StatusCode http = 200
          /\ Decode_g http = Ok decoded
          /\ gemini.firstText decoded = Some text
          /\ resp = mkResponse "" text
                      (gemini.PromptTokenCount (gemini.UsageMetadata decoded))
                      (gemini.CandidatesTokenCount (gemini.UsageMetadata decoded))
                      (Request_Model req) "gemini" 0).
Proof.
  split; [|split].
  - unfold openai.Complete.
    destruct (unsupportedFloat _); [discriminate|].
    destruct (Do_o _) as [http|] eqn:Hdo; [|discriminate].
    destruct (StatusCode http =? 200) eqn:Hst; [|discriminate]. cbn [negb].
    destruct (Decode_o http) as [decoded|] eqn:Hdec; [|discriminate].
    destruct (openai.Choices decoded) as [|choice rest] eqn:Hch; [discriminate|].
    intros [= <-]. exists http, decoded, choice, rest.
    apply Z.eqb_eq in Hst. auto.
  - unfold claude.Complete.
    destruct (Do_c _) as [http|] eqn:Hdo; [|discriminate].
    destruct (StatusCode http =? 200) eqn:Hst; [|discriminate]. cbn [negb].
    destruct (Decode_c http) as [decoded|] eqn:Hdec; [|discriminate].
    destruct (claude.Response_Content decoded) as [|first rest] eqn:Hch;
      [discriminate|].
    intros [= <-]. exists http, decoded, first, rest.
    apply Z.eqb_eq in Hst. auto.
  - unfold gemini.Complete.
    destruct (unsupportedFloat _); [discriminate|].
    destruct (NewRequest _); [discriminate|].
    destruct (Do_g _ _) as [http|] eqn:Hdo; [|discriminate].
    destruct (StatusCode http =? 200) eqn:Hst; [|discriminate]. cbn [negb].
    destruct (Decode_g http) as [decoded|] eqn:Hdec; [|discriminate].
    destruct (gemini.firstText decoded) as [text|] eqn:Hch; [|discriminate].
    intros [= <-]. eexists _, http, decoded, text.
    apply Z.eqb_eq in Hst. split; [exact Hdo|]. auto.
Qed.

Lemma adapters_succeed_only_on_200_witness :
  exists http decoded choice rest,
    mockUpstream (openai.mapRequest gpt4oMiniRequest) = Ok http
    /\ StatusCode http = 200
    /\ mockDecode http = Ok decoded
    /\ openai.Choices decoded = choice :: rest
    /\ mkResponse "test-id" "Hello from OpenAI mock!" 15 25 "gpt-4o-mini" "openai" 0
       = mkResponse (openai.ID decoded)
           (openai.Content (openai.Message choice))
           (openai.PromptTokens (openai.Usage decoded))
           (openai.CompletionTokens (openai.Usage decoded))
           (openai.Response_Model decoded) "openai" 0.
Proof.
  apply (proj1 (adapters_succeed_only_on_200 mockUpstream mockDecode
                  (fun _ => Failed "down") (fun _ => Failed "down")
                  "key" (fun _ => None)
                  (fun _ _ => Failed "down") (fun _ => Failed "down")
                  gpt4oMiniRequest
                  (mkResponse "test-id" "Hello from OpenAI mock!" 15 25
                     "gpt-4o-mini" "openai" 0))).
  vm_compute. reflexivity.
Defined.

(** X22. An upstream failure reaches the caller of the OpenAI adapter the
    same way on both paths: when the upstream answers both calls with a
    status other than 200, [Complete] fails with an error that carries
    the status and the body, and the stream of [CompleteStream] is that
    one error in a single chunk; when the upstream call itself fails,
    both report its error. *)
Theorem openai_upstream_failure_on_both_paths
    (TrimSpace : string -> string)
    (Unmarshal : string -> result openai.openAIResponse)
    (Do : openai.openAIRequest -> result HTTPResponse)
    (Decode : HTTPResponse -> result openai.openAIResponse)
    (req : Request) (answer : result HTTPResponse) :
  unsupportedFloat (Request_Temperature req) = None ->
  Do (openai.mapRequest req) = answer ->
  Do (openai.withStream (openai.mapRequest req)) = answer ->
  match answer with
  | Ok http => StatusCode http <> 200
  | Failed _ => True
  end ->
  exists err,
    openai.Complete Do Decode req = Failed err
    /\ openai.CompleteStream TrimSpace Unmarshal Do req None
       = Ok [mkChunk "" false (Some err)]
    /\ err = match answer with
             | Ok http =>
                 "openai api error (status " ++ itoa (StatusCode http) ++ "): "
                 ++ Body http
             | Failed e => e
             end.
Proof.
  intros Hfl Hc Hs Hst. unfold openai.Complete, openai.CompleteStream, openai.produce.
  cbn [openai.Temperature openai.withStream openai.mapRequest] in *.
  rewrite Hfl, Hc, Hs. destruct answer as [http|e].
  - apply Z.eqb_neq in Hst. rewrite Hst. cbn. eauto.
  - cbn. eauto.
Qed.

Lemma openai_upstream_failure_on_both_paths_witness :
  exists err,
    openai.Complete createdUpstream mockDecode gpt4oMiniRequest = Failed err
    /\ openai.CompleteStream (fun s => s)
         (fun _ => Failed "unexpected end of JSON input") createdUpstream
         gpt4oMiniRequest None
       = Ok [mkChunk "" false (Some err)]
    /\ err = "openai api error (status 201): created".
Proof.
  apply (openai_upstream_failure_on_both_paths (fun s => s)
           (fun _ => Failed "unexpected end of JSON input") createdUpstream
           mockDecode gpt4oMiniRequest (Ok (mkHTTPResponse 201 "created" None)));
    [vm_compute; reflexivity|reflexivity|reflexivity|cbn; lia].
Defined.

(** * Further properties of the usage endpoint *)

(** X23. Every query [HandleUsage] makes on the billing store is for the
    tenant of the request's context, which is not empty, and for one
    window: [from] as parsed from the query, or thirty days before the
    clock reading when the query has none, and [to] as parsed, or the
    clock reading.  The total cost is asked only after the logs were
    obtained, for the same tenant and window. *)
Theorem HandleUsage_queries_one_window
    (Parse : string -> result Time) (AddDate : Time -> Z -> Z -> Z -> Time)
    (timeJSON : Time -> JSON) (logJSON : billing.UsageLog -> JSON)
    (store : usage.Store) (env : usage.Env)
    (tenantID : string) (from to : Time) :
  let tr := usage.HandleUsage Parse AddDate timeJSON logJSON store env in
  In (usage.EvGetUsageByTenant tenantID from to) tr
  \/ In (usage.EvGetTotalCostByTenant tenantID from to) tr ->
  tenantID = usage.ctx_tenantID env
  /\ tenantID <> ""
  /\ (if String.eqb (usage.query_from env) ""
      then from = AddDate (usage.now env) 0 0 (-30)
      else Parse (usage.query_from env) = Ok from)
  /\ (if String.eqb (usage.query_to env) ""
      then to = usage.now env
      else Parse (usage.query_to env) = Ok to)
  /\ In (usage.EvGetUsageByTenant tenantID from to) tr
  /\ (In (usage.EvGetTotalCostByTenant tenantID from to) tr ->
      exists logs, usage.GetUsageByTenant store tenantID from to = Ok logs).
Proof.
  cbv zeta. unfold usage.HandleUsage, usage.writeJSON.
  destruct (String.eqb (usage.ctx_tenantID env) "") eqn:Ht.
  { cbn. intuition discriminate. }
  apply String.eqb_neq in Ht.
  destruct (String.eqb (usage.query_from env) "") eqn:Hf; cbn [negb];
    destruct (String.eqb (usage.query_to env) "") eqn:Hto; cbn [negb].
  all: repeat goal_case; cbn; intros H;
    repeat match goal with
           | H : _ \/ _ |- _ => destruct H
           | H : False |- _ => destruct H
           | H : usage.EvWriter _ = _ |- _ => discriminate H
           | H : usage.EvGetUsageByTenant _ _ _ = usage.EvGetTotalCostByTenant _ _ _ |- _ =>
               discriminate H
           | H : usage.EvGetTotalCostByTenant _ _ _ = usage.EvGetUsageByTenant _ _ _ |- _ =>
               discriminate H
           | H : usage.EvGetUsageByTenant _ _ _ = usage.EvGetUsageByTenant _ _ _ |- _ =>
               injection H as <- <- <-
           | H : usage.EvGetTotalCostByTenant _ _ _ = usage.EvGetTotalCostByTenant _ _ _ |- _ =>
               injection H as <- <- <-
           end;
    repeat split; eauto; intros;
    repeat match goal with
           | H : _ \/ _ |- _ => destruct H
           | H : False |- _ => destruct H
           | H : _ = _ |- _ => discriminate H
           end; eauto.
Qed.

Lemma HandleUsage_queries_one_window_witness :
  "test-tenant" = usage.ctx_tenantID usageEnv
  /\ "test-tenant" <> ""
  /\ (if String.eqb (usage.query_from usageEnv) ""
      then 1704067200 * Second = usageAddDate (usage.now usageEnv) 0 0 (-30)
      else usageParse (usage.query_from usageEnv) = Ok (1704067200 * Second))
  /\ (if String.eqb (usage.query_to usageEnv) ""
      then 1706745600 * Second = usage.now usageEnv
      else usageParse (usage.query_to usageEnv) = Ok (1706745600 * Second))
  /\ In (usage.EvGetUsageByTenant "test-tenant" (1704067200 * Second)
           (1706745600 * Second))
        (usage.HandleUsage usageParse usageAddDate usageTimeJSON usageLogJSON
           (usageStore None) usageEnv)
  /\ (In (usage.EvGetTotalCostByTenant "test-tenant" (1704067200 * Second)
            (1706745600 * Second))
         (usage.HandleUsage usageParse usageAddDate usageTimeJSON usageLogJSON
            (usageStore None) usageEnv) ->
      exists logs,
        usage.GetUsageByTenant (usageStore None) "test-tenant"
          (1704067200 * Second) (1706745600 * Second) = Ok logs).
Proof.
  apply (HandleUsage_queries_one_window usageParse usageAddDate usageTimeJSON
           usageLogJSON (usageStore None) usageEnv "test-tenant"
           (1704067200 * Second) (1706745600 * Second)).
  right. vm_compute. right. left. reflexivity.
Defined.


(** * Properties of the authenticator *)

Lemma NewMiddleware_admits sha256hex cacheGet GetByKey Is_ErrKeyNotFound
    uuid authHeader tr ctx :
  auth.NewMiddleware sha256hex cacheGet GetByKey Is_ErrKeyNotFound uuid authHeader
    = (tr, Some ctx) ->
  exists apiKey,
    foundKey sha256hex cacheGet GetByKey authHeader apiKey
    /\ ctx = auth.mkContext (auth.TenantID apiKey) (auth.ID apiKey) uuid
    /\ In (auth.EvSetHeader "X-Request-ID" uuid) tr.
Proof.
  unfold auth.NewMiddleware, foundKey. cbv zeta.
  destruct (String.eqb authHeader "") eqn:He; [discriminate|]. cbn [orb].
  destruct (String.prefix "Bearer " authHeader) eqn:Hp; [|discriminate].
  cbn [negb].
  destruct (cacheGet _) as [cached| |err] eqn:Hc.
  - intros [= <- <-]. exists cached. cbn. auto.
  - destruct (GetByKey _) as [apiK|e] eqn:Hg.
    + intros [= <- <-]. exists apiK. cbn. auto.
    + destruct (Is_ErrKeyNotFound e); discriminate.
  - destruct (GetByKey _) as [apiK|e] eqn:Hg.
    + intros [= <- <-]. exists apiK. cbn. auto.
    + destruct (Is_ErrKeyNotFound e); discriminate.
Qed.

(** X25. The authenticator calls the next handler only for a request
    whose [Authorization] header is a bearer token for which the cache
    held a key or, when the cache did not, the store returned one; the
    context it passes on carries the tenant and the id of that key and
    the request id it announced in the [X-Request-ID] header. *)
Theorem middleware_admits_only_known_keys
    (sha256hex : string -> string) (cacheGet : string -> auth.CacheAnswer)
    (GetByKey : string -> result auth.APIKey) (Is_ErrKeyNotFound : error -> bool)
    (uuid authHeader : string) (tr : list auth.Event) (ctx : auth.Context) :
  auth.NewMiddleware sha256hex cacheGet GetByKey Is_ErrKeyNotFound uuid authHeader
    = (tr, Some ctx) ->
  exists apiKey,
    foundKey sha256hex cacheGet GetByKey authHeader apiKey
    /\ ctx = auth.mkContext (auth.TenantID apiKey) (auth.ID apiKey) uuid
    /\ In (auth.EvSetHeader "X-Request-ID" uuid) tr.
Proof. apply NewMiddleware_admits. Qed.

Lemma middleware_admits_only_known_keys_witness :
  exists apiKey,
    foundKey testDigest (fun _ => auth.Nil) seededStore
      "Bearer test-api-key-12345" apiKey
    /\ auth.mkContext "00000000-0000-0000-0000-000000000001" "key-1" "uuid-0"
       = auth.mkContext (auth.TenantID apiKey) (auth.ID apiKey) "uuid-0"
    /\ In (auth.EvSetHeader "X-Request-ID" "uuid-0")
         [auth.EvSetHeader "X-Request-ID" "uuid-0";
          auth.EvCacheGet "auth:sha256(test-api-key-12345)";
          auth.EvGetByKey "test-api-key-12345";
          auth.EvCacheSet "auth:sha256(test-api-key-12345)" seededKey
            (5 * auth.Minute)].
Proof.
  apply (middleware_admits_only_known_keys testDigest (fun _ => auth.Nil)
           seededStore isNotFound "uuid-0" "Bearer test-api-key-12345").
  vm_compute. reflexivity.
Defined.

(** X26. What the authenticator does on every request: it first sets the
    [X-Request-ID] header; it looks into the store only when the cache
    did not hold the key; it writes to the cache only the key the store
    returned, under the digest of the token and for five minutes; and it
    either calls the next handler or answers with exactly one error,
    which is 401 or 500, never both. *)
Theorem middleware_protocol
    (sha256hex : string -> string) (cacheGet : string -> auth.CacheAnswer)
    (GetByKey : string -> result auth.APIKey) (Is_ErrKeyNotFound : error -> bool)
    (uuid authHeader : string) :
  let out :=
    auth.NewMiddleware sha256hex cacheGet GetByKey Is_ErrKeyNotFound uuid
      authHeader in
  let key := TrimPrefix authHeader "Bearer " in
  let redisKey := "auth:" ++ sha256hex key in
  (exists rest, fst out = auth.EvSetHeader "X-Request-ID" uuid :: rest)
  /\ (forall k, In (auth.EvGetByKey k) (fst out) ->
        k = key /\ In (auth.EvCacheGet redisKey) (fst out)
        /\ forall cached, cacheGet redisKey <> auth.Hit cached)
  /\ (forall rk apiKey expiration,
        In (auth.EvCacheSet rk apiKey expiration) (fst out) ->
        rk = redisKey /\ GetByKey key = Ok apiKey
        /\ expiration = 300 * Second)
  /\ (forall e, In e (fst out) -> isHttpError e = true ->
        snd out = None
        /\ (exists msg, e = auth.EvHttpError msg 401 \/ e = auth.EvHttpError msg 500))
  /\ length (List.filter isHttpError (fst out))
     = match snd out with Some _ => 0%nat | None => 1%nat end.
Proof.
  cbv zeta. unfold auth.NewMiddleware.
  destruct (String.eqb authHeader "" || negb (String.prefix "Bearer " authHeader))
    eqn:Hh.
  { cbn. repeat split; eauto; intros;
      repeat match goal with
             | H : _ \/ _ |- _ => destruct H
             | H : False |- _ => destruct H
             | H : _ = _ |- _ => first [discriminate H | subst]
             end; eauto. }
  destruct (cacheGet _) as [cached| |err] eqn:Hc;
    [|destruct (GetByKey _) as [apiK|e] eqn:Hg; [|destruct (Is_ErrKeyNotFound e)]
     |destruct (GetByKey _) as [apiK|e] eqn:Hg; [|destruct (Is_ErrKeyNotFound e)]].
  all: cbn; repeat split; eauto; intros;
    repeat match goal with
           | H : _ \/ _ |- _ => destruct H
           | H : False |- _ => destruct H
           | H : auth.EvCacheSet _ _ _ = auth.EvCacheSet _ _ _ |- _ =>
               injection H as <- <- <-
           | H : auth.EvGetByKey _ = auth.EvGetByKey _ |- _ => injection H as <-
           | H : _ = _ |- _ => discriminate H
           end; eauto; try congruence;
    subst; cbn in *; try discriminate;
    try (eexists; first [left; reflexivity | right; reflexivity]).
Qed.

(** * Properties of the protected routes *)

(** X27. Behind the authenticator, every usage log a completion handler
    starts is billed to the tenant of the key that was found for the
    bearer token, a tenant that is not empty, and carries the request id
    that the authenticator announced in the [X-Request-ID] header (the
    UUID it drew, which is never empty). *)
Theorem protected_usage_log_identity
    (sha256hex : string -> string) (cacheGet : string -> auth.CacheAnswer)
    (GetByKey : string -> result auth.APIKey) (Is_ErrKeyNotFound : error -> bool)
    (uuid authHeader : string) (h : Handler) (env : Env) (r r' : Router)
    (atr : list auth.Event) (htr : list Event) (log : billing.UsageLog) :
  uuid <> "" ->
  (let authenticated :=
     auth.NewMiddleware sha256hex cacheGet GetByKey Is_ErrKeyNotFound uuid
       authHeader in
   main.protected authenticated (HandleComplete h) env r = Some (r', atr, htr)
   \/ main.protected authenticated (HandleCompleteStream h) env r
      = Some (r', atr, htr)) ->
  In (EvGoLogUsage log) htr ->
  exists apiKey,
    foundKey sha256hex cacheGet GetByKey authHeader apiKey
    /\ billing.TenantID log = auth.TenantID apiKey
    /\ auth.TenantID apiKey <> ""
    /\ billing.RequestID log = uuid
    /\ In (auth.EvSetHeader "X-Request-ID" (billing.RequestID log)) atr.
Proof.
  intros Hu H Hlog. cbv zeta in H. unfold main.protected in H.
  destruct (auth.NewMiddleware _ _ _ _ _ _) as [tr [ctx|]] eqn:Hmw.
  - destruct (NewMiddleware_admits _ _ _ _ _ _ _ _ Hmw)
      as (apiKey & Hfound & -> & Hhdr).
    assert (Hserve :
      exists r1,
        (serve (HandleComplete h
                  (main.withContext
                     (auth.mkContext (auth.TenantID apiKey) (auth.ID apiKey) uuid)
                     env)) r = Some (r1, htr)
         \/ serve (HandleCompleteStream h
                     (main.withContext
                        (auth.mkContext (auth.TenantID apiKey) (auth.ID apiKey) uuid)
                        env)) r = Some (r1, htr))
        /\ atr = tr).
    { destruct H as [H|H];
        match type of H with
        | match ?x with _ => _ end = _ =>
            destruct x as [[r1 tr1]|] eqn:Hs; [|discriminate]
        end; injection H as <- <- <-; eauto. }
    destruct Hserve as (r1 & Hs & ->).
    destruct (usage_log_fields _ _ _ _ _ _ Hs Hlog) as (Ht & Hlt & Hlr & _).
    cbn in Ht, Hlt, Hlr. apply String.eqb_neq in Hu. rewrite Hu in Hlr.
    exists apiKey. rewrite Hlr. auto.
  - destruct H as [H|H]; injection H as <- <- <-; destruct Hlog.
Qed.

Lemma protected_usage_log_identity_witness :
  exists r' atr htr log,
    main.protected
      (auth.NewMiddleware testDigest (fun _ => auth.Nil) seededStore isNotFound
         "uuid-0" "Bearer test-api-key-12345")
      (HandleComplete (testHandler true)) (testEnv gpt4Request)
      (NewRouter 0 [MockProvider "test-provider" 0 ["gpt-4"] None])
    = Some (r', atr, htr)
    /\ In (EvGoLogUsage log) htr
    /\ exists apiKey,
         foundKey testDigest (fun _ => auth.Nil) seededStore
           "Bearer test-api-key-12345" apiKey
         /\ billing.TenantID log = auth.TenantID apiKey
         /\ auth.TenantID apiKey <> ""
         /\ billing.RequestID log = "uuid-0"
         /\ In (auth.EvSetHeader "X-Request-ID" (billing.RequestID log)) atr.
Proof.
  eexists _, _, _, _. split; [vm_compute; reflexivity|].
  split; [do 3 right; left; reflexivity|].
  eapply (protected_usage_log_identity testDigest (fun _ => auth.Nil) seededStore
            isNotFound "uuid-0" "Bearer test-api-key-12345" (testHandler true)
            (testEnv gpt4Request)
            (NewRouter 0 [MockProvider "test-provider" 0 ["gpt-4"] None])).
  - discriminate.
  - left. vm_compute. reflexivity.
  - do 3 right. left. reflexivity.
Defined.

(** * Properties of the gateway's providers *)

(** X28. With the providers as [main] registers them (Gemini, OpenAI,
    Claude), no model is listed by two adapters: a request that names a
    model one adapter lists is routed to that adapter whenever its
    breaker is not open, whatever the other breakers show.  A request
    without a model is routed by cost, which makes the order Gemini,
    OpenAI, Claude: it goes to the first of the three whose breaker is
    not open, and fails with "all providers unavailable" when all three
    are open. *)
Theorem gateway_routing_table (cfg : config.Config) (w : main.World)
    (now : Time) (req : Request) (r : Router) :
  wellFormed r ->
  providers r = main.providers cfg w ->
  (forall p,
     In p (providers r) ->
     In (Request_Model req) (SupportedModels p) ->
     notOpen now (breakers r) (Name p) = true ->
     exists r', Route now req r = Some (r', Ok p))
  /\ (Request_Model req = "" ->
      exists r' gemini openai claude,
        providers r = [gemini; openai; claude]
        /\ map Name [gemini; openai; claude] = ["gemini"; "openai"; "claude"]
        /\ Route now req r
           = Some (r',
                   if notOpen now (breakers r) "gemini" then Ok gemini
                   else if notOpen now (breakers r) "openai" then Ok openai
                   else if notOpen now (breakers r) "claude" then Ok claude
                   else Failed errAllUnavailable)).
Proof.
  intros Hwf Hps.
  destruct (Route_eligible now req r Hwf) as (bs' & _ & HR).
  rewrite HR. clear HR. unfold eligible. rewrite Hps. unfold main.providers.
  split.
  - intros p Hin Hmodel Hopen.
    cbn [In] in Hin.
    destruct Hin as [<-|[<-|[<-|[]]]];
      cbn in Hmodel, Hopen;
      repeat match type of Hmodel with
             | _ \/ _ => destruct Hmodel as [Hmodel|Hmodel]
             | False => destruct Hmodel
             end;
      rewrite <- Hmodel;
      cbn -[notOpen];
      destruct (notOpen now (breakers r) "gemini") eqn:Hg;
      destruct (notOpen now (breakers r) "openai") eqn:Ho;
      destruct (notOpen now (breakers r) "claude") eqn:Hc;
      try discriminate; cbn; eauto.
  - intros ->. eexists _, _, _, _. split; [reflexivity|].
    split; [reflexivity|]. cbn -[notOpen].
    destruct (notOpen now (breakers r) "gemini") eqn:Hg;
      destruct (notOpen now (breakers r) "openai") eqn:Ho;
      destruct (notOpen now (breakers r) "claude") eqn:Hc;
      vm_compute; reflexivity.
Qed.

Lemma gateway_routing_table_witness :
  (forall p,
     In p (providers gatewayRouter) ->
     In (Request_Model gpt4oMiniRequest) (SupportedModels p) ->
     notOpen (5 * Second) (breakers gatewayRouter) (Name p) = true ->
     exists r', Route (5 * Second) gpt4oMiniRequest gatewayRouter = Some (r', Ok p))
  /\ (Request_Model gpt4oMiniRequest = "" ->
      exists r' gemini openai claude,
        providers gatewayRouter = [gemini; openai; claude]
        /\ map Name [gemini; openai; claude] = ["gemini"; "openai"; "claude"]
        /\ Route (5 * Second) gpt4oMiniRequest gatewayRouter
           = Some (r',
                   if notOpen (5 * Second) (breakers gatewayRouter) "gemini"
                   then Ok gemini
                   else if notOpen (5 * Second) (breakers gatewayRouter) "openai"
                   then Ok openai
                   else if notOpen (5 * Second) (breakers gatewayRouter) "claude"
                   then Ok claude
                   else Failed errAllUnavailable)).
Proof.
  apply (gateway_routing_table testConfig testWorld (5 * Second) gpt4oMiniRequest
           gatewayRouter).
  - intros p [<-|[<-|[<-|[]]]]; vm_compute; eauto.
  - reflexivity.
Defined.

(** * Properties of the configuration *)

(** X29. [Load] succeeds exactly when the rate limit parses as an integer
    and both [POSTGRES_DSN] and [REDIS_ADDR] are set to a non-empty
    value; the provider keys are not required.  A rate limit that does
    not parse is reported first, whatever else is missing.  On success
    the configuration carries the parsed limit and the two addresses,
    and [PORT] is the value of the variable whenever it is set, even to
    the empty string, and "8080" only when it is unset. *)
Theorem Load_validation (ParseInt : string -> result Z) (env : config.Environ) :
  let tpmStr := config.getEnv env "DEFAULT_RATE_LIMIT_TPM" "100000" in
  (forall cfg,
     config.Load ParseInt env = Ok cfg ->
     ParseInt tpmStr = Ok (config.DefaultRateLimitTPM cfg)
     /\ env !! "POSTGRES_DSN" = Some (config.PostgresDSN cfg)
     /\ config.PostgresDSN cfg <> ""
     /\ env !! "REDIS_ADDR" = Some (config.RedisAddr cfg)
     /\ config.RedisAddr cfg <> ""
     /\ config.Port cfg = default "8080" (env !! "PORT"))
  /\ (forall tpm dsn addr,
        ParseInt tpmStr = Ok tpm ->
        env !! "POSTGRES_DSN" = Some dsn -> dsn <> "" ->
        env !! "REDIS_ADDR" = Some addr -> addr <> "" ->
        exists cfg, config.Load ParseInt env = Ok cfg)
  /\ (forall e,
        ParseInt tpmStr = Failed e ->
        config.Load ParseInt env
        = Failed ("invalid DEFAULT_RATE_LIMIT_TPM: " ++ e)).
Proof.
  cbv zeta. unfold config.Load. cbn [config.PostgresDSN config.RedisAddr].
  unfold config.Getenv, config.getEnv.
  split; [|split].
  - intros cfg H.
    destruct (ParseInt _) as [tpm|e]; [|discriminate H].
    destruct (env !! "POSTGRES_DSN") as [dsn|] eqn:Hd; [|discriminate H].
    destruct (String.eqb dsn "") eqn:Hdsn; [discriminate H|].
    destruct (env !! "REDIS_ADDR") as [addr|] eqn:Ha; [|discriminate H].
    destruct (String.eqb addr "") eqn:Haddr; [discriminate H|].
    injection H as <-. cbn.
    apply String.eqb_neq in Hdsn, Haddr.
    repeat split; auto.
  - intros tpm dsn addr -> -> Hdsn -> Haddr.
    apply String.eqb_neq in Hdsn, Haddr. rewrite Hdsn, Haddr. eauto.
  - now intros e ->.
Qed.
